(** * Transport/traffic ETL pipeline: a shallow embedding of
    [scripts/etl_pipeline.py] and the properties of its stages.

    The pipeline is written against pandas.  A DataFrame is modelled the way
    pandas stores it: an ordered list of column labels and a list of rows,
    every row carrying its index label and one cell per column, by position.
    DataFrames are mutable Python objects, so they live in a store and the
    functions of the script receive and return references into it.

    Idealisations, all on the side of the libraries and none on the side of
    the script: numbers are rationals instead of binary floats; a write to
    a file or to the database cannot fail.  A frame holds cells, not typed
    columns, and a timestamp is an integer count of nanoseconds without a
    time zone, so what pandas decides by the dtype of a column or by a
    repeated label is not in the frames.  The properties that depend on it
    say so in their hypotheses: distinct column labels, routes that are
    texts on both sides of the merge, timestamps parsed without a time
    zone, and, for the floor itself, the 64-bit range.  What pandas parses
    as a timestamp or as a number is left open: the functions of the script
    are defined, and their properties proved, for any parsers that behave
    as [errors="coerce"] promises.

    The dashboard, [app/dashboard.py], is a second process that reads the
    table the pipeline writes; its loader and its filter block are embedded
    after the pipeline, on the same frames. *)

From Stdlib Require Import ZArith QArith Lia Ascii.
From stdpp Require Import base option list strings gmap pretty sorting.

Local Open Scope Z_scope.
Local Open Scope string_scope.
Local Open Scope list_scope.
Local Open Scope nat_scope.

(** ** Cells, rows, frames *)

(** What a cell of a DataFrame holds: a missing value ([None], [NaN] and
    [NaT] alike, which is what [isna] tests), a Python string, a number, or a
    timestamp in nanoseconds since the epoch. *)
Inductive cell : Type :=
| CNull
| CStr (s : string)
| CNum (q : Q)
| CTime (ns : Z).

#[global] Instance Q_eq_dec : EqDecision Q.
Proof. solve_decision. Defined.

#[global] Instance cell_eq_dec : EqDecision cell.
Proof. solve_decision. Defined.

#[global] Instance cell_inhabited : Inhabited cell := populate CNull.

Definition isna (c : cell) : bool :=
  match c with CNull => true | _ => false end.

Definition is_time (c : cell) : bool :=
  match c with CTime _ => true | _ => false end.

Definition is_num (c : cell) : bool :=
  match c with CNum _ => true | _ => false end.

Definition is_str (c : cell) : bool :=
  match c with CStr _ => true | _ => false end.

Record Row : Type := mkRow { label : nat; cells : list cell }.

Record DataFrame : Type := mkDF { columns : list string; rows : list Row }.

(** Position of the first column labelled [c]. *)
Fixpoint col_index (c : string) (cols : list string) : option nat :=
  match cols with
  | [] => None
  | x :: xs => if decide (x = c) then Some 0 else S <$> col_index c xs
  end.

(** The cell of a row at a position; a row too short reads as missing. *)
Definition cell_at (i : nat) (r : Row) : cell := default CNull (cells r !! i).

(** The cell of a row under a column label. *)
Definition cell_of (cols : list string) (c : string) (r : Row) : cell :=
  match col_index c cols with
  | Some i => cell_at i r
  | None => CNull
  end.

(** ** Hour buckets: [Series.dt.floor("H")] *)

Definition NS_PER_HOUR : Z := 3600000000000%Z.
Definition NS_PER_MINUTE : Z := 60000000000%Z.

(** Flooring subtracts the remainder of the division by the unit; the
    remainder has the sign of the unit, as Python's [%] has. *)
Definition floor_hour (ns : Z) : Z := (ns - ns mod NS_PER_HOUR)%Z.

Definition floor_cell (c : cell) : cell :=
  match c with
  | CTime ns => CTime (floor_hour ns)
  | other => other
  end.

(** [datetime64[ns]] counts the nanoseconds in a signed 64-bit integer
    whose least value stands for [NaT], and pandas floors in checked 64-bit
    arithmetic: a timestamp before the first whole hour of the range has
    its floor outside the range, and [floor] raises [OverflowError] on it.
    [floor_hour] is the floor of pandas from that first hour on. *)
Definition INT64_MIN : Z := (- 2 ^ 63)%Z.
Definition INT64_MAX : Z := (2 ^ 63 - 1)%Z.
Definition FIRST_HOUR : Z := (-2562047 * NS_PER_HOUR)%Z.

(** The cells that pandas floors: a missing timestamp, or a timestamp from
    the first whole hour of the range on. *)
Definition floorable (c : cell) : Prop :=
  match c with
  | CNull => True
  | CTime t => (FIRST_HOUR ≤ t ≤ INT64_MAX)%Z
  | _ => False
  end.

(** ** Exceptions, results and the state-and-exception monad *)

Inductive exn : Type :=
| KeyError (key : string)
| ValueError (msg : string) (items : list string)
| AttributeError (msg : string)
| TypeError (msg : string)
| SourceError (msg : string)
| SMTPError (msg : string)
| NoSuchObject (r : nat).

Inductive result (A : Type) : Type :=
| Ok (a : A)
| Raise (e : exn).
Arguments Ok {A} a.
Arguments Raise {A} e.

(** A Python exception does not undo the side effects made before it: the
    state comes back with the exception. *)
Definition M (S A : Type) : Type := S → result A * S.

Definition ret {S A} (a : A) : M S A := λ s, (Ok a, s).

Definition raise {S A} (e : exn) : M S A := λ s, (Raise e, s).

Definition bind {S A B} (m : M S A) (k : A → M S B) : M S B :=
  λ s, match m s with
       | (Ok a, s') => k a s'
       | (Raise e, s') => (Raise e, s')
       end.

(** [try: m except Exception as e: h e] *)
Definition try_except {S A} (m : M S A) (h : exn → M S A) : M S A :=
  λ s, match m s with
       | (Ok a, s') => (Ok a, s')
       | (Raise e, s') => h e s'
       end.

Definition of_result {S A} (r : result A) : M S A := λ s, (r, s).

Declare Scope monad_scope.
Delimit Scope monad_scope with monad.
Notation "x ← m ; k" := (bind m (λ x, k))
  (at level 20, m at level 100, k at level 200, only parsing) : monad_scope.
Notation "m ;; k" := (bind m (λ _, k))
  (at level 100, k at level 200, only parsing, right associativity) : monad_scope.
Local Open Scope monad_scope.

(** ** The object store *)

Abbreviation ref := nat (only parsing).
Abbreviation heap := (list DataFrame) (only parsing).

Definition new_frame (df : DataFrame) : M heap ref :=
  λ h, (Ok (length h), h ++ [df]).

Definition frame (r : ref) : M heap DataFrame :=
  λ h, match h !! r with
       | Some df => (Ok df, h)
       | None => (Raise (NoSuchObject r), h)
       end.

Definition store (r : ref) (df : DataFrame) : M heap unit :=
  λ h, (Ok tt, <[r := df]> h).

(** ** pandas operations on frames *)

(** Positions of the listed labels; the first absent label is a [KeyError]. *)
Fixpoint col_indices (cs cols : list string) : result (list nat) :=
  match cs with
  | [] => Ok []
  | c :: cs' =>
      match col_index c cols with
      | None => Raise (KeyError c)
      | Some i =>
          match col_indices cs' cols with
          | Ok ixs => Ok (i :: ixs)
          | Raise e => Raise e
          end
      end
  end.

Definition notna_at (ixs : list nat) (r : Row) : Prop :=
  Forall (λ i, isna (cell_at i r) = false) ixs.

#[global] Instance notna_at_dec ixs r : Decision (notna_at ixs r).
Proof. unfold notna_at. apply _. Defined.

(** [df.dropna(subset=cs)]: a new frame, the rows with a missing value in
    one of the columns [cs] left out, labels and order kept. *)
Definition df_dropna (cs : list string) (df : DataFrame) : result DataFrame :=
  match col_indices cs (columns df) with
  | Raise e => Raise e
  | Ok ixs => Ok (mkDF (columns df) (filter (notna_at ixs) (rows df)))
  end.

(** [df[c]]: the values of a column, in row order, the labels of the frame
    being distinct (under a repeated label pandas hands out a frame, not a
    column). *)
Definition df_getitem (c : string) (df : DataFrame) : result (list cell) :=
  match col_index c (columns df) with
  | None => Raise (KeyError c)
  | Some i => Ok (cell_at i <$> rows df)
  end.

Definition set_cell (i : nat) (v : cell) (r : Row) : Row :=
  mkRow (label r) (<[i := v]> (cells r)).

Definition push_cell (v : cell) (r : Row) : Row :=
  mkRow (label r) (cells r ++ [v]).

(** [df[c] = vs]: overwrite column [c], or append it when the frame has no
    such column. *)
Definition df_setitem (c : string) (vs : list cell) (df : DataFrame)
  : result DataFrame :=
  if decide (length vs = length (rows df)) then
    match col_index c (columns df) with
    | Some i => Ok (mkDF (columns df) (zip_with (λ r v, set_cell i v r) (rows df) vs))
    | None => Ok (mkDF (columns df ++ [c]) (zip_with (λ r v, push_cell v r) (rows df) vs))
    end
  else Raise (ValueError "Length of values does not match length of index" []).

(** [df.rename(columns=mapping)]: a new frame with the labels replaced. *)
Fixpoint renamed (mapping : list (string * string)) (c : string) : string :=
  match mapping with
  | [] => c
  | (old, new) :: rest => if decide (old = c) then new else renamed rest c
  end.

Definition df_rename (mapping : list (string * string)) (df : DataFrame) : DataFrame :=
  mkDF (renamed mapping <$> columns df) (rows df).

(** [s.dt.floor("H")]: only a datetime column has the [.dt] accessor. *)
Definition dt_floor_H (vs : list cell) : result (list cell) :=
  if decide (Forall (λ v, is_time v || isna v) vs) then Ok (floor_cell <$> vs)
  else Raise (AttributeError "Can only use .dt accessor with datetimelike values").

(** Join keys are compared by value; pandas matches a missing key with a
    missing key. *)
Definition key_eqb (a b : cell) : bool :=
  match a, b with
  | CNull, CNull => true
  | CStr s, CStr t => bool_decide (s = t)
  | CNum p, CNum q => Qeq_bool p q
  | CTime m, CTime n => bool_decide (m = n)
  | _, _ => false
  end.

Definition keys_match (lk rk : list nat) (l r : Row) : Prop :=
  Forall2 (λ i j, key_eqb (cell_at i l) (cell_at j r) = true) lk rk.

#[global] Instance keys_match_dec lk rk l r : Decision (keys_match lk rk l r).
Proof. unfold keys_match. apply _. Defined.

(** Columns of the merged frame: the left columns, then the right columns
    that are not keys; a label on both sides that is not a key gets the
    suffix of its side. *)
Definition merged_columns (on : list string) (sl sr : string)
    (lc rc : list string) : list string :=
  ((λ c, if decide (c ∈ on) then c
         else if decide (c ∈ rc) then c +:+ sl else c) <$> lc) ++
  ((λ c, if decide (c ∈ lc) then c +:+ sr else c) <$> filter (λ c, c ∉ on) rc).

(** Positions of the right columns that are carried over. *)
Definition carried (on rc : list string) : list nat :=
  fst <$> filter (λ ic, ic.2 ∉ on) (imap pair rc).

(** Rows of an inner join: every left row, in order, with every right row of
    the same key, in order. *)
Definition merged_cells (lk rk keep : list nat) (ls rs : list Row) : list (list cell) :=
  flat_map (λ l, (λ r, cells l ++ ((λ j, cell_at j r) <$> keep))
                   <$> filter (keys_match lk rk l) rs) ls.

(** [pd.merge(left, right, on=on, how="inner", suffixes=(sl, sr))], for key
    columns of the same dtype on both sides and labels that the suffixes
    keep distinct; outside of these pandas may raise ([ValueError],
    [MergeError]) before it pairs a row. *)
Definition df_merge (on : list string) (sl sr : string) (left right : DataFrame)
  : result DataFrame :=
  match col_indices on (columns right), col_indices on (columns left) with
  | Raise e, _ => Raise e
  | _, Raise e => Raise e
  | Ok rk, Ok lk =>
      Ok (mkDF (merged_columns on sl sr (columns left) (columns right))
               (imap mkRow (merged_cells lk rk (carried on (columns right))
                                         (rows left) (rows right))))
  end.

(** The same operations on references. [dropna], [merge] and [rename] build
    a new object; item assignment changes the object it is applied to. *)
Definition getitem (df : ref) (c : string) : M heap (list cell) :=
  d ← frame df; of_result (df_getitem c d).

Definition setitem (df : ref) (c : string) (vs : list cell) : M heap unit :=
  d ← frame df; d' ← of_result (df_setitem c vs d); store df d'.

Definition dropna (df : ref) (subset : list string) : M heap ref :=
  d ← frame df; d' ← of_result (df_dropna subset d); new_frame d'.

Definition merge (left right : ref) (on : list string) (suffixes : string * string)
  : M heap ref :=
  l ← frame left; r ← frame right;
  d ← of_result (df_merge on suffixes.1 suffixes.2 l r);
  new_frame d.

Definition rename (df : ref) (mapping : list (string * string)) : M heap ref :=
  d ← frame df; new_frame (df_rename mapping d).

Definition df_columns (df : ref) : M heap (list string) :=
  d ← frame df; ret (columns d).

(** [for x in xs: acc = body(acc, x)] *)
Fixpoint for_each {S A B} (xs : list A) (body : B → A → M S B) (acc : B) : M S B :=
  match xs with
  | [] => ret acc
  | x :: xs' => acc' ← body acc x; for_each xs' body acc'
  end.

(** ** The parsers of pandas

    [pd.to_datetime(s, errors="coerce")] works on a whole column (the format
    is inferred from the column), [pd.to_numeric(s, errors="coerce")] element
    by element.  Their parsing rules are pandas's own business; the script
    depends on what [errors="coerce"] promises: a value that cannot be read
    becomes [NaT] or [NaN], nothing is raised, and the column keeps its
    length.

    Texts with a UTC offset are parsed into a column with a time zone (the
    dtype [datetime64[ns, tz]]).  A [CTime] shows no zone: [zoned vs] tells
    whether the column that [to_datetime] makes of [vs] has one. *)
Class Pandas : Type := {
  to_datetime : list cell → list cell;
  to_numeric : cell → cell;
  zoned : list cell → bool;
}.

Class PandasCoerce (P : Pandas) : Prop := {
  to_datetime_length vs : length (to_datetime vs) = length vs;
  to_datetime_dtype vs : Forall (λ v, is_time v || isna v) (to_datetime vs);
  to_numeric_dtype v : is_num (to_numeric v) || isna (to_numeric v);
}.

(** ** The cleaner: [validate_and_clean] *)

Section cleaner.
Context {P : Pandas}.

(** [if c in df.columns: df[c] = pd.to_numeric(df[c], errors="coerce")] *)
Definition coerce_if_present (df : ref) (c : string) : M heap unit :=
  cols ← df_columns df;
  if decide (c ∈ cols) then
    vs ← getitem df c; setitem df c (to_numeric <$> vs)
  else ret tt.

Definition NUMERIC_FIELDS : list string :=
  ["ridership"; "avg_speed"; "congestion_index"].

Definition validate_and_clean (df : ref) (time_col : string) : M heap ref :=
  df ← dropna df [time_col];
  ts ← getitem df time_col;
  setitem df time_col (to_datetime ts);;
  df ← dropna df [time_col];
  coerce_if_present df "ridership";;
  coerce_if_present df "avg_speed";;
  coerce_if_present df "congestion_index";;
  cols ← df_columns df;
  let numeric_cols := filter (λ c, c ∈ cols) NUMERIC_FIELDS in
  for_each numeric_cols (λ df col, dropna df [col]) df.
End cleaner.

(** ** The joiner: [build_unified_table] *)

Definition build_unified_table (pub_df traf_df : ref) : M heap ref :=
  ts ← getitem pub_df "timestamp";
  hs ← of_result (dt_floor_H ts);
  setitem pub_df "timestamp_hour" hs;;
  ts ← getitem traf_df "timestamp";
  hs ← of_result (dt_floor_H ts);
  setitem traf_df "timestamp_hour" hs;;
  merged ← merge pub_df traf_df ["route_id"; "timestamp_hour"] ("_public", "_traffic");
  merged ← rename merged [("timestamp_hour", "event_hour")];
  ret merged.

(** ** Grouped means: [df.groupby(keys)[vals].mean().reset_index()] *)

Definition cell_rank (c : cell) : nat :=
  match c with CNull => 0 | CNum _ => 1 | CTime _ => 2 | CStr _ => 3 end.

Definition cell_compare (a b : cell) : comparison :=
  match a, b with
  | CNum p, CNum q => (p ?= q)%Q
  | CTime m, CTime n => (m ?= n)%Z
  | CStr s, CStr t => String.compare s t
  | _, _ => Nat.compare (cell_rank a) (cell_rank b)
  end.

Fixpoint tuple_compare (a b : list cell) : comparison :=
  match a, b with
  | [], [] => Eq
  | [], _ :: _ => Lt
  | _ :: _, [] => Gt
  | x :: a', y :: b' =>
      match cell_compare x y with
      | Eq => tuple_compare a' b'
      | other => other
      end
  end.

(** Insertion of a group key into the sorted list of the distinct keys. *)
Fixpoint insert_key (k : list cell) (ks : list (list cell)) : list (list cell) :=
  match ks with
  | [] => [k]
  | k' :: rest =>
      match tuple_compare k k' with
      | Lt => k :: ks
      | Eq => ks
      | Gt => k' :: insert_key k rest
      end
  end.

Definition group_keys (kix : list nat) (rs : list Row) : list (list cell) :=
  foldr insert_key [] ((λ r, (λ i, cell_at i r) <$> kix) <$> rs).

Definition in_group (kix : list nat) (k : list cell) (r : Row) : Prop :=
  tuple_compare ((λ i, cell_at i r) <$> kix) k = Eq.

#[global] Instance in_group_dec kix k r : Decision (in_group kix k r).
Proof. unfold in_group. apply _. Defined.

(** Mean of a column within a group: missing values are skipped, a group
    without a value has the mean [NaN], text cannot be averaged. *)
Fixpoint numbers_of (vs : list cell) : result (list Q) :=
  match vs with
  | [] => Ok []
  | CNull :: vs' => numbers_of vs'
  | CNum q :: vs' =>
      match numbers_of vs' with Ok qs => Ok (q :: qs) | Raise e => Raise e end
  | _ :: _ => Raise (TypeError "agg function failed [how->mean,dtype->object]")
  end.

Definition mean (qs : list Q) : cell :=
  match qs with
  | [] => CNull
  | _ => CNum (Qred (foldr Qplus 0%Q qs / inject_Z (Z.of_nat (length qs))))
  end.

Fixpoint means_of (vix : list nat) (rs : list Row) : result (list cell) :=
  match vix with
  | [] => Ok []
  | j :: vix' =>
      match numbers_of ((cell_at j) <$> rs), means_of vix' rs with
      | Ok qs, Ok ms => Ok (mean qs :: ms)
      | Raise e, _ => Raise e
      | _, Raise e => Raise e
      end
  end.

Fixpoint summary_cells (kix vix : list nat) (ks : list (list cell)) (rs : list Row)
  : result (list (list cell)) :=
  match ks with
  | [] => Ok []
  | k :: ks' =>
      match means_of vix (filter (in_group kix k) rs), summary_cells kix vix ks' rs with
      | Ok ms, Ok rest => Ok ((k ++ ms) :: rest)
      | Raise e, _ => Raise e
      | _, Raise e => Raise e
      end
  end.

(** [sep.join(ss)] *)
Definition join_with (sep : string) (ss : list string) : string :=
  match ss with
  | [] => ""
  | s :: rest => foldl (λ acc t, acc +:+ sep +:+ t) s rest
  end.

(** [groupby(keys)] takes a list of keys for a list of column labels, with
    one exception: a list as long as the frame has rows, when not every
    key is a column label, is read as one array of group labels, one label
    per row. *)
Definition label_array (keys : list string) (df : DataFrame) : Prop :=
  length keys = length (rows df) ∧ ¬ Forall (λ k, k ∈ columns df) keys.

#[global] Instance label_array_dec keys df : Decision (label_array keys df).
Proof. unfold label_array. apply _. Defined.

(** [...[vals]] on the grouped frame: the value columns must all be there;
    the error names the absent ones (in the order of a Python set, here the
    order of [vals]). *)
Definition value_indices (vals cols : list string) : result (list nat) :=
  match filter (λ c, c ∉ cols) vals with
  | [] => col_indices vals cols
  | bad => Raise (KeyError ("Columns not found: "
                            +:+ join_with ", " ((λ c, "'" +:+ c +:+ "'") <$> bad)))
  end.

(** A row with its group label in front. *)
Definition labelled (k : string) (r : Row) : Row :=
  mkRow (label r) (CStr k :: cells r).

(** The defaults of [groupby] are at work: rows with a missing key are left
    out ([dropna=True]) and the groups come in key order ([sort=True]).
    Grouped by an array of labels, the frame has an index without a name,
    which [reset_index] turns into the column [index]. *)
Definition df_groupby_mean (keys vals : list string) (df : DataFrame)
  : result DataFrame :=
  if decide (label_array keys df) then
    match value_indices vals (columns df) with
    | Raise e => Raise e
    | Ok vix =>
        let rs := zip_with labelled keys (rows df) in
        match summary_cells [0] (S <$> vix) (group_keys [0] rs) rs with
        | Raise e => Raise e
        | Ok css => Ok (mkDF ("index" :: vals) (imap mkRow css))
        end
    end
  else
    match col_indices keys (columns df) with
    | Raise e => Raise e
    | Ok kix =>
        match value_indices vals (columns df) with
        | Raise e => Raise e
        | Ok vix =>
            let rs := filter (notna_at kix) (rows df) in
            match summary_cells kix vix (group_keys kix rs) rs with
            | Raise e => Raise e
            | Ok css => Ok (mkDF (keys ++ vals) (imap mkRow css))
            end
        end
    end.

Definition groupby_mean (df : ref) (keys vals : list string) : M heap ref :=
  d ← frame df; d' ← of_result (df_groupby_mean keys vals d); new_frame d'.

(** ** The world outside the process *)

(** What a file or a database table holds after [to_csv(index=False)] or
    [to_sql(index=False)]: the column labels and the rows, without the
    index. *)
Record Table : Type := mkTable { t_columns : list string; t_rows : list (list cell) }.

Definition table_of (df : DataFrame) : Table :=
  mkTable (columns df) (cells <$> rows df).

Inductive level : Type := INFO | WARNING | ERROR.

Record EmailMessage : Type := mkEmail {
  e_subject : string; e_from : string; e_to : string; e_content : string
}.

Record World : Type := mkWorld {
  objects : heap;
  files : gmap string Table;
  database : gmap string Table;
  log : list (level * string);
  outbox : list EmailMessage;
}.

(** What the process finds around it and does not write: its environment
    variables; what the raw files and the endpoints answer to a read
    ([pd.read_csv(path)], [requests.get(url)] followed by
    [pd.read_csv], [json.load] or [resp.json()] followed by
    [pd.DataFrame]); how [git pull] in a subprocess ends; whether the
    [email] and [ssl] libraries accept the headers and build the message;
    what the mail server answers to a session ([starttls], [login],
    [send_message]); and what reading [logs/etl.log] back gives once the
    process has logged its records: the text of the file, which the
    handler appends to from run to run, each record with its time and, for
    [logger.exception], the traceback; or the error of [open] or [read]. *)
Record Env : Type := mkEnv {
  environ : gmap string string;
  base_dir : string;
  read_csv : string → result DataFrame;
  get_csv : string → result DataFrame;
  load_json : string → result DataFrame;
  get_json : string → result DataFrame;
  git_pull : result unit;
  compose : string → string → string → string → result EmailMessage;
  smtp_session : string → Z → string → string → EmailMessage → result unit;
  read_log : list (level * string) → result string;
}.

Definition set_objects (h : heap) (w : World) : World :=
  mkWorld h (files w) (database w) (log w) (outbox w).

Definition set_files (fs : gmap string Table) (w : World) : World :=
  mkWorld (objects w) fs (database w) (log w) (outbox w).

Definition set_database (db : gmap string Table) (w : World) : World :=
  mkWorld (objects w) (files w) db (log w) (outbox w).

Definition add_log (lv : level) (msg : string) (w : World) : World :=
  mkWorld (objects w) (files w) (database w) (log w ++ [(lv, msg)]) (outbox w).

Definition add_mail (msg : EmailMessage) (w : World) : World :=
  mkWorld (objects w) (files w) (database w) (log w) (outbox w ++ [msg]).

(** The operations on frames work on the objects and on nothing else. *)
Definition liftH {A} (m : M heap A) : M World A :=
  λ w, let '(r, h) := m (objects w) in (r, set_objects h w).

Definition logger (lv : level) (msg : string) : M World unit :=
  λ w, (Ok tt, add_log lv msg w).

(** [df.to_csv(path, index=False)]: the file is written anew. *)
Definition to_csv (df : ref) (path : string) : M World unit :=
  d ← liftH (frame df);
  λ w, (Ok tt, set_files (<[path := table_of d]> (files w)) w).

Inductive if_exists : Type := IfFail | IfReplace | IfAppend.

(** [df.to_sql(name, conn, if_exists=mode, index=False)] *)
Definition to_sql (df : ref) (name : string) (mode : if_exists) : M World unit :=
  d ← liftH (frame df);
  λ w, let put t := set_database (<[name := t]> (database w)) w in
       match mode, database w !! name with
       | IfFail, Some _ => (Raise (ValueError "Table already exists" [name]), w)
       | IfAppend, Some old =>
           (Ok tt, put (mkTable (t_columns old) (t_rows old ++ t_rows (table_of d))))
       | _, _ => (Ok tt, put (table_of d))
       end.

(** ** Strings of Python *)

Definition NL : string := String "010"%char "".

Definition is_space (a : ascii) : bool :=
  bool_decide (a ∈ [" "; "009"; "010"; "011"; "012"; "013"]%char).

Definition digit_of (a : ascii) : option Z :=
  let n := nat_of_ascii a in
  if decide (48 ≤ n ≤ 57) then Some (Z.of_nat (n - 48)) else None.

(** Digits of an integer literal; one underscore may stand between two
    digits. [seen] tells whether the previous character was a digit. *)
Fixpoint int_digits (acc : Z) (seen : bool) (cs : list ascii) : option Z :=
  match cs with
  | [] => if seen then Some acc else None
  | c :: cs' =>
      match digit_of c with
      | Some d => int_digits (10 * acc + d)%Z true cs'
      | None => if bool_decide (c = "_"%char) && seen then int_digits acc false cs'
                else None
      end
  end.

Definition strip (cs : list ascii) : list ascii :=
  let lstrip := fix go (l : list ascii) :=
    match l with
    | c :: l' => if is_space c then go l' else l
    | [] => []
    end in
  reverse (lstrip (reverse (lstrip cs))).

(** [int(s)] *)
Definition py_int (s : string) : result Z :=
  let parsed :=
    match strip (String.list_ascii_of_string s) with
    | "+"%char :: ds => int_digits 0 false ds
    | "-"%char :: ds => Z.opp <$> int_digits 0 false ds
    | ds => int_digits 0 false ds
    end in
  match parsed with
  | Some n => Ok n
  | None => Raise (ValueError "invalid literal for int() with base 10" [s])
  end.

(** [s.lower()] on ASCII letters. *)
Definition lower (s : string) : string :=
  String.string_of_list_ascii
    ((λ a, let n := nat_of_ascii a in
           if decide (65 ≤ n ≤ 90) then ascii_of_nat (n + 32) else a)
       <$> String.list_ascii_of_string s).

(** [s[-n:]] *)
Definition str_tail (n : nat) (s : string) : string :=
  let l := String.list_ascii_of_string s in
  String.string_of_list_ascii (drop (length l - n) l).

(** [repr(s)] of a text without backslashes and control characters: in
    single quotes, or in double quotes when the text holds a single quote
    and no double quote. *)
Definition py_repr (s : string) : string :=
  let cs := String.list_ascii_of_string s in
  let dq := String "034"%char "" in
  if bool_decide ("'"%char ∈ cs) && negb (bool_decide ("034"%char ∈ cs))
  then dq +:+ s +:+ dq else "'" +:+ s +:+ "'".

(** [str(e)]; a [KeyError] shows the [repr] of its key, the [ValueError]
    of a reader its message and the set of the missing names (in the order
    of a Python set, here that of the list). *)
Definition show_exn (e : exn) : string :=
  match e with
  | KeyError k => py_repr k
  | ValueError msg [] => msg
  | ValueError msg items =>
      msg +:+ ": {" +:+ join_with ", " (py_repr <$> items) +:+ "}"
  | AttributeError msg | TypeError msg | SourceError msg | SMTPError msg => msg
  | NoSuchObject r => "no object " +:+ pretty r
  end.

Definition show_level (lv : level) : string :=
  match lv with INFO => "INFO" | WARNING => "WARNING" | ERROR => "ERROR" end.

(** A log file that was empty before the run and shows the level and the
    message of each record: the file of the sample environments. *)
Definition log_text (l : list (level * string)) : string :=
  foldr (λ e acc, show_level e.1 +:+ " " +:+ e.2 +:+ NL +:+ acc) "" l.

(** [os.path.join(a, b)] *)
Definition path_join (a b : string) : string := a +:+ "/" +:+ b.

(** ** Readers, sink, notification and orchestrator *)

Section pipeline.
Context (E : Env) {P : Pandas}.

Definition getenv (name : string) : option string := environ E !! name.

Definition getenv_or (name dflt : string) : string := default dflt (getenv name).

(** Truth value of [os.getenv(...)]: [None] and the empty string are false. *)
Definition truthy (v : option string) : bool :=
  match v with
  | Some s => bool_decide (s ≠ "")
  | None => false
  end.

Definition RAW_DIR : string := path_join (base_dir E) "raw".
Definition PROCESSED_DIR : string := path_join (base_dir E) "processed".
Definition REPORTS_DIR : string := path_join (base_dir E) "reports".
Definition DB_URL : string :=
  getenv_or "TRANSPORT_DB_URL"
            ("sqlite:///" +:+ path_join (base_dir E) "data_pipeline.db").

(** The two files the pipeline writes. *)
Definition processed_csv : string :=
  path_join PROCESSED_DIR "cleaned_unified_data.csv".

Definition summary_csv : string :=
  path_join REPORTS_DIR "summary_by_route.csv".

(** A frame that was read is a new object; a read that fails raises. *)
Definition received (r : result DataFrame) : M World ref :=
  d ← of_result r; liftH (new_frame d).

Definition PUBLIC_REQUIRED : list string :=
  ["route_id"; "city"; "bus_stop"; "ridership"; "timing"].

Definition TRAFFIC_REQUIRED : list string :=
  ["route_id"; "avg_speed"; "congestion_index"; "timestamp"].

Definition load_public_transport_csv (path : string) : M World ref :=
  let csv_url := getenv "TRANSPORT_CSV_URL" in
  df ← (if truthy csv_url then
          logger INFO "Fetching public transport CSV from URL";;
          received (get_csv E (default "" csv_url))
        else received (read_csv E path));
  let required_columns := PUBLIC_REQUIRED in
  cols ← liftH (df_columns df);
  let missing_cols := filter (λ c, c ∉ cols) required_columns in
  if decide (missing_cols ≠ []) then
    raise (ValueError "Public transport CSV missing required columns" missing_cols)
  else
    df ← liftH (rename df [("timing", "timestamp")]);
    ret df.

Definition load_traffic_data (path : string) : M World ref :=
  let api_url := getenv "TRAFFIC_API_URL" in
  df ← (if truthy api_url then received (get_json E (default "" api_url))
        else received (load_json E path));
  let required_columns := TRAFFIC_REQUIRED in
  cols ← liftH (df_columns df);
  let missing_cols := filter (λ c, c ∉ cols) required_columns in
  if decide (missing_cols ≠ []) then
    raise (ValueError "Traffic JSON/API data missing required fields" missing_cols)
  else ret df.

Definition load_to_database (df : ref) (table_name : string) : M World unit :=
  to_sql df table_name IfReplace.

Definition create_summary_report (df : ref) (out_path : string) : M World unit :=
  g ← liftH (groupby_mean df ["route_id"; "city_public"; "bus_stop"]
                          ["ridership"; "congestion_index"]);
  summary ← liftH (rename g [("ridership", "avg_ridership");
                             ("congestion_index", "avg_congestion_index")]);
  to_csv summary out_path.

(** The pull runs in a subprocess; what it brings is what the readers find
    afterwards.  The files of [World] are taken to lie outside what the
    pull rewrites. *)
Definition maybe_git_pull : M World unit :=
  if decide (lower (getenv_or "DATA_GIT_PULL" "false") = "true") then
    try_except
      (logger INFO "Running git pull for latest data and code";;
       of_result (git_pull E))
      (λ e, logger WARNING ("git pull failed: " +:+ show_exn e))
  else ret tt.

Definition send_failure_email (subject body : string) : M World unit :=
  let smtp_host := getenv "SMTP_HOST" in
  smtp_port ← of_result (py_int (getenv_or "SMTP_PORT" "587"));
  let smtp_user := getenv "SMTP_USER" in
  let smtp_pass := getenv "SMTP_PASS" in
  let to_addr := getenv "ALERT_EMAIL_TO" in
  let from_addr := getenv_or "ALERT_EMAIL_FROM" (default "" smtp_user) in
  if negb (truthy smtp_host && truthy smtp_user && truthy smtp_pass
           && truthy to_addr && bool_decide (from_addr ≠ "")) then
    logger INFO "Email not sent; SMTP or recipient env vars missing"
  else
    msg ← of_result (compose E subject from_addr (default "" to_addr) body);
    try_except
      (of_result (smtp_session E (default "" smtp_host) smtp_port
                               (default "" smtp_user) (default "" smtp_pass) msg);;
       (λ w, (Ok tt, add_mail msg w));;
       logger INFO "Failure email sent")
      (λ e, logger WARNING ("Failed to send email: " +:+ show_exn e)).

Definition run_pipeline : M World unit :=
  logger INFO "Starting ETL pipeline";;
  maybe_git_pull;;
  let public_csv := path_join RAW_DIR "transport.csv" in
  let traffic_json := path_join RAW_DIR "traffic.json" in
  logger INFO ("Loading public transport data from " +:+ public_csv);;
  pub_df ← load_public_transport_csv public_csv;
  n ← liftH (d ← frame pub_df; ret (length (rows d)));
  logger INFO ("Loaded " +:+ pretty n +:+ " public transport records");;
  logger INFO ("Loading traffic sensor data from " +:+ traffic_json
               +:+ " or TRAFFIC_API_URL");;
  traf_df ← load_traffic_data traffic_json;
  n ← liftH (d ← frame traf_df; ret (length (rows d)));
  logger INFO ("Loaded " +:+ pretty n +:+ " traffic sensor records");;
  logger INFO "Validating and cleaning datasets";;
  pub_df ← liftH (validate_and_clean pub_df "timestamp");
  traf_df ← liftH (validate_and_clean traf_df "timestamp");
  let processed_csv := path_join PROCESSED_DIR "cleaned_unified_data.csv" in
  logger INFO "Building unified table";;
  unified_df ← liftH (build_unified_table pub_df traf_df);
  n ← liftH (d ← frame unified_df; ret (length (rows d)));
  logger INFO ("Unified table has " +:+ pretty n +:+ " rows");;
  logger INFO "Saving cleaned unified dataset to CSV";;
  to_csv unified_df processed_csv;;
  logger INFO "Loading unified dataset into relational database";;
  load_to_database unified_df "transport_traffic";;
  logger INFO ("Data loaded into database at " +:+ DB_URL);;
  let summary_csv := path_join REPORTS_DIR "summary_by_route.csv" in
  logger INFO "Creating summary report (avg ridership & congestion per route)";;
  create_summary_report unified_df summary_csv;;
  logger INFO ("Summary report written to " +:+ summary_csv);;
  logger INFO "ETL pipeline completed successfully".

(** The [__main__] block. *)
Definition main : M World unit :=
  try_except run_pipeline
    (λ e,
       logger ERROR "ETL pipeline failed";;
       w ← (λ w, (Ok w, w));
       let tail := match read_log E (log w) with
                   | Ok text => str_tail (Z.to_nat 10000) text
                   | Raise _ => show_exn e
                   end in
       send_failure_email "ETL Pipeline Failure"
         ("An error occurred during ETL." +:+ NL +:+ NL +:+ "Error: " +:+ show_exn e
          +:+ NL +:+ NL +:+ "Last log tail:" +:+ NL +:+ tail);;
       raise e).
End pipeline.

(** ** A concrete reading of the parsers

    Timestamps written [YYYY-MM-DD HH:MM:SS], with or without six digits
    of microseconds and without a UTC offset, and numbers written as
    integer literals, each value read on its own: enough to run the
    functions above on sample data. *)

Definition days_from_civil (y m d : Z) : Z :=
  let y' := if decide (m ≤ 2)%Z then (y - 1)%Z else y in
  let era := (y' / 400)%Z in
  let yoe := (y' - era * 400)%Z in
  let mp := ((m + 9) mod 12)%Z in
  let doy := ((153 * mp + 2) / 5 + d - 1)%Z in
  let doe := (yoe * 365 + yoe / 4 - yoe / 100 + doy)%Z in
  (era * 146097 + doe - 719468)%Z.

Definition field (cs : list ascii) : option Z :=
  if decide (Forall (λ c, is_Some (digit_of c)) cs) then int_digits 0 false cs
  else None.

(** The fraction of a second, in nanoseconds: none, or the six digits of
    microseconds that a database writes. *)
Definition fraction (cs : list ascii) : option Z :=
  match cs with
  | [] => Some 0%Z
  | "."%char :: ds =>
      if decide (length ds = 6) then (λ u, u * 1000)%Z <$> field ds else None
  | _ => None
  end.

Definition parse_timestamp (s : string) : option Z :=
  match String.list_ascii_of_string s with
  | y1 :: y2 :: y3 :: y4 :: "-"%char :: m1 :: m2 :: "-"%char :: d1 :: d2 :: " "%char
    :: h1 :: h2 :: ":"%char :: n1 :: n2 :: ":"%char :: s1 :: s2 :: rest =>
      match field [y1; y2; y3; y4], field [m1; m2], field [d1; d2],
            field [h1; h2], field [n1; n2], field [s1; s2], fraction rest with
      | Some y, Some m, Some d, Some h, Some n, Some sec, Some f =>
          if decide (1 ≤ m ≤ 12 ∧ 1 ≤ d ≤ 31 ∧ h < 24 ∧ n < 60 ∧ sec < 60)%Z then
            Some ((((days_from_civil y m d * 24 + h) * 60 + n) * 60 + sec)
                  * 1000000000 + f)%Z
          else None
      | _, _, _, _, _, _, _ => None
      end
  | _ => None
  end.

Definition sample_to_datetime (v : cell) : cell :=
  match v with
  | CStr s => from_option CTime CNull (parse_timestamp s)
  | CTime ns => CTime ns
  | _ => CNull
  end.

Definition sample_to_numeric (v : cell) : cell :=
  match v with
  | CNum q => CNum q
  | CStr s => match py_int s with Ok n => CNum (inject_Z n) | Raise _ => CNull end
  | CTime ns => CNum (inject_Z ns)
  | CNull => CNull
  end.

Definition sample_pandas : Pandas :=
  {| to_datetime := fmap sample_to_datetime; to_numeric := sample_to_numeric;
     zoned := λ _, false |}.

(** ** The cleaner, stage by stage, on the rows of one frame

    [validate_and_clean] goes through the store; these functions say what
    its stages do to the rows, the time column being at position [i] and the
    numeric columns of the frame at the positions [js]. *)

Definition drop_missing (j : nat) (rs : list Row) : list Row :=
  filter (λ r, isna (cell_at j r) = false) rs.

Definition assign (j : nat) (vs : list cell) (rs : list Row) : list Row :=
  zip_with (λ r v, set_cell j v r) rs vs.

(** A result row next to the input row it comes from: same index label,
    and the same cells outside the time column and the numeric columns. *)
Definition untouched (i : nat) (js : list nat) (o k : Row) : Prop :=
  label o = label k ∧ ∀ j, j ≠ i → j ∉ js → cell_at j o = cell_at j k.

Section stages.
Context {P : Pandas}.

Definition parse_times (i : nat) (rs : list Row) : list Row :=
  assign i (to_datetime (cell_at i <$> rs)) rs.

Definition coerce_column (j : nat) (rs : list Row) : list Row :=
  assign j (to_numeric <$> (cell_at j <$> rs)) rs.

Definition clean_rows (i : nat) (js : list nat) (rs : list Row) : list Row :=
  let timed := drop_missing i (parse_times i (drop_missing i rs)) in
  foldl (λ acc j, drop_missing j acc) (foldl (λ acc j, coerce_column j acc) timed js) js.

(** The conditional coercion of one column, on the frame it works on. *)
Definition coerce_present (d : DataFrame) (c : string) : DataFrame :=
  match col_index c (columns d) with
  | Some j => mkDF (columns d) (coerce_column j (rows d))
  | None => d
  end.

(** A result row next to its input row, with what the cleaner establishes:
    a timestamp in the time column, and in every numeric column the number
    that [to_numeric] made of the input cell. *)
Definition cleaned (i : nat) (js : list nat) (o k : Row) : Prop :=
  untouched i js o k ∧ is_time (cell_at i o) ∧
  ∀ j, j ∈ js → is_num (cell_at j o) ∧ cell_at j o = to_numeric (cell_at j k).

End stages.

(** Positions of the columns among [cs] that the frame has. *)
Definition present (cs cols : list string) : list nat :=
  omap (λ c, col_index c cols) cs.

(** ** Vocabulary of the properties *)

Definition linked (R : Row → Row → Prop) (outs ins : list Row) : Prop :=
  ∃ kept, kept `sublist_of` ins ∧ Forall2 R outs kept.

Definition JOIN_KEYS : list string := ["route_id"; "timestamp_hour"].

(** A row with its hour bucket appended, the timestamp being at position
    [i]. *)
Definition with_hour (i : nat) (r : Row) : Row :=
  push_cell (floor_cell (cell_at i r)) r.

(** A frame after [df["timestamp_hour"] = df["timestamp"].dt.floor("H")],
    when it had no such column. *)
Definition hourly (i : nat) (d : DataFrame) : DataFrame :=
  mkDF (columns d ++ ["timestamp_hour"]) (with_hour i <$> rows d).

Definition datetime_at (i : nat) (d : DataFrame) : Prop :=
  Forall (λ r, is_time (cell_at i r) || isna (cell_at i r)) (rows d).

(** The start of the hour a timestamp lies in: the whole hours since the
    epoch, in nanoseconds. *)
Definition hour_start (ns : Z) : Z := (NS_PER_HOUR * (ns / NS_PER_HOUR))%Z.

(** The route and the hour bucket of a record. *)
Definition route_of (cols : list string) (r : Row) : option string :=
  match cell_of cols "route_id" r with CStr s => Some s | _ => None end.

Definition hour_of (cols : list string) (r : Row) : option Z :=
  match cell_of cols "timestamp" r with
  | CTime ns => Some (hour_start ns)
  | _ => None
  end.

(** A public and a traffic record of the same route and the same hour: the
    two routes are strings, and equal; the two timestamps are parsed, and
    lie in the same hour. *)
Definition same_bucket (pc tc : list string) (pt : Row * Row) : Prop :=
  is_Some (route_of pc pt.1) ∧ route_of pc pt.1 = route_of tc pt.2 ∧
  is_Some (hour_of pc pt.1) ∧ hour_of pc pt.1 = hour_of tc pt.2.

#[global] Instance same_bucket_dec pc tc pt : Decision (same_bucket pc tc pt).
Proof. unfold same_bucket. apply _. Defined.

(** A cleaned record of a frame with columns [cols]: one cell per column, a
    string for the route, a parsed timestamp. *)
Definition cleaned_record (cols : list string) (r : Row) : Prop :=
  length (cells r) = length cols ∧
  is_str (cell_of cols "route_id" r) ∧ is_time (cell_of cols "timestamp" r).

#[global] Instance cleaned_record_dec cols r : Decision (cleaned_record cols r).
Proof. unfold cleaned_record. apply _. Defined.

(** What a reader gets to read: the endpoint when one is configured, the
    file otherwise. *)
Definition public_read (E : Env) (path : string) : result DataFrame :=
  if truthy (getenv E "TRANSPORT_CSV_URL")
  then get_csv E (default "" (getenv E "TRANSPORT_CSV_URL"))
  else read_csv E path.

Definition traffic_read (E : Env) (path : string) : result DataFrame :=
  if truthy (getenv E "TRAFFIC_API_URL")
  then get_json E (default "" (getenv E "TRAFFIC_API_URL"))
  else load_json E path.

Definition missing (required cols : list string) : list string :=
  filter (λ c, c ∉ cols) required.

(** The error of the first reader, in the order of the run, whose frame
    lacks a required column. *)
Definition schema_error (rp rt : DataFrame) : exn :=
  if decide (missing PUBLIC_REQUIRED (columns rp) ≠ []) then
    ValueError "Public transport CSV missing required columns"
               (missing PUBLIC_REQUIRED (columns rp))
  else
    ValueError "Traffic JSON/API data missing required fields"
               (missing TRAFFIC_REQUIRED (columns rt)).

(** [w'] differs from [w] in the log at most, and in the objects by the
    frames [ds] added at the end. *)
Definition grown (ds : list DataFrame) (w w' : World) : Prop :=
  objects w' = objects w ++ ds ∧ files w' = files w ∧
  database w' = database w ∧ outbox w' = outbox w.

(** One run: a process that starts without Python objects of its own, on
    the files, the database, the log and the mail it finds. *)
Definition pipeline_run (E : Env) {P : Pandas} (w : World) : result unit * World :=
  run_pipeline E (set_objects [] w).

(** Two executions in step: the same objects, and the same files and tables
    written on top of what each one started from. *)
Definition in_step (w0 w0' w w' : World) : Prop :=
  objects w = objects w' ∧
  ∃ F D : gmap string Table,
    files w = F ∪ files w0 ∧ files w' = F ∪ files w0' ∧
    database w = D ∪ database w0 ∧ database w' = D ∪ database w0'.

(** A computation that does not look at what the files and the tables held
    before. *)
Definition uniform {A} (m : M World A) : Prop :=
  ∀ w0 w0' w w', in_step w0 w0' w w' →
    (m w).1 = (m w').1 ∧ in_step w0 w0' (m w).2 (m w').2.

(** A computation that removes no file and no table and that, when it
    returns, has put a file under each path of [Kf] and a table under each
    name of [Kd]. *)
Definition settles (Kf Kd : gset string) {A} (m : M World A) : Prop :=
  ∀ w, dom (files w) ⊆ dom (files (m w).2) ∧
       dom (database w) ⊆ dom (database (m w).2) ∧
       ∀ a, (m w).1 = Ok a →
            Kf ⊆ dom (files (m w).2) ∧ Kd ⊆ dom (database (m w).2).

(** ** Sample data

    A transport file and two traffic files: one with exactly the required
    fields, one that also names the city. *)

Definition raw_public : DataFrame :=
  mkDF ["route_id"; "city"; "bus_stop"; "ridership"; "timing"]
    [ mkRow 0 [CStr "R1"; CStr "Pune"; CStr "S1"; CStr "120"; CStr "2025-01-01 08:10:00"];
      mkRow 1 [CStr "R1"; CStr "Pune"; CStr "S1"; CStr "not_a_number";
               CStr "2025-01-01 08:20:00"];
      mkRow 2 [CStr "R2"; CNull; CStr "S2"; CStr "80"; CStr "2025-01-01 09:05:00"];
      mkRow 3 [CStr "R1"; CStr "Pune"; CStr "S1"; CStr "100"; CStr "2025-01-01 08:50:00"];
      mkRow 4 [CStr "R1"; CStr "Pune"; CStr "S1"; CStr "90"; CStr "soon"] ].

Definition sample_public : DataFrame :=
  df_rename [("timing", "timestamp")] raw_public.

Definition raw_traffic : DataFrame :=
  mkDF ["route_id"; "avg_speed"; "congestion_index"; "timestamp"]
    [ mkRow 0 [CStr "R1"; CNum (37 # 2); CNum (7 # 10); CStr "2025-01-01 08:45:00"];
      mkRow 1 [CStr "R3"; CNum 20; CNum (1 # 2); CStr "2025-01-01 08:45:00"];
      mkRow 2 [CStr "R2"; CNum 20; CNum (1 # 2); CStr "yesterday"] ].

Definition raw_traffic_city : DataFrame :=
  mkDF ["route_id"; "city"; "avg_speed"; "congestion_index"; "timestamp"]
    [ mkRow 0 [CStr "R1"; CStr "Pune"; CNum (37 # 2); CNum (7 # 10);
               CStr "2025-01-01 08:45:00"];
      mkRow 1 [CStr "R3"; CStr "Pune"; CNum 20; CNum (1 # 2); CStr "2025-01-01 08:45:00"];
      mkRow 2 [CStr "R2"; CStr "Pune"; CNum 20; CNum (1 # 2); CStr "yesterday"] ].

(** Two cleaned frames with a record that has no route, in the same hour
    as the records of route R1. *)
Definition routeless_public : DataFrame :=
  mkDF ["route_id"; "city"; "bus_stop"; "ridership"; "timestamp"]
    [ mkRow 0 [CStr "R1"; CStr "Pune"; CStr "S1"; CNum 120; CTime 1735719000000000000];
      mkRow 1 [CNull; CStr "Pune"; CStr "S9"; CNum 40; CTime 1735719600000000000] ].

Definition routeless_traffic : DataFrame :=
  mkDF ["route_id"; "avg_speed"; "congestion_index"; "timestamp"]
    [ mkRow 0 [CStr "R1"; CNum (37 # 2); CNum (7 # 10); CTime 1735721100000000000];
      mkRow 1 [CNull; CNum 20; CNum (1 # 2); CTime 1735720200000000000] ].

(** A traffic file, without the city, that makes three unified rows with
    the sample transport file. *)
Definition raw_traffic_pair : DataFrame :=
  mkDF ["route_id"; "avg_speed"; "congestion_index"; "timestamp"]
    [ mkRow 0 [CStr "R1"; CNum (37 # 2); CNum (7 # 10); CStr "2025-01-01 08:45:00"];
      mkRow 1 [CStr "R2"; CNum 20; CNum (1 # 2); CStr "2025-01-01 09:30:00"] ].

(** An environment without variables, the raw files being the samples. *)
Definition sample_env (traffic : DataFrame) : Env :=
  mkEnv ∅ "." (λ _, Ok raw_public) (λ _, Raise (SourceError "no endpoint"))
        (λ _, Ok traffic) (λ _, Raise (SourceError "no endpoint"))
        (Ok tt) (λ subject from to body, Ok (mkEmail subject from to body))
        (λ _ _ _ _ _, Ok tt)
        (λ l, Ok (log_text l)).

Definition empty_world : World := mkWorld [] ∅ ∅ [] [].

(** The cleaned sample frames, as the pipeline hands them to the joiner. *)
Definition cleaned_public : DataFrame :=
  mkDF ["route_id"; "city"; "bus_stop"; "ridership"; "timestamp"]
    [ mkRow 0 [CStr "R1"; CStr "Pune"; CStr "S1"; CNum 120; CTime 1735719000000000000];
      mkRow 2 [CStr "R2"; CNull; CStr "S2"; CNum 80; CTime 1735722300000000000];
      mkRow 3 [CStr "R1"; CStr "Pune"; CStr "S1"; CNum 100; CTime 1735721400000000000] ].

Definition cleaned_traffic : DataFrame :=
  mkDF ["route_id"; "avg_speed"; "congestion_index"; "timestamp"]
    [ mkRow 0 [CStr "R1"; CNum (37 # 2); CNum (7 # 10); CTime 1735721100000000000];
      mkRow 1 [CStr "R3"; CNum 20; CNum (1 # 2); CTime 1735721100000000000] ].

(** A transport file without its [ridership] and [timing] columns. *)
Definition raw_public_short : DataFrame :=
  mkDF ["route_id"; "city"; "bus_stop"]
       [mkRow 0 [CStr "R1"; CStr "Pune"; CStr "S1"]].

Definition short_env : Env :=
  mkEnv ∅ "." (λ _, Ok raw_public_short) (λ _, Raise (SourceError "no endpoint"))
        (λ _, Ok raw_traffic) (λ _, Raise (SourceError "no endpoint"))
        (Ok tt) (λ subject from to body, Ok (mkEmail subject from to body))
        (λ _ _ _ _ _, Ok tt)
        (λ l, Ok (log_text l)).

(** An environment whose only variable is a port that is not a number. *)
Definition bad_port_env : Env :=
  mkEnv {[ "SMTP_PORT" := "abc" ]} "." (λ _, Ok raw_public)
        (λ _, Raise (SourceError "no endpoint"))
        (λ _, Ok raw_traffic) (λ _, Raise (SourceError "no endpoint"))
        (Ok tt) (λ subject from to body, Ok (mkEmail subject from to body))
        (λ _ _ _ _ _, Ok tt)
        (λ l, Ok (log_text l)).

(** The scenario of the specification: one transport record and one traffic
    record of route R1, at 08:10 and at 08:45 of the same day, in files with
    exactly the declared columns. *)
Definition scenario_public : DataFrame :=
  mkDF ["route_id"; "city"; "bus_stop"; "ridership"; "timing"]
    [ mkRow 0 [CStr "R1"; CStr "Pune"; CStr "S1"; CNum 120; CStr "2025-01-01 08:10:00"] ].

Definition scenario_traffic : DataFrame :=
  mkDF ["route_id"; "avg_speed"; "congestion_index"; "timestamp"]
    [ mkRow 0 [CStr "R1"; CNum (37 # 2); CNum (7 # 10); CStr "2025-01-01 08:45:00"] ].

Definition scenario_env : Env :=
  mkEnv ∅ "." (λ _, Ok scenario_public) (λ _, Raise (SourceError "no endpoint"))
        (λ _, Ok scenario_traffic) (λ _, Raise (SourceError "no endpoint"))
        (Ok tt) (λ subject from to body, Ok (mkEmail subject from to body))
        (λ _ _ _ _ _, Ok tt)
        (λ l, Ok (log_text l)).

(** ** Vocabulary of the notification *)

(** The sender of the failure mail: [ALERT_EMAIL_FROM], or else the user of
    the mail server. *)
Definition sender (E : Env) : string :=
  getenv_or E "ALERT_EMAIL_FROM" (default "" (getenv E "SMTP_USER")).

(** The settings without which no mail is sent. *)
Definition mail_configured (E : Env) : bool :=
  truthy (getenv E "SMTP_HOST") && truthy (getenv E "SMTP_USER")
  && truthy (getenv E "SMTP_PASS") && truthy (getenv E "ALERT_EMAIL_TO")
  && bool_decide (sender E ≠ "").

(** An environment with a mail server that refuses the session, and raw
    files as in the scenario. *)
Definition mail_env : Env :=
  mkEnv {[ "SMTP_HOST" := "mail.example.org"; "SMTP_USER" := "etl@example.org";
           "SMTP_PASS" := "secret"; "ALERT_EMAIL_TO" := "ops@example.org";
           "DATA_GIT_PULL" := "True" ]} "."
        (λ _, Ok scenario_public) (λ _, Raise (SourceError "no endpoint"))
        (λ _, Ok scenario_traffic) (λ _, Raise (SourceError "no endpoint"))
        (Raise (SourceError "not a git repository"))
        (λ subject from to body, Ok (mkEmail subject from to body))
        (λ _ _ _ _ _, Raise (SMTPError "connection refused"))
        (λ l, Ok (log_text l)).

(** The same environment with a mail server that accepts the session and
    without the pull. *)
Definition relay_env : Env :=
  mkEnv {[ "SMTP_HOST" := "mail.example.org"; "SMTP_USER" := "etl@example.org";
           "SMTP_PASS" := "secret"; "ALERT_EMAIL_TO" := "ops@example.org" ]} "."
        (λ _, Ok scenario_public) (λ _, Raise (SourceError "no endpoint"))
        (λ _, Ok scenario_traffic) (λ _, Raise (SourceError "no endpoint"))
        (Ok tt)
        (λ subject from to body, Ok (mkEmail subject from to body))
        (λ _ _ _ _ _, Ok tt)
        (λ l, Ok (log_text l)).

(** ** Further sample data *)

(** An environment whose raw transport file cannot be read. *)
Definition offline_env : Env :=
  mkEnv ∅ "." (λ _, Raise (SourceError "No such file or directory"))
        (λ _, Raise (SourceError "no endpoint"))
        (λ _, Ok raw_traffic) (λ _, Raise (SourceError "no endpoint"))
        (Ok tt) (λ subject from to body, Ok (mkEmail subject from to body))
        (λ _ _ _ _ _, Ok tt)
        (λ l, Ok (log_text l)).

(** ** Vocabulary of the cleaner, row by row *)

Section kept_rows.
Context {P : Pandas}.

(** The rows with a value in the time column at position [i], each next to
    what [to_datetime] made of that value. *)
Definition parsed (i : nat) (rs : list Row) : list (Row * cell) :=
  zip (drop_missing i rs) (to_datetime (cell_at i <$> drop_missing i rs)).

(** Such a row is kept when its time was parsed and [to_numeric] reads
    every numeric field, at the positions [js]. *)
Definition kept (js : list nat) (kt : Row * cell) : Prop :=
  isna kt.2 = false ∧ Forall (λ j, isna (to_numeric (cell_at j kt.1)) = false) js.

#[global] Instance kept_dec js kt : Decision (kept js kt).
Proof. unfold kept. apply _. Defined.

(** What becomes of a kept row: the parsed time in the time column, the
    numbers in the numeric fields, the rest as it was. *)
Definition converted (i : nat) (js : list nat) (o : Row) (kt : Row * cell) : Prop :=
  label o = label kt.1 ∧ length (cells o) = length (cells kt.1) ∧
  cell_at i o = kt.2 ∧
  (∀ j, j ∈ js → cell_at j o = to_numeric (cell_at j kt.1)) ∧
  (∀ j, j ≠ i → j ∉ js → cell_at j o = cell_at j kt.1).
End kept_rows.

(** ** Vocabulary of the unified table *)

(** The label of a public column in the unified table, next to a traffic
    frame with the columns [tc]; and the label of a traffic column next to
    a public frame with the columns [pc]. *)
Definition public_label (tc : list string) (c : string) : string :=
  if decide (c = "route_id") then c
  else if decide (c ∈ tc) then c +:+ "_public" else c.

Definition traffic_label (pc : list string) (c : string) : string :=
  if decide (c ∈ pc) then c +:+ "_traffic" else c.

Definition unified_columns (pc tc : list string) : list string :=
  (public_label tc <$> pc) ++ "event_hour"
    :: (traffic_label pc <$> filter (λ c, c ≠ "route_id") tc).

(** What [pd.merge] looks at beyond the cells, and accepts: the labels of
    each frame are distinct and stay so under the suffixes (else it raises
    [MergeError]), and the route columns are of one type on both sides, here
    both of texts (a column of integers against a column of texts is a
    [ValueError]). *)
Definition text_routes (d : DataFrame) : Prop :=
  Forall (λ r, is_str (cell_of (columns d) "route_id" r)) (rows d).

#[global] Instance text_routes_dec d : Decision (text_routes d).
Proof. unfold text_routes. apply _. Defined.

Definition mergeable (dp dt : DataFrame) : Prop :=
  NoDup (columns dp) ∧ NoDup (columns dt) ∧
  NoDup (unified_columns (columns dp) (columns dt)) ∧
  text_routes dp ∧ text_routes dt.

#[global] Instance mergeable_dec dp dt : Decision (mergeable dp dt).
Proof. unfold mergeable. apply _. Defined.

(** Sources in the form for which the frames here show all that pandas
    looks at: the two frames are such that [pd.merge] accepts them, and
    their timestamps, as the cleaner hands them to [to_datetime], are
    parsed without a time zone (pandas refuses to merge hours with a zone
    against hours without). *)
Definition naive_times {P : Pandas} (d : DataFrame) : Prop :=
  match col_index "timestamp" (columns d) with
  | Some i => zoned (cell_at i <$> drop_missing i (rows d)) = false
  | None => True
  end.

Definition plain_sources {P : Pandas} (dp dt : DataFrame) : Prop :=
  mergeable dp dt ∧ naive_times dp ∧ naive_times dt.

(** ** Vocabulary of the report *)

Definition REPORT_KEYS : list string := ["route_id"; "city_public"; "bus_stop"].

Definition REPORT_VALUES : list string := ["ridership"; "congestion_index"].

Definition REPORT_COLUMNS : list string :=
  ["route_id"; "city_public"; "bus_stop"; "avg_ridership"; "avg_congestion_index"].

(** The key of a row, the key columns being at the positions [kix]. *)
Definition key_of (kix : list nat) (r : Row) : list cell :=
  (λ i, cell_at i r) <$> kix.

(** The numbers of a column, missing values left out. *)
Definition values_of (v : nat) (rs : list Row) : list Q :=
  omap (λ r, match cell_at v r with CNum q => Some q | _ => None end) rs.

(** The rows of the group of key [k]: those with no missing value in the
    key whose key compares equal to [k]. *)
Definition group_of (kix : list nat) (k : list cell) (rs : list Row) : list Row :=
  filter (in_group kix k) (filter (notna_at kix) rs).

(** A unified table with a missing city and a missing congestion value. *)
Definition sample_unified : DataFrame :=
  mkDF ["route_id"; "city_public"; "bus_stop"; "ridership"; "congestion_index"]
    [ mkRow 0 [CStr "R2"; CStr "Pune"; CStr "S2"; CNum 80; CNum (1 # 2)];
      mkRow 1 [CStr "R1"; CStr "Pune"; CStr "S1"; CNum 120; CNum (7 # 10)];
      mkRow 2 [CStr "R1"; CStr "Pune"; CStr "S1"; CNum 100; CNull];
      mkRow 3 [CStr "R3"; CNull; CStr "S3"; CNum 60; CNum (1 # 5)] ].

(** A unified table of three rows without a [city_public] column, as the
    sample transport file and the traffic file [raw_traffic_pair] make
    it. *)
Definition three_unified : DataFrame :=
  mkDF ["route_id"; "city"; "bus_stop"; "ridership"; "timestamp_public"; "event_hour";
        "avg_speed"; "congestion_index"; "timestamp_traffic"]
    [ mkRow 0 [CStr "R1"; CStr "Pune"; CStr "S1"; CNum 120; CTime 1735719000000000000;
               CTime 1735718400000000000; CNum (37 # 2); CNum (7 # 10);
               CTime 1735721100000000000];
      mkRow 1 [CStr "R2"; CNull; CStr "S2"; CNum 80; CTime 1735722300000000000;
               CTime 1735722000000000000; CNum 20; CNum (1 # 2);
               CTime 1735723800000000000];
      mkRow 2 [CStr "R1"; CStr "Pune"; CStr "S1"; CNum 100; CTime 1735721400000000000;
               CTime 1735718400000000000; CNum (37 # 2); CNum (7 # 10);
               CTime 1735721100000000000] ].

(** ** Vocabulary of what a run leaves alone *)

(** A computation that leaves every file outside [Kf] and every table
    outside [Kd] as it was, sends no mail, and only adds to the log. *)
Definition confined (Kf Kd : gset string) {A} (m : M World A) : Prop :=
  ∀ w, (∀ p, p ∉ Kf → files (m w).2 !! p = files w !! p) ∧
       (∀ n, n ∉ Kd → database (m w).2 !! n = database w !! n) ∧
       outbox (m w).2 = outbox w ∧
       log w `prefix_of` log (m w).2.

(** ** The dashboard: [app/dashboard.py]

    The dashboard is a second process.  It reads the table the pipeline
    has written, parses its time columns again and filters the rows by the
    routes and cities selected in the sidebar. *)

(** What the dashboard finds around it: its environment variables, whether
    a file exists, whether [sqlite3.connect] opens it, and what
    [pd.read_sql_query] answers for a database file and a query. *)
Record Site : Type := mkSite {
  site_environ : gmap string string;
  site_base_dir : string;
  path_exists : string → bool;
  connect : string → result unit;
  read_sql_query : string → string → result DataFrame;
}.

(** [pd.DataFrame()] *)
Definition EMPTY_FRAME : DataFrame := mkDF [] [].

Definition TIME_COLUMNS : list string :=
  ["event_hour"; "timestamp_public"; "timestamp_traffic"].

Section dashboard.
Context (D : Site) {P : Pandas}.

Definition DB_PATH : string :=
  default (path_join (site_base_dir D) "data_pipeline.db")
          (site_environ D !! "TRANSPORT_DB_PATH").

Definition TABLE_NAME : string :=
  default "transport_traffic" (site_environ D !! "TRANSPORT_TABLE").

(** [if col in df.columns: df[col] = pd.to_datetime(df[col], errors="coerce")] *)
Definition parse_if_present (df : DataFrame) (col : string) : result DataFrame :=
  if decide (col ∈ columns df) then
    match df_getitem col df with
    | Ok vs => df_setitem col (to_datetime vs) df
    | Raise e => Raise e
    end
  else Ok df.

Fixpoint parse_each (cols : list string) (df : DataFrame) : result DataFrame :=
  match cols with
  | [] => Ok df
  | col :: cols' =>
      match parse_if_present df col with
      | Ok df' => parse_each cols' df'
      | Raise e => Raise e
      end
  end.

(** The connection is opened outside the [try]: only the query is
    guarded. *)
Definition load_data : result DataFrame :=
  if negb (path_exists D DB_PATH) then Ok EMPTY_FRAME
  else
    match connect D DB_PATH with
    | Raise e => Raise e
    | Ok _ =>
        let df := match read_sql_query D DB_PATH ("SELECT * FROM " +:+ TABLE_NAME) with
                  | Ok df => df
                  | Raise _ => EMPTY_FRAME
                  end in
        parse_each TIME_COLUMNS df
    end.
End dashboard.

(** [s.isin(values)]: a missing value is found among missing values. *)
Definition isin (values : list cell) (c : cell) : bool :=
  bool_decide (Exists (λ v, key_eqb c v = true) values).

(** [df[df[c].isin(values)]] *)
Definition select_isin (c : string) (values : list cell) (df : DataFrame)
  : result DataFrame :=
  match col_index c (columns df) with
  | None => Raise (KeyError c)
  | Some i => Ok (mkDF (columns df)
                       (filter (λ r, isin values (cell_at i r) = true) (rows df)))
  end.

(** The block under [# Filter data]. *)
Definition filter_data (selected_routes selected_cities : list cell)
    (df : DataFrame) : result DataFrame :=
  match (if bool_decide (selected_routes ≠ [])
         then select_isin "route_id" selected_routes df else Ok df) with
  | Raise e => Raise e
  | Ok df =>
      if bool_decide (selected_cities ≠ []) && bool_decide ("city_public" ∈ columns df)
      then select_isin "city_public" selected_cities df
      else Ok df
  end.

(** The rows that pass the filters. *)
Definition selected (selected_routes selected_cities : list cell)
    (cols : list string) (r : Row) : Prop :=
  (selected_routes = [] ∨ isin selected_routes (cell_of cols "route_id" r) = true) ∧
  (selected_cities = [] ∨ "city_public" ∉ cols ∨
   isin selected_cities (cell_of cols "city_public" r) = true).

#[global] Instance selected_dec sr sc cols r : Decision (selected sr sc cols r).
Proof. unfold selected. apply _. Defined.

(** A table with a missing city and hours as text, to try the filters
    on. *)
Definition stored_unified : DataFrame :=
  mkDF ["route_id"; "city_public"; "ridership"; "event_hour"]
    [ mkRow 0 [CStr "R1"; CStr "Pune"; CNum 120; CStr "2025-01-01 08:00:00"];
      mkRow 1 [CStr "R2"; CNull; CNum 80; CStr "2025-01-01 09:00:00"];
      mkRow 2 [CStr "R3"; CStr "Delhi"; CNum 60; CStr "not a time"] ].

(** The unified table of the sample run with the traffic file that names
    the city, as the query reads it back from the database file: the
    timestamps are texts with microseconds. *)
Definition served_table : DataFrame :=
  mkDF ["route_id"; "city_public"; "bus_stop"; "ridership"; "timestamp_public";
        "event_hour"; "city_traffic"; "avg_speed"; "congestion_index";
        "timestamp_traffic"]
    [ mkRow 0 [CStr "R1"; CStr "Pune"; CStr "S1"; CNum 120;
               CStr "2025-01-01 08:10:00.000000"; CStr "2025-01-01 08:00:00.000000";
               CStr "Pune"; CNum (37 # 2); CNum (7 # 10);
               CStr "2025-01-01 08:45:00.000000"];
      mkRow 1 [CStr "R1"; CStr "Pune"; CStr "S1"; CNum 100;
               CStr "2025-01-01 08:50:00.000000"; CStr "2025-01-01 08:00:00.000000";
               CStr "Pune"; CNum (37 # 2); CNum (7 # 10);
               CStr "2025-01-01 08:45:00.000000"] ].

Definition sample_site : Site :=
  mkSite ∅ "." (λ _, true) (λ _, Ok tt) (λ _ _, Ok served_table).

(* ================================================================== *)
(** * Properties *)
(* ================================================================== *)

(** ** Hour buckets *)

Lemma floor_hour_spec (t : Z) :
  (floor_hour t = NS_PER_HOUR * (t / NS_PER_HOUR))%Z.
Proof.
  unfold floor_hour. pose proof (Z.div_mod t NS_PER_HOUR) as Hdm.
  unfold NS_PER_HOUR in *. lia.
Qed.

Lemma floor_hour_of_bucket (h rest : Z) :
  (0 ≤ rest < NS_PER_HOUR)%Z →
  floor_hour (h * NS_PER_HOUR + rest) = (h * NS_PER_HOUR)%Z.
Proof.
  intros Hrest. unfold floor_hour.
  replace ((h * NS_PER_HOUR + rest) mod NS_PER_HOUR)%Z with rest; [lia|].
  rewrite Z.add_comm, Z.mod_add by (unfold NS_PER_HOUR; lia).
  symmetry. apply Z.mod_small. exact Hrest.
Qed.

Lemma floor_hour_idem (t : Z) : floor_hour (floor_hour t) = floor_hour t.
Proof.
  rewrite (floor_hour_spec t), Z.mul_comm.
  pose proof (floor_hour_of_bucket (t / NS_PER_HOUR) 0) as Hb.
  rewrite Z.add_0_r in Hb. apply Hb. unfold NS_PER_HOUR. lia.
Qed.

Lemma floor_hour_in_range (t : Z) :
  (FIRST_HOUR ≤ t ≤ INT64_MAX)%Z →
  (FIRST_HOUR ≤ floor_hour t ≤ t)%Z ∧ (t < floor_hour t + NS_PER_HOUR)%Z ∧
  (floor_hour t mod NS_PER_HOUR = 0)%Z.
Proof.
  intros [Hlo Hhi].
  assert (Hb : (floor_hour t ≤ t < floor_hour t + NS_PER_HOUR)%Z).
  { unfold floor_hour. pose proof (Z.mod_pos_bound t NS_PER_HOUR) as Hb.
    unfold NS_PER_HOUR in *. lia. }
  split; [|split; [lia|]].
  - split; [|lia]. rewrite floor_hour_spec.
    assert (Hq : (-2562047 ≤ t / NS_PER_HOUR)%Z).
    { apply Z.div_le_lower_bound; [by vm_compute|].
      unfold FIRST_HOUR in Hlo. lia. }
    unfold FIRST_HOUR, NS_PER_HOUR in *. lia.
  - rewrite floor_hour_spec, Z.mul_comm. apply Z.mod_mul.
    unfold NS_PER_HOUR. lia.
Qed.

(** C7. The cells of a timestamp column, floored to the hour.  The
    timestamps that [datetime64[ns]] holds and pandas floors are those from
    [FIRST_HOUR], the first whole hour of the 64-bit range, to the greatest
    64-bit value.  For every such timestamp [t] the floored cell is again a
    timestamp [f] of that range: a whole hour, not after [t] and less than
    one hour before it, so only minutes, seconds and fractions of a second
    are cut off and nothing is rounded up; flooring the floored cell again
    changes nothing.  A timestamp 45 minutes (and any seconds and
    nanoseconds) into hour [h] is sent to the start of hour [h], not of
    hour [h + 1], and a missing timestamp stays missing.  So
    [dt.floor("H")] on a column of such timestamps returns the column of
    the floored cells, and returns the same column when it is applied
    again.  Before [FIRST_HOUR] the whole hour below a 64-bit timestamp is
    no 64-bit value: there pandas raises instead of flooring. *)
Theorem floor_hour_idempotent_truncating :
  ((INT64_MIN ≤ FIRST_HOUR < INT64_MIN + NS_PER_HOUR)%Z ∧
   (FIRST_HOUR mod NS_PER_HOUR = 0)%Z ∧
   ∀ t, (INT64_MIN ≤ t < FIRST_HOUR)%Z → (floor_hour t < INT64_MIN)%Z) ∧
  floor_cell CNull = CNull ∧
  (∀ t, (FIRST_HOUR ≤ t ≤ INT64_MAX)%Z →
     ∃ f, floor_cell (CTime t) = CTime f ∧
          (FIRST_HOUR ≤ f ≤ t)%Z ∧ (t < f + NS_PER_HOUR)%Z ∧
          (f mod NS_PER_HOUR = 0)%Z ∧
          floor_cell (floor_cell (CTime t)) = floor_cell (CTime t)) ∧
  (∀ h sub, (0 ≤ sub < NS_PER_MINUTE)%Z →
            (FIRST_HOUR ≤ h * NS_PER_HOUR)%Z →
            (h * NS_PER_HOUR + 45 * NS_PER_MINUTE + sub ≤ INT64_MAX)%Z →
            floor_cell (CTime (h * NS_PER_HOUR + 45 * NS_PER_MINUTE + sub))
            = CTime (h * NS_PER_HOUR)) ∧
  (∀ vs, Forall floorable vs →
         dt_floor_H vs = Ok (floor_cell <$> vs) ∧
         Forall floorable (floor_cell <$> vs) ∧
         dt_floor_H (floor_cell <$> vs) = Ok (floor_cell <$> vs)).
Proof.
  split.
  { split; [by vm_compute|]. split; [by vm_compute|]. intros t [Hlo Hhi].
    rewrite floor_hour_spec.
    assert (Hq : (t / NS_PER_HOUR < -2562047)%Z).
    { apply Z.div_lt_upper_bound; [by vm_compute|].
      unfold FIRST_HOUR in Hhi. lia. }
    unfold INT64_MIN, NS_PER_HOUR in *. lia. }
  split; [reflexivity|]. split; [|split].
  - intros t Ht. exists (floor_hour t). split; [reflexivity|].
    destruct (floor_hour_in_range t Ht) as (? & ? & ?).
    do 3 (split; [done|]). simpl. by rewrite floor_hour_idem.
  - intros h sub Hsub _ _. simpl. f_equal. rewrite <- Z.add_assoc.
    apply floor_hour_of_bucket. unfold NS_PER_HOUR, NS_PER_MINUTE in *. lia.
  - intros vs Hvs.
    assert (Hfl : Forall floorable (floor_cell <$> vs)).
    { apply Forall_fmap. eapply Forall_impl; [exact Hvs|].
      intros [| | |t]; simpl; try done. intros Ht.
      destruct (floor_hour_in_range t Ht) as ([? ?] & _ & _). lia. }
    assert (Hdt : ∀ l, Forall floorable l → Forall (λ v, is_time v || isna v) l).
    { intros l Hl. eapply Forall_impl; [exact Hl|]. by intros [| | |t]. }
    unfold dt_floor_H. rewrite !decide_True by auto.
    split; [done|]. split; [done|]. f_equal.
    rewrite <- list_fmap_compose. apply list_fmap_ext.
    intros n [| | |t] _; simpl; try done. by rewrite floor_hour_idem.
Qed.

(** ** Running the monad *)

Lemma bind_ok {S A B} (m : M S A) (k : A → M S B) s a s' :
  m s = (Ok a, s') → bind m k s = k a s'.
Proof. unfold bind. by intros ->. Qed.

Lemma bind_raise {S A B} (m : M S A) (k : A → M S B) s e s' :
  m s = (Raise e, s') → bind m k s = (Raise e, s').
Proof. unfold bind. by intros ->. Qed.

Ltac step lem := erewrite bind_ok; [| solve [lem] ]; cbv beta.

(** ** Columns and their positions *)

Lemma col_index_lookup c cols j :
  col_index c cols = Some j → cols !! j = Some c.
Proof.
  revert j. induction cols as [|x xs IH]; intros j; simpl; [done|].
  case_decide as Hx.
  - intros [= <-]. by subst.
  - destruct (col_index c xs) as [j'|]; simpl; [|done].
    intros [= <-]. by apply IH.
Qed.

Lemma col_index_is_Some c cols : c ∈ cols ↔ is_Some (col_index c cols).
Proof.
  induction cols as [|x xs IH]; simpl.
  - split; [by intros ?%elem_of_nil | by intros [? ?]].
  - case_decide as Hx.
    + subst. split; [eauto | intros _; apply list_elem_of_here].
    + rewrite elem_of_cons, IH, fmap_is_Some. split; [intros [?|?]; [congruence|done] | auto].
Qed.

Lemma col_index_None c cols : c ∉ cols ↔ col_index c cols = None.
Proof. rewrite col_index_is_Some, eq_None_not_Some. done. Qed.

Lemma col_index_inj c1 c2 cols j :
  col_index c1 cols = Some j → col_index c2 cols = Some j → c1 = c2.
Proof. intros H1%col_index_lookup H2%col_index_lookup. congruence. Qed.

Lemma present_spec cs cols :
  Forall2 (λ c j, col_index c cols = Some j)
          (filter (λ c, c ∈ cols) cs) (present cs cols).
Proof.
  induction cs as [|c cs IH]; [constructor|].
  rewrite filter_cons. unfold present in *. simpl.
  destruct (col_index c cols) as [j|] eqn:Hj.
  - rewrite decide_True by (apply col_index_is_Some; eauto). by constructor.
  - rewrite decide_False by by apply col_index_None. done.
Qed.

Lemma elem_of_present j cs cols :
  j ∈ present cs cols ↔ ∃ c, c ∈ cs ∧ col_index c cols = Some j.
Proof. unfold present. rewrite list_elem_of_omap. done. Qed.

Lemma present_NoDup cs cols : NoDup cs → NoDup (present cs cols).
Proof.
  intros Hnd. unfold present. induction Hnd as [|c cs Hc Hnd IH]; simpl.
  - constructor.
  - destruct (col_index c cols) as [j|] eqn:Hj; [|done].
    constructor; [|done]. rewrite list_elem_of_omap.
    intros (c' & Hc' & Hj'). by rewrite (col_index_inj _ _ _ _ Hj Hj') in Hc.
Qed.

(** ** The store operations, one at a time *)

Lemma lookup_last (h : heap) d : (h ++ [d]) !! length h = Some d.
Proof. by apply list_lookup_middle. Qed.

Lemma insert_last (h : heap) d d' : <[length h := d']> (h ++ [d]) = h ++ [d'].
Proof. rewrite insert_app_r_alt by lia. by rewrite Nat.sub_diag. Qed.

Lemma frame_run (h : heap) r d : h !! r = Some d → frame r h = (Ok d, h).
Proof. unfold frame. by intros ->. Qed.

Lemma drop_missing_notna j rs : filter (notna_at [j]) rs = drop_missing j rs.
Proof.
  apply list_filter_iff. intros r. unfold notna_at. by rewrite Forall_singleton.
Qed.

Lemma dropna_run (h : heap) r d c j :
  h !! r = Some d → col_index c (columns d) = Some j →
  dropna r [c] h = (Ok (length h), h ++ [mkDF (columns d) (drop_missing j (rows d))]).
Proof.
  intros Hr Hj. unfold dropna. step ltac:(by apply frame_run).
  unfold of_result, df_dropna, bind. simpl. rewrite Hj. simpl.
  by rewrite drop_missing_notna.
Qed.

Lemma dropna_absent (h : heap) r d c :
  h !! r = Some d → col_index c (columns d) = None →
  dropna r [c] h = (Raise (KeyError c), h).
Proof.
  intros Hr Hj. unfold dropna. step ltac:(by apply frame_run).
  unfold of_result, df_dropna, bind. simpl. by rewrite Hj.
Qed.

Lemma getitem_run (h : heap) r d c j :
  h !! r = Some d → col_index c (columns d) = Some j →
  getitem r c h = (Ok (cell_at j <$> rows d), h).
Proof.
  intros Hr Hj. unfold getitem. step ltac:(by apply frame_run).
  unfold of_result, df_getitem. by rewrite Hj.
Qed.

Lemma setitem_run (h : heap) r d c vs j :
  h !! r = Some d → col_index c (columns d) = Some j →
  length vs = length (rows d) →
  setitem r c vs h = (Ok tt, <[r := mkDF (columns d) (assign j vs (rows d))]> h).
Proof.
  intros Hr Hj Hlen. unfold setitem. step ltac:(by apply frame_run).
  unfold of_result, df_setitem, bind, store. rewrite decide_True by done.
  by rewrite Hj.
Qed.

Lemma setitem_new_run (h : heap) r d c vs :
  h !! r = Some d → col_index c (columns d) = None →
  length vs = length (rows d) →
  setitem r c vs h
  = (Ok tt, <[r := mkDF (columns d ++ [c])
                        (zip_with (λ r v, push_cell v r) (rows d) vs)]> h).
Proof.
  intros Hr Hj Hlen. unfold setitem. step ltac:(by apply frame_run).
  unfold of_result, df_setitem, bind, store. rewrite decide_True by done.
  by rewrite Hj.
Qed.

Lemma df_columns_run (h : heap) r d :
  h !! r = Some d → df_columns r h = (Ok (columns d), h).
Proof. intros Hr. unfold df_columns. by step ltac:(by apply frame_run). Qed.

(** ** The cleaner runs, and what it leaves in the store *)

Section cleaner_runs.
Context {P : Pandas} {PC : PandasCoerce P}.

Lemma length_assign j vs rs : length vs = length rs → length (assign j vs rs) = length rs.
Proof. intros Hlen. unfold assign. rewrite length_zip_with. lia. Qed.

Lemma length_coerce_column j rs : length (coerce_column j rs) = length rs.
Proof. unfold coerce_column. apply length_assign. by rewrite !length_fmap. Qed.

Lemma coerce_present_columns d c : columns (coerce_present d c) = columns d.
Proof. unfold coerce_present. by destruct (col_index c (columns d)). Qed.

Lemma coerce_if_present_run (h : heap) r d c :
  h !! r = Some d →
  coerce_if_present r c h = (Ok tt, <[r := coerce_present d c]> h).
Proof.
  intros Hr. unfold coerce_if_present, coerce_present.
  step ltac:(by apply df_columns_run).
  destruct (col_index c (columns d)) as [j|] eqn:Hj.
  - rewrite decide_True by (apply col_index_is_Some; eauto).
    step ltac:(by eapply getitem_run).
    erewrite setitem_run; eauto. by rewrite !length_fmap.
  - rewrite decide_False by by apply col_index_None.
    unfold ret. by rewrite list_insert_id.
Qed.

Lemma coerce_present_fold d cs :
  foldl coerce_present d cs
  = mkDF (columns d)
         (foldl (λ acc j, coerce_column j acc) (rows d) (present cs (columns d))).
Proof.
  revert d. induction cs as [|c cs IH]; intros [cols rs]; [done|].
  simpl. rewrite IH, coerce_present_columns. unfold present, coerce_present.
  simpl. by destruct (col_index c cols).
Qed.

Lemma drop_each_run cs : ∀ (h : heap) r d js,
  h !! r = Some d →
  Forall2 (λ c j, col_index c (columns d) = Some j) cs js →
  ∃ ext r',
    for_each cs (λ df col, dropna df [col]) r h = (Ok r', h ++ ext) ∧
    r ≤ r' ∧
    (h ++ ext) !! r'
    = Some (mkDF (columns d) (foldl (λ acc j, drop_missing j acc) (rows d) js)).
Proof.
  induction cs as [|c cs IH]; intros h r d js Hr Hjs.
  - apply Forall2_nil_inv_l in Hjs as ->. exists [], r.
    rewrite app_nil_r. simpl. unfold ret. by destruct d.
  - apply Forall2_cons_inv_l in Hjs as (j & js' & Hj & Hjs & ->).
    simpl. step ltac:(by eapply dropna_run).
    destruct (IH (h ++ [mkDF (columns d) (drop_missing j (rows d))])
                 (length h) _ js' (lookup_last _ _) Hjs)
      as (ext & r' & Hrun & Hle & Hout).
    exists (mkDF (columns d) (drop_missing j (rows d)) :: ext), r'.
    replace (h ++ mkDF (columns d) (drop_missing j (rows d)) :: ext)
      with ((h ++ [mkDF (columns d) (drop_missing j (rows d))]) ++ ext)
      by (by rewrite <- app_assoc).
    apply lookup_lt_Some in Hr. repeat split; [done|lia|done].
Qed.

(** On a frame that has the time column the cleaner returns, raises
    nothing, and only adds objects to the store: the frame it returns is
    new and has the rows of [clean_rows]. *)
Lemma validate_and_clean_run (h : heap) r d tc i :
  h !! r = Some d → col_index tc (columns d) = Some i →
  ∃ ext r',
    validate_and_clean r tc h = (Ok r', h ++ ext) ∧
    length h ≤ r' ∧
    (h ++ ext) !! r'
    = Some (mkDF (columns d)
                 (clean_rows i (present NUMERIC_FIELDS (columns d)) (rows d))).
Proof.
  intros Hr Hi. unfold validate_and_clean.
  set (d1 := mkDF (columns d) (drop_missing i (rows d))).
  set (d2 := mkDF (columns d) (parse_times i (drop_missing i (rows d)))).
  set (d3 := mkDF (columns d) (drop_missing i (rows d2))).
  step ltac:(by eapply dropna_run).
  step ltac:(by eapply (getitem_run _ _ d1); [apply lookup_last|]).
  step ltac:(by eapply (setitem_run _ _ d1);
               [apply lookup_last| |rewrite to_datetime_length, length_fmap]).
  rewrite insert_last. fold d1. change (mkDF (columns d1) _) with d2.
  step ltac:(by eapply (dropna_run _ _ d2); [apply lookup_last|]).
  change (mkDF (columns d2) _) with d3.
  set (h1 := h ++ [d2]).
  step ltac:(by apply coerce_if_present_run, lookup_last). rewrite insert_last.
  step ltac:(by apply coerce_if_present_run, lookup_last). rewrite insert_last.
  step ltac:(by apply coerce_if_present_run, lookup_last). rewrite insert_last.
  change (coerce_present _ "congestion_index")
    with (foldl coerce_present d3 NUMERIC_FIELDS).
  rewrite coerce_present_fold. change (columns d3) with (columns d).
  set (d6 := mkDF (columns d) _).
  step ltac:(by apply (df_columns_run _ _ d6), lookup_last).
  change (columns d6) with (columns d).
  destruct (drop_each_run (filter (λ c, c ∈ columns d) NUMERIC_FIELDS)
              (h1 ++ [d6]) (length h1) d6 (present NUMERIC_FIELDS (columns d))
              (lookup_last _ _) (present_spec _ _))
    as (ext & r' & Hrun & Hle & Hout).
  exists (d2 :: d6 :: ext), r'.
  replace (h ++ d2 :: d6 :: ext) with ((h1 ++ [d6]) ++ ext)
    by (subst h1; by rewrite <- !app_assoc).
  split; [exact Hrun|]. split; [|by rewrite Hout].
  subst h1. rewrite length_app in Hle. lia.
Qed.

(** Without the time column the first [dropna] raises [KeyError], and
    nothing has been touched. *)
Lemma validate_and_clean_absent (h : heap) r d tc :
  h !! r = Some d → col_index tc (columns d) = None →
  validate_and_clean r tc h = (Raise (KeyError tc), h).
Proof.
  intros Hr Hi. unfold validate_and_clean.
  erewrite bind_raise; [done|]. by eapply dropna_absent.
Qed.
End cleaner_runs.

(** ** Rows of the result against rows of the input

    [linked R outs ins]: the rows [outs] are, in order, [R]-related to the
    rows of a subsequence of [ins]. *)

Lemma Forall2_sublist_l {A B} (R : A → B → Prop) (sub l : list A) (k : list B) :
  sub `sublist_of` l → Forall2 R l k →
  ∃ k', k' `sublist_of` k ∧ Forall2 R sub k'.
Proof.
  intros Hsub. revert k. induction Hsub as [|x s l Hsub IH|x s l Hsub IH]; intros k Hk.
  - apply Forall2_nil_inv_l in Hk as ->. exists []. split; constructor.
  - apply Forall2_cons_inv_l in Hk as (y & k0 & Hxy & Hk & ->).
    destruct (IH _ Hk) as (k' & Hk' & HF). exists (y :: k').
    split; [by apply sublist_skip | by constructor].
  - apply Forall2_cons_inv_l in Hk as (y & k0 & Hxy & Hk & ->).
    destruct (IH _ Hk) as (k' & Hk' & HF). exists k'.
    split; [by apply sublist_cons | done].
Qed.

Lemma linked_start (R : Row → Row → Prop) rs : (∀ r, R r r) → linked R rs rs.
Proof. intros HR. exists rs. split; [done|]. by apply Forall_Forall2_diag, Forall_true. Qed.

Lemma linked_filter (R R' : Row → Row → Prop) (Q : Row → Prop)
    `{!∀ r, Decision (Q r)} outs ins :
  (∀ o k, R o k → Q o → R' o k) →
  linked R outs ins → linked R' (filter Q outs) ins.
Proof.
  intros HR (kept & Hkept & HF).
  assert (HF' : Forall2 (λ o k, Q o → R' o k) outs kept).
  { eapply Forall2_impl; [exact HF|]. eauto. }
  clear HF. revert Hkept. revert ins.
  induction HF' as [|o k outs kept Hok HF' IH]; intros ins Hkept.
  - exists []. split; [apply sublist_nil_l | constructor].
  - rewrite filter_cons.
    assert (Hk1 : kept `sublist_of` ins).
    { etrans; [|exact Hkept]. by apply sublist_cons. }
    destruct (decide (Q o)) as [Ho|Ho]; [|by apply IH].
    destruct (IH kept (reflexivity _)) as (kept' & Hkept' & HF).
    exists (k :: kept'). split; [|constructor; auto].
    etrans; [|exact Hkept]. by apply sublist_skip.
Qed.

Lemma linked_fmap (R R' : Row → Row → Prop) (f : Row → Row) outs ins :
  (∀ o k, R o k → R' (f o) k) →
  linked R outs ins → linked R' (f <$> outs) ins.
Proof.
  intros HR (kept & Hkept & HF). exists kept. split; [done|].
  apply Forall2_fmap_l. eapply Forall2_impl; [exact HF|]. eauto.
Qed.

Lemma linked_assign (R R' : Row → Row → Prop) (V : cell → Prop) j vs outs ins :
  length vs = length outs → Forall V vs →
  (∀ o k v, R o k → V v → R' (set_cell j v o) k) →
  linked R outs ins → linked R' (assign j vs outs) ins.
Proof.
  intros Hlen HV HR (kept & Hkept & HF). exists kept. split; [done|].
  unfold assign. clear Hkept. revert vs Hlen HV.
  induction HF as [|o k outs kept Hok HF IH]; intros [|v vs] Hlen HV;
    simplify_eq/=; [constructor|].
  apply Forall_cons in HV as [Hv HV]. constructor; eauto.
Qed.

(** A stage repeated over a list of positions keeps a relation that may
    depend on the positions already done. *)
Lemma linked_foldl (step : nat → list Row → list Row)
    (I : list nat → Row → Row → Prop) (js : list nat) ins :
  (∀ pre j rest outs, js = pre ++ j :: rest →
     linked (I pre) outs ins → linked (I (pre ++ [j])) (step j outs) ins) →
  ∀ rest pre outs, js = pre ++ rest →
    linked (I pre) outs ins →
    linked (I js) (foldl (λ acc j, step j acc) outs rest) ins.
Proof.
  intros Hstep rest. induction rest as [|j rest IH]; intros pre outs Hjs Hl.
  - rewrite app_nil_r in Hjs. by subst.
  - simpl. apply (IH (pre ++ [j])).
    + by rewrite <- app_assoc.
    + by eapply Hstep.
Qed.

(** ** Cells under assignment *)

Lemma cell_at_set_cell_ne j j' v r : j ≠ j' → cell_at j' (set_cell j v r) = cell_at j' r.
Proof. intros Hne. unfold cell_at, set_cell. simpl. by rewrite list_lookup_insert_ne. Qed.

Lemma cell_at_set_cell j v r :
  cell_at j (set_cell j v r) = v ∨
  (cell_at j (set_cell j v r) = CNull ∧ cell_at j r = CNull).
Proof.
  unfold cell_at, set_cell. simpl.
  destruct (decide (j < length (cells r))) as [Hlt|Hge].
  - left. by rewrite list_lookup_insert_eq.
  - right. rewrite list_insert_ge by lia. by rewrite lookup_ge_None_2 by lia.
Qed.

Lemma cell_of_index cols c j r : col_index c cols = Some j → cell_of cols c r = cell_at j r.
Proof. unfold cell_of. by intros ->. Qed.

(** ** What the cleaner does to the rows *)

Section clean_rows_props.
Context {P : Pandas} {PC : PandasCoerce P}.

Lemma coerce_column_fmap j rs :
  coerce_column j rs = (λ r, set_cell j (to_numeric (cell_at j r)) r) <$> rs.
Proof.
  unfold coerce_column, assign.
  rewrite <- list_fmap_compose, zip_with_fmap_r, zip_with_diag. done.
Qed.

Lemma clean_rows_linked i js rs : linked (untouched i js) (clean_rows i js rs) rs.
Proof.
  unfold clean_rows.
  apply (linked_foldl drop_missing (λ _, untouched i js) js rs) with (pre := []);
    [|done|].
  { intros pre j rest outs _.
    apply (linked_filter _ _ (λ r, isna (cell_at j r) = false)); auto. }
  apply (linked_foldl coerce_column (λ _, untouched i js) js rs) with (pre := []);
    [|done|].
  { intros pre j rest outs Hjs. rewrite coerce_column_fmap.
    apply linked_fmap. intros o k [Hlab Hcells]. split; [done|].
    intros j' Hi Hj'. rewrite cell_at_set_cell_ne; [by apply Hcells|].
    intros ->. apply Hj'. rewrite Hjs. set_solver. }
  apply (linked_filter (untouched i js) _ (λ r, isna (cell_at i r) = false)); [auto|].
  unfold parse_times.
  apply (linked_assign (untouched i js) _ (λ _, True)).
  { by rewrite to_datetime_length, length_fmap. }
  { by apply Forall_true. }
  { intros o k v [Hlab Hcells] _. split; [done|].
    intros j Hi Hj. rewrite cell_at_set_cell_ne by done. by apply Hcells. }
  apply (linked_filter (untouched i js) _ (λ r, isna (cell_at i r) = false)); [auto|].
  apply linked_start. by split.
Qed.

Lemma clean_rows_cleaned i js rs :
  i ∉ js → NoDup js → linked (cleaned i js) (clean_rows i js rs) rs.
Proof.
  intros Hi Hnd. unfold clean_rows.
  set (A := λ o k : Row,
         label o = label k ∧ (∀ j, j ≠ i → cell_at j o = cell_at j k)
         ∧ is_time (cell_at i o)).
  set (B := λ (pre : list nat) (o k : Row),
         label o = label k
         ∧ (∀ j, j ≠ i → j ∉ pre → cell_at j o = cell_at j k)
         ∧ is_time (cell_at i o)
         ∧ ∀ j, j ∈ pre → cell_at j o = to_numeric (cell_at j k)
                          ∨ cell_at j o = CNull).
  set (C := λ (pre : list nat) (o k : Row),
         B js o k ∧ ∀ j, j ∈ pre → isna (cell_at j o) = false).
  assert (Hfinal : ∀ o k, C js o k → cleaned i js o k).
  { intros o k [(Hlab & Hrest & Htime & Hnum) Hna].
    split; [by split|]. split; [done|]. intros j Hj.
    specialize (Hna j Hj).
    destruct (Hnum j Hj) as [Heq|Heq]; [|by rewrite Heq in Hna].
    split; [|done]. pose proof (to_numeric_dtype (cell_at j k)) as Hty.
    rewrite <- Heq in Hty. rewrite Hna, orb_false_r in Hty. done. }
  destruct (linked_foldl drop_missing C js rs) with (rest := js) (pre := @nil nat)
    (outs := foldl (λ acc j, coerce_column j acc)
               (drop_missing i (parse_times i (drop_missing i rs))) js)
    as (kept & Hkept & HF); [|done| |].
  { intros pre j rest outs _.
    apply (linked_filter _ _ (λ r, isna (cell_at j r) = false)).
    intros o k [HB Hna] Hj. split; [done|].
    intros j' [Hj'|Hj']%elem_of_app; [by apply Hna|].
    apply list_elem_of_singleton in Hj' as ->. done. }
  2:{ exists kept. split; [done|]. eapply Forall2_impl; [exact HF|]. done. }
  cut (linked (B js) (foldl (λ acc j, coerce_column j acc)
               (drop_missing i (parse_times i (drop_missing i rs))) js) rs).
  { intros (kept & Hkept & HF). exists kept. split; [done|].
    eapply Forall2_impl; [exact HF|]. intros o k HB. split; [done|].
    by intros j ?%elem_of_nil. }
  apply (linked_foldl coerce_column B js rs) with (pre := []); [|done|].
  { intros pre j rest outs Hjs. rewrite coerce_column_fmap.
    assert (Hj_pre : j ∉ pre).
    { rewrite Hjs in Hnd. apply NoDup_app in Hnd as (_ & Hnd & _).
      intros Hin. apply (Hnd j Hin). apply list_elem_of_here. }
    assert (Hj_i : j ≠ i).
    { intros ->. apply Hi. rewrite Hjs. set_solver. }
    apply linked_fmap. intros o k (Hlab & Hrest & Htime & Hnum).
    split; [done|]. split; [|split].
    - intros j' Hj'i Hj'. rewrite cell_at_set_cell_ne; [apply Hrest|]; set_solver.
    - by rewrite cell_at_set_cell_ne.
    - intros j' [Hj'|Hj']%elem_of_app.
      + rewrite cell_at_set_cell_ne by (by intros ->). by apply Hnum.
      + apply list_elem_of_singleton in Hj' as ->.
        destruct (cell_at_set_cell j (to_numeric (cell_at j o)) o)
          as [Heq|[Heq _]]; rewrite Heq; [left|by right].
        by rewrite Hrest. }
  cut (linked A (drop_missing i (parse_times i (drop_missing i rs))) rs).
  { intros (kept & Hkept & HF). exists kept. split; [done|].
    eapply Forall2_impl; [exact HF|]. intros o k (Hlab & Hrest & Htime).
    split; [done|]. split; [auto|]. split; [done|]. by intros j ?%elem_of_nil. }
  set (A0 := λ o k : Row,
         label o = label k ∧ (∀ j, j ≠ i → cell_at j o = cell_at j k)
         ∧ is_time (cell_at i o) || isna (cell_at i o)).
  apply (linked_filter A0 _ (λ r, isna (cell_at i r) = false)).
  { intros o k (Hlab & Hrest & Htime) Hna. split; [done|]. split; [done|].
    by rewrite Hna, orb_false_r in Htime. }
  unfold parse_times.
  apply (linked_assign (λ o k, label o = label k ∧ ∀ j, cell_at j o = cell_at j k)
                       _ (λ v, is_time v || isna v)).
  { by rewrite to_datetime_length, length_fmap. }
  { apply to_datetime_dtype. }
  { intros o k v [Hlab Hcells] Hv. split; [done|]. split.
    - intros j Hj. by rewrite cell_at_set_cell_ne.
    - by destruct (cell_at_set_cell i v o) as [->|[-> _]]. }
  apply (linked_filter (λ o k, label o = label k ∧ ∀ j, cell_at j o = cell_at j k)
                       _ (λ r, isna (cell_at i r) = false)); [auto|].
  apply linked_start. by split.
Qed.
End clean_rows_props.

(** The sample parsers keep the promise of [errors="coerce"]. *)
Lemma sample_pandas_coerce : PandasCoerce sample_pandas.
Proof.
  split; simpl.
  - intros vs. by rewrite length_fmap.
  - intros vs. apply Forall_fmap, Forall_true. intros [|s| |]; simpl; try done.
    by destruct (parse_timestamp s).
  - intros [|s| |]; simpl; try done. by destruct (py_int s).
Defined.

Lemma NoDup_NUMERIC_FIELDS : NoDup NUMERIC_FIELDS.
Proof. by apply (bool_decide_unpack _). Qed.

Lemma NoDup_fmap_eq {A B} (f : A → B) (l : list A) x y :
  NoDup (f <$> l) → x ∈ l → y ∈ l → f x = f y → x = y.
Proof.
  intros Hnd [i Hi]%list_elem_of_lookup [j Hj]%list_elem_of_lookup Hf.
  assert (i = j) as ->; [|congruence].
  eapply NoDup_lookup; [exact Hnd| |]; rewrite list_lookup_fmap.
  - by rewrite Hi.
  - rewrite Hj. simpl. by rewrite Hf.
Qed.

Section cleaner_rows.
Context {P : Pandas} {PC : PandasCoerce P}.

(** The cleaner on a frame with a time column that is not one of the
    numeric fields: it returns a new frame whose rows are [cleaned]. *)
Lemma validate_and_clean_cleaned (h : heap) r df tc i :
  h !! r = Some df → col_index tc (columns df) = Some i →
  tc ∉ NUMERIC_FIELDS →
  ∃ r' h' out,
    validate_and_clean r tc h = (Ok r', h') ∧ h' !! r' = Some out ∧
    columns out = columns df ∧
    linked (cleaned i (present NUMERIC_FIELDS (columns df))) (rows out) (rows df).
Proof.
  intros Hr Hi Htc.
  destruct (validate_and_clean_run h r df tc i Hr Hi) as (ext & r' & Hrun & _ & Hout).
  eexists r', (h ++ ext), _. split; [exact Hrun|]. split; [exact Hout|].
  split; [done|]. apply clean_rows_cleaned.
  - intros (c & Hc & Hci)%elem_of_present.
    by rewrite (col_index_inj _ _ _ _ Hci Hi) in Hc.
  - apply present_NoDup, NoDup_NUMERIC_FIELDS.
Qed.
End cleaner_rows.

(** C3. Whether [validate_and_clean] raises depends on the columns of the
    frame alone: without the time column it raises [KeyError] at once; with
    it (the time column not being one of the numeric fields, and no label
    standing for two columns) it returns, whatever the rows hold.  The
    frame it returns has the columns of the input, and every row of it
    holds a parsed timestamp in the time column and a number in each of
    [ridership], [avg_speed], [congestion_index] that the frame has.  A row
    of the input on which [to_numeric] fails in one of these columns is not
    in the result under its index label: it is dropped, not kept with a
    missing value. *)
Theorem validate_and_clean_sound {P : Pandas} {PC : PandasCoerce P}
    (h : heap) (r : ref) (df : DataFrame) (tc : string) :
  h !! r = Some df → tc ∉ NUMERIC_FIELDS →
  (tc ∉ columns df → validate_and_clean r tc h = (Raise (KeyError tc), h)) ∧
  (tc ∈ columns df → NoDup (columns df) →
   ∃ r' h' out,
     validate_and_clean r tc h = (Ok r', h') ∧ h' !! r' = Some out ∧
     columns out = columns df ∧
     (∀ o, o ∈ rows out →
        is_time (cell_of (columns out) tc o) ∧
        ∀ c, c ∈ NUMERIC_FIELDS → c ∈ columns out →
             is_num (cell_of (columns out) c o)) ∧
     (NoDup (label <$> rows df) →
      ∀ k c, k ∈ rows df → c ∈ NUMERIC_FIELDS → c ∈ columns df →
             isna (to_numeric (cell_of (columns df) c k)) = true →
             label k ∉ label <$> rows out)).
Proof.
  intros Hr Htc. split.
  { intros Habs%col_index_None. by apply (validate_and_clean_absent h r df). }
  intros [i Hi]%col_index_is_Some _.
  destruct (validate_and_clean_cleaned h r df tc i Hr Hi Htc)
    as (r' & h' & out & Hrun & Hout & Hcols & kept & Hkept & HF).
  exists r', h', out. do 3 (split; [done|]). rewrite Hcols. split.
  - intros o [n Hn]%list_elem_of_lookup.
    destruct (Forall2_lookup_l _ _ _ _ _ HF Hn) as (k & _ & _ & Htime & Hnum).
    split; [by rewrite (cell_of_index _ _ _ _ Hi)|].
    intros c Hc [j Hj]%col_index_is_Some. rewrite (cell_of_index _ _ _ _ Hj).
    apply Hnum, elem_of_present. eauto.
  - intros Hnd k c Hk Hc [j Hj]%col_index_is_Some Hna
           (o & Hlab & [n Hn]%list_elem_of_lookup)%list_elem_of_fmap.
    destruct (Forall2_lookup_l _ _ _ _ _ HF Hn)
      as (k' & Hk'%list_elem_of_lookup_2 & [Hlab' _] & _ & Hnum).
    assert (k' = k) as ->.
    { eapply (NoDup_fmap_eq label); [exact Hnd| |done|congruence].
      eapply elem_of_sublist; eauto. }
    destruct (Hnum j) as [Hnum1 Hnum2]; [apply elem_of_present; eauto|].
    rewrite (cell_of_index _ _ _ _ Hj) in Hna.
    rewrite Hnum2 in Hnum1. by destruct (to_numeric (cell_at j k)).
Qed.

Lemma validate_and_clean_sound_witness :
  ("timestamp" ∉ columns sample_public →
   validate_and_clean (P := sample_pandas) 0 "timestamp" [sample_public]
   = (Raise (KeyError "timestamp"), [sample_public])) ∧
  ("timestamp" ∈ columns sample_public → NoDup (columns sample_public) →
   ∃ r' h' out,
     validate_and_clean (P := sample_pandas) 0 "timestamp" [sample_public] = (Ok r', h') ∧
     h' !! r' = Some out ∧
     columns out = columns sample_public ∧
     (∀ o, o ∈ rows out →
        is_time (cell_of (columns out) "timestamp" o) ∧
        ∀ c, c ∈ NUMERIC_FIELDS → c ∈ columns out →
             is_num (cell_of (columns out) c o)) ∧
     (NoDup (label <$> rows sample_public) →
      ∀ k c, k ∈ rows sample_public → c ∈ NUMERIC_FIELDS →
             c ∈ columns sample_public →
             isna (to_numeric (Pandas := sample_pandas)
                              (cell_of (columns sample_public) c k)) = true →
             label k ∉ label <$> rows out)).
Proof.
  apply (validate_and_clean_sound (PC := sample_pandas_coerce)
           [sample_public] 0 sample_public "timestamp").
  - reflexivity.
  - apply (bool_decide_unpack _). vm_compute. exact I.
Defined.

(** On the sample transport file: the rows with the ridership
    [not_a_number] and with the timestamp [soon] are dropped, the others
    are kept in their order. *)
Example validate_and_clean_sample :
  ∃ r' h',
    validate_and_clean (P := sample_pandas) 0 "timestamp" [sample_public] = (Ok r', h') ∧
    h' !! r' = Some cleaned_public ∧ h' !! 0 = Some sample_public.
Proof. eexists _, _. split; [vm_compute; reflexivity|]. by split. Qed.

(** The claim C4, as it is written, fails: the third row of the sample
    transport file has no city, and it is in the cleaned frame. *)
Lemma validate_and_clean_keeps_null_city :
  ∃ r' h' out o,
    validate_and_clean (P := sample_pandas) 0 "timestamp" [sample_public] = (Ok r', h') ∧
    h' !! r' = Some out ∧ o ∈ rows out ∧
    "city" ∈ ["route_id"; "city"; "bus_stop"; "ridership"; "timestamp"] ∧
    isna (cell_of (columns out) "city" o) = true.
Proof.
  eexists _, _, _,
    (mkRow 2 [CStr "R2"; CNull; CStr "S2"; CNum 80; CTime 1735722300000000000]).
  split; [vm_compute; reflexivity|]. split; [reflexivity|].
  split; [|split; [|reflexivity]].
  - apply list_elem_of_lookup. by exists 1.
  - apply (bool_decide_unpack _). vm_compute. exact I.
Qed.

(** C4, amended. On a frame with distinct column labels: after cleaning
    no row holds a missing value in the time column or in a numeric column
    of the frame.  The other columns are not looked at: the rows of the
    result are, in order, rows of the input with every cell outside the
    time column and the numeric fields as it was, a missing [route_id],
    [city] or [bus_stop] included. *)
Theorem validate_and_clean_nulls {P : Pandas} {PC : PandasCoerce P}
    (h : heap) (r : ref) (df : DataFrame) (tc : string) :
  h !! r = Some df → tc ∈ columns df → tc ∉ NUMERIC_FIELDS →
  NoDup (columns df) →
  ∃ r' h' out,
    validate_and_clean r tc h = (Ok r', h') ∧ h' !! r' = Some out ∧
    (∀ o c, o ∈ rows out → c ∈ tc :: NUMERIC_FIELDS → c ∈ columns out →
            isna (cell_of (columns out) c o) = false) ∧
    ∃ kept, kept `sublist_of` rows df ∧
      Forall2 (λ o k, ∀ c, c ∉ tc :: NUMERIC_FIELDS →
                           cell_of (columns out) c o = cell_of (columns df) c k)
              (rows out) kept.
Proof.
  intros Hr [i Hi]%col_index_is_Some Htc _.
  destruct (validate_and_clean_cleaned h r df tc i Hr Hi Htc)
    as (r' & h' & out & Hrun & Hout & Hcols & kept & Hkept & HF).
  exists r', h', out. do 2 (split; [done|]). rewrite Hcols. split.
  - intros o c [n Hn]%list_elem_of_lookup Hc [j Hj]%col_index_is_Some.
    destruct (Forall2_lookup_l _ _ _ _ _ HF Hn) as (k & _ & _ & Htime & Hnum).
    rewrite (cell_of_index _ _ _ _ Hj).
    apply elem_of_cons in Hc as [->|Hc].
    + assert (j = i) as -> by congruence. by destruct (cell_at i o).
    + destruct (Hnum j) as [Hnum1 _]; [apply elem_of_present; eauto|].
      by destruct (cell_at j o).
  - exists kept. split; [done|]. eapply Forall2_impl; [exact HF|].
    intros o k [[_ Hsame] _] c Hc. unfold cell_of.
    destruct (col_index c (columns df)) as [j|] eqn:Hj; [|done].
    apply Hsame.
    + intros ->. rewrite (col_index_inj _ _ _ _ Hj Hi) in Hc. set_solver.
    + intros (c' & Hc' & Hj')%elem_of_present.
      rewrite (col_index_inj _ _ _ _ Hj Hj') in Hc. set_solver.
Qed.

Lemma validate_and_clean_nulls_witness :
  ∃ r' h' out,
    validate_and_clean (P := sample_pandas) 0 "timestamp" [sample_public] = (Ok r', h') ∧
    h' !! r' = Some out ∧
    (∀ o c, o ∈ rows out → c ∈ "timestamp" :: NUMERIC_FIELDS → c ∈ columns out →
            isna (cell_of (columns out) c o) = false) ∧
    ∃ kept, kept `sublist_of` rows sample_public ∧
      Forall2 (λ o k, ∀ c, c ∉ "timestamp" :: NUMERIC_FIELDS →
                 cell_of (columns out) c o = cell_of (columns sample_public) c k)
              (rows out) kept.
Proof.
  apply (validate_and_clean_nulls (PC := sample_pandas_coerce)
           [sample_public] 0 sample_public "timestamp").
  - reflexivity.
  - apply (bool_decide_unpack _). vm_compute. exact I.
  - apply (bool_decide_unpack _). vm_compute. exact I.
  - apply (bool_decide_unpack _). vm_compute. exact I.
Defined.

(** C8. [validate_and_clean] leaves every object of the store as it found
    it, the frame it was given included, whether it returns or raises.  What
    it returns is an object that did not exist before the call, and its rows
    are, in order, the rows of a subsequence of the input's rows (they carry
    the same index labels). *)
Theorem validate_and_clean_order_and_input {P : Pandas} {PC : PandasCoerce P}
    (h : heap) (r : ref) (df : DataFrame) (tc : string) :
  h !! r = Some df →
  ∃ res h',
    validate_and_clean r tc h = (res, h') ∧
    h' !! r = Some df ∧
    (∀ r0 d0, h !! r0 = Some d0 → h' !! r0 = Some d0) ∧
    ∀ r', res = Ok r' →
      h !! r' = None ∧
      ∃ out kept, h' !! r' = Some out ∧ kept `sublist_of` rows df ∧
        Forall2 (λ o k, label o = label k) (rows out) kept.
Proof.
  intros Hr. destruct (col_index tc (columns df)) as [i|] eqn:Hi.
  - destruct (validate_and_clean_run h r df tc i Hr Hi)
      as (ext & r' & Hrun & Hfresh & Hout).
    assert (Hkeep : ∀ r0 d0, h !! r0 = Some d0 → (h ++ ext) !! r0 = Some d0).
    { intros r0 d0 H0. rewrite lookup_app_l; [done|]. by eapply lookup_lt_Some. }
    exists (Ok r'), (h ++ ext). split; [done|]. split; [by apply Hkeep|].
    split; [done|]. intros ? [= <-]. split; [by apply lookup_ge_None_2|].
    destruct (clean_rows_linked i (present NUMERIC_FIELDS (columns df)) (rows df))
      as (kept & Hkept & HF).
    eexists _, kept. split; [exact Hout|]. split; [done|].
    eapply Forall2_impl; [exact HF|]. by intros o k [? _].
  - exists (Raise (KeyError tc)), h.
    split; [by apply (validate_and_clean_absent h r df)|]. by repeat split.
Qed.

Lemma validate_and_clean_order_and_input_witness :
  ∃ res h',
    validate_and_clean (P := sample_pandas) 0 "timestamp" [sample_public] = (res, h') ∧
    h' !! 0 = Some sample_public ∧
    (∀ r0 d0, [sample_public] !! r0 = Some d0 → h' !! r0 = Some d0) ∧
    ∀ r', res = Ok r' →
      [sample_public] !! r' = None ∧
      ∃ out kept, h' !! r' = Some out ∧ kept `sublist_of` rows sample_public ∧
        Forall2 (λ o k, label o = label k) (rows out) kept.
Proof.
  apply (validate_and_clean_order_and_input (PC := sample_pandas_coerce)
           [sample_public] 0 sample_public "timestamp").
  reflexivity.
Defined.

(** ** The joiner runs *)

Lemma add_hours_run {A} (k : M heap A) (h : heap) r d i :
  h !! r = Some d → col_index "timestamp" (columns d) = Some i →
  "timestamp_hour" ∉ columns d → datetime_at i d →
  (ts ← getitem r "timestamp";
   hs ← of_result (dt_floor_H ts);
   setitem r "timestamp_hour" hs;;
   k) h
  = k (<[r := hourly i d]> h).
Proof.
  intros Hr Hi Hnew Hdt.
  step ltac:(by eapply getitem_run).
  unfold dt_floor_H. rewrite decide_True by by apply Forall_fmap.
  erewrite bind_ok; [|reflexivity]. cbv beta.
  erewrite bind_ok;
    [|by eapply setitem_new_run;
         [done|by apply col_index_None|by rewrite !length_fmap]].
  unfold hourly, with_hour.
  by rewrite <- list_fmap_compose, zip_with_fmap_r, zip_with_diag.
Qed.

Lemma merge_run (h : heap) l r dl dr on sfx :
  h !! l = Some dl → h !! r = Some dr →
  merge l r on sfx h
  = match df_merge on sfx.1 sfx.2 dl dr with
    | Ok m => (Ok (length h), h ++ [m])
    | Raise e => (Raise e, h)
    end.
Proof.
  intros Hl Hr. unfold merge.
  step ltac:(by apply frame_run). step ltac:(by apply frame_run).
  unfold bind, of_result, new_frame. by destruct (df_merge _ _ _ _ _).
Qed.

Lemma rename_run (h : heap) r d mapping :
  h !! r = Some d →
  rename r mapping h = (Ok (length h), h ++ [df_rename mapping d]).
Proof. intros Hr. unfold rename. by step ltac:(by apply frame_run). Qed.

(** The joiner in one equation: both inputs get their hour column in place,
    then the merged frame and its renamed copy are added to the store, or
    the merge raises and the two inputs stay changed. *)
Lemma build_unified_table_run (h : heap) p t dp dt ip it :
  h !! p = Some dp → h !! t = Some dt → p ≠ t →
  col_index "timestamp" (columns dp) = Some ip →
  col_index "timestamp" (columns dt) = Some it →
  "timestamp_hour" ∉ columns dp → "timestamp_hour" ∉ columns dt →
  datetime_at ip dp → datetime_at it dt →
  let h2 := <[t := hourly it dt]> (<[p := hourly ip dp]> h) in
  build_unified_table p t h
  = match df_merge JOIN_KEYS "_public" "_traffic" (hourly ip dp) (hourly it dt) with
    | Ok m => (Ok (S (length h)),
               h2 ++ [m; df_rename [("timestamp_hour", "event_hour")] m])
    | Raise e => (Raise e, h2)
    end.
Proof.
  intros Hp Ht Hpt Hip Hit Hnp Hnt Hdp Hdt h2. unfold build_unified_table.
  rewrite (add_hours_run _ h p dp ip Hp Hip Hnp Hdp).
  assert (Ht1 : <[p := hourly ip dp]> h !! t = Some dt).
  { by rewrite list_lookup_insert_ne. }
  rewrite (add_hours_run _ _ t dt it Ht1 Hit Hnt Hdt). fold h2.
  assert (Hp2 : h2 !! p = Some (hourly ip dp)).
  { subst h2. rewrite list_lookup_insert_ne by done.
    apply list_lookup_insert_eq. by eapply lookup_lt_Some. }
  assert (Ht2 : h2 !! t = Some (hourly it dt)).
  { subst h2. apply list_lookup_insert_eq. rewrite length_insert.
    by eapply lookup_lt_Some. }
  assert (Hlen : length h2 = length h) by (subst h2; by rewrite !length_insert).
  rewrite <- Hlen. fold JOIN_KEYS.
  pose proof (merge_run h2 p t _ _ JOIN_KEYS ("_public", "_traffic") Hp2 Ht2) as Hm.
  simpl fst in Hm. simpl snd in Hm.
  destruct (df_merge JOIN_KEYS "_public" "_traffic" (hourly ip dp) (hourly it dt))
    as [m|e].
  - step ltac:(exact Hm).
    step ltac:(by eapply rename_run, lookup_last).
    unfold ret. rewrite length_app, Nat.add_1_r. by rewrite <- app_assoc.
  - by erewrite bind_raise.
Qed.

Lemma col_index_app_l c l k j :
  col_index c l = Some j → col_index c (l ++ k) = Some j.
Proof.
  revert j. induction l as [|x l IH]; intros j; simpl; [done|].
  case_decide; [done|].
  destruct (col_index c l) as [j'|]; simpl; [|done].
  intros [= <-]. by rewrite (IH j').
Qed.

Lemma col_index_app_new c l : c ∉ l → col_index c (l ++ [c]) = Some (length l).
Proof.
  induction l as [|x l IH]; intros Hc; simpl.
  - by rewrite decide_True.
  - apply not_elem_of_cons in Hc as [Hx Hc].
    rewrite decide_False by done. by rewrite IH.
Qed.

Lemma df_merge_hourly dp dt ip it rp rt :
  col_index "route_id" (columns dp) = Some rp →
  col_index "route_id" (columns dt) = Some rt →
  "timestamp_hour" ∉ columns dp → "timestamp_hour" ∉ columns dt →
  df_merge JOIN_KEYS "_public" "_traffic" (hourly ip dp) (hourly it dt)
  = Ok (mkDF (merged_columns JOIN_KEYS "_public" "_traffic"
                (columns dp ++ ["timestamp_hour"]) (columns dt ++ ["timestamp_hour"]))
             (imap mkRow
                (merged_cells [rp; length (columns dp)] [rt; length (columns dt)]
                   (carried JOIN_KEYS (columns dt ++ ["timestamp_hour"]))
                   (with_hour ip <$> rows dp) (with_hour it <$> rows dt)))).
Proof.
  intros Hrp Hrt Hnp Hnt. unfold df_merge, hourly, JOIN_KEYS. simpl.
  rewrite (col_index_app_l _ _ _ _ Hrp), (col_index_app_l _ _ _ _ Hrt).
  by rewrite !col_index_app_new.
Qed.

Lemma datetime_at_cleaned d i :
  col_index "timestamp" (columns d) = Some i →
  (∀ r, r ∈ rows d → is_time (cell_of (columns d) "timestamp" r)) →
  datetime_at i d.
Proof.
  intros Hi Hd. apply Forall_forall. intros r Hr.
  specialize (Hd r Hr). rewrite (cell_of_index _ _ _ _ Hi) in Hd.
  by destruct (cell_at i r).
Qed.

(** C10. [build_unified_table] changes both frames it is given.  For two
    frames with distinct column labels and a column of parsed timestamps:
    after the call, whether the merge then returns or raises, each of the
    two objects has one more column, [timestamp_hour], and each of its rows
    one more cell, the hour floor of the row's timestamp. *)
Theorem build_unified_table_mutates_inputs
    (h : heap) (p t : ref) (dp dt : DataFrame) :
  h !! p = Some dp → h !! t = Some dt → p ≠ t →
  NoDup (columns dp) → NoDup (columns dt) →
  "timestamp" ∈ columns dp → "timestamp" ∈ columns dt →
  "timestamp_hour" ∉ columns dp → "timestamp_hour" ∉ columns dt →
  (∀ r, r ∈ rows dp → is_time (cell_of (columns dp) "timestamp" r)) →
  (∀ r, r ∈ rows dt → is_time (cell_of (columns dt) "timestamp" r)) →
  ∃ res h' dp' dt',
    build_unified_table p t h = (res, h') ∧
    h' !! p = Some dp' ∧ h' !! t = Some dt' ∧
    dp' ≠ dp ∧ dt' ≠ dt ∧
    columns dp' = columns dp ++ ["timestamp_hour"] ∧
    columns dt' = columns dt ++ ["timestamp_hour"] ∧
    rows dp' = (λ r, push_cell (floor_cell (cell_of (columns dp) "timestamp" r)) r)
                 <$> rows dp ∧
    rows dt' = (λ r, push_cell (floor_cell (cell_of (columns dt) "timestamp" r)) r)
                 <$> rows dt.
Proof.
  intros Hp Ht Hpt _ _ [ip Hip]%col_index_is_Some [it Hit]%col_index_is_Some
         Hnp Hnt Hdp Hdt.
  pose proof (build_unified_table_run h p t dp dt ip it Hp Ht Hpt Hip Hit Hnp Hnt
                (datetime_at_cleaned _ _ Hip Hdp) (datetime_at_cleaned _ _ Hit Hdt))
    as Hrun. simpl in Hrun.
  set (h2 := <[t := hourly it dt]> (<[p := hourly ip dp]> h)) in *.
  assert (Hp2 : h2 !! p = Some (hourly ip dp)).
  { subst h2. rewrite list_lookup_insert_ne by done.
    apply list_lookup_insert_eq. by eapply lookup_lt_Some. }
  assert (Ht2 : h2 !! t = Some (hourly it dt)).
  { subst h2. apply list_lookup_insert_eq. rewrite length_insert.
    by eapply lookup_lt_Some. }
  assert (Hgrow : ∀ d, hourly ip d ≠ d ∧ hourly it d ≠ d).
  { intros d. split; intros Heq; apply (f_equal (length ∘ columns)) in Heq;
      simpl in Heq; rewrite length_app in Heq; simpl in Heq; lia. }
  assert (Hfacts : ∀ h' : heap, (∀ r d, h2 !! r = Some d → h' !! r = Some d) →
            h' !! p = Some (hourly ip dp) ∧ h' !! t = Some (hourly it dt) ∧
            hourly ip dp ≠ dp ∧ hourly it dt ≠ dt ∧
            columns (hourly ip dp) = columns dp ++ ["timestamp_hour"] ∧
            columns (hourly it dt) = columns dt ++ ["timestamp_hour"] ∧
            rows (hourly ip dp)
            = (λ r, push_cell (floor_cell (cell_of (columns dp) "timestamp" r)) r)
                <$> rows dp ∧
            rows (hourly it dt)
            = (λ r, push_cell (floor_cell (cell_of (columns dt) "timestamp" r)) r)
                <$> rows dt).
  { intros h' Hh'. split; [by apply Hh'|]. split; [by apply Hh'|].
    split; [apply Hgrow|]. split; [apply Hgrow|]. do 2 (split; [done|]).
    split; simpl; apply list_fmap_ext; intros ? r _; unfold with_hour;
      by erewrite cell_of_index. }
  destruct (df_merge JOIN_KEYS "_public" "_traffic" (hourly ip dp) (hourly it dt))
    as [m|e] eqn:Hm.
  - eexists _, _, (hourly ip dp), (hourly it dt). split; [exact Hrun|].
    destruct (Hfacts (h2 ++ [m; df_rename [("timestamp_hour", "event_hour")] m]))
      as (?&?&?&?&?&?&?&?).
    { intros r d Hr. rewrite lookup_app_l; [done|]. by eapply lookup_lt_Some. }
    by repeat (split; [done|]).
  - eexists _, _, (hourly ip dp), (hourly it dt). split; [exact Hrun|].
    destruct (Hfacts h2) as (?&?&?&?&?&?&?&?); [done|].
    by repeat (split; [done|]).
Qed.

Lemma build_unified_table_mutates_inputs_witness :
  ∃ res h' dp' dt',
    build_unified_table 0 1 [cleaned_public; cleaned_traffic] = (res, h') ∧
    h' !! 0 = Some dp' ∧ h' !! 1 = Some dt' ∧
    dp' ≠ cleaned_public ∧ dt' ≠ cleaned_traffic ∧
    columns dp' = columns cleaned_public ++ ["timestamp_hour"] ∧
    columns dt' = columns cleaned_traffic ++ ["timestamp_hour"] ∧
    rows dp' = (λ r, push_cell (floor_cell
                   (cell_of (columns cleaned_public) "timestamp" r)) r)
                 <$> rows cleaned_public ∧
    rows dt' = (λ r, push_cell (floor_cell
                   (cell_of (columns cleaned_traffic) "timestamp" r)) r)
                 <$> rows cleaned_traffic.
Proof.
  apply (build_unified_table_mutates_inputs
           [cleaned_public; cleaned_traffic] 0 1 cleaned_public cleaned_traffic).
  - reflexivity.
  - reflexivity.
  - lia.
  - apply (bool_decide_unpack _). vm_compute. exact I.
  - apply (bool_decide_unpack _). vm_compute. exact I.
  - apply (bool_decide_unpack _). vm_compute. exact I.
  - apply (bool_decide_unpack _). vm_compute. exact I.
  - apply (bool_decide_unpack _). vm_compute. exact I.
  - apply (bool_decide_unpack _). vm_compute. exact I.
  - apply Forall_forall. apply (bool_decide_unpack _). vm_compute. exact I.
  - apply Forall_forall. apply (bool_decide_unpack _). vm_compute. exact I.
Defined.

(** ** The join, pair by pair *)

Lemma merged_cells_pairs lk rk keep (f g : Row → Row) (J : Row * Row → Prop)
    `{!∀ x, Decision (J x)} (ps ts : list Row) :
  (∀ p t, p ∈ ps → t ∈ ts → keys_match lk rk (f p) (g t) ↔ J (p, t)) →
  merged_cells lk rk keep (f <$> ps) (g <$> ts)
  = (λ pt, cells (f pt.1) ++ ((λ j, cell_at j (g pt.2)) <$> keep))
      <$> filter J (list_prod ps ts).
Proof.
  intros HJ. unfold merged_cells.
  induction ps as [|p ps IH]; [done|]. simpl.
  rewrite filter_app, fmap_app. f_equal.
  - assert (Hp : ∀ t, t ∈ ts → keys_match lk rk (f p) (g t) ↔ J (p, t)).
    { intros t Ht. apply HJ; [apply list_elem_of_here|done]. }
    clear IH HJ. induction ts as [|t ts IH]; [done|]. simpl.
    rewrite !filter_cons.
    destruct (decide (keys_match lk rk (f p) (g t))) as [Hk|Hk];
      destruct (decide (J (p, t))) as [Hj|Hj].
    + simpl. f_equal. apply IH. intros t' Ht'. apply Hp. by apply list_elem_of_further.
    + exfalso. apply Hj, Hp; [apply list_elem_of_here|done].
    + exfalso. apply Hk, Hp; [apply list_elem_of_here|done].
    + apply IH. intros t' Ht'. apply Hp. by apply list_elem_of_further.
  - apply IH. intros p' t Hp' Ht. apply HJ; [by apply list_elem_of_further|done].
Qed.

Lemma Forall2_Forall_r {A B} (R : A → B → Prop) (Q : B → Prop) l k :
  Forall2 R l k → Forall Q k → Forall2 (λ x y, R x y ∧ Q y) l k.
Proof.
  induction 1 as [|x y l k Hxy HF IH]; intros HQ; [constructor|].
  apply Forall_cons in HQ as [Hy HQ]. constructor; auto.
Qed.

Lemma Forall2_imap_fmap {A} (F : A → list cell) (mk : nat → list cell → Row)
    (l : list A) :
  (∀ n cs, cells (mk n cs) = cs) →
  Forall2 (λ o x, cells o = F x) (imap mk (F <$> l)) l.
Proof.
  revert mk. induction l as [|x l IH]; intros mk Hmk; simpl.
  - constructor.
  - constructor; [apply Hmk|]. apply IH. intros n cs. apply Hmk.
Qed.

Lemma filter_imap_iff (Q1 Q2 : string → Prop)
    `{!∀ c, Decision (Q1 c)} `{!∀ c, Decision (Q2 c)} (g : nat → nat) rc :
  (∀ c, c ∈ rc → Q1 c ↔ Q2 c) →
  filter (λ ic : nat * string, Q1 ic.2) (imap (λ n c, (g n, c)) rc)
  = filter (λ ic : nat * string, Q2 ic.2) (imap (λ n c, (g n, c)) rc).
Proof.
  revert g. induction rc as [|c rc IH]; intros g HQ; [done|].
  simpl. rewrite !filter_cons. simpl.
  change (imap ((λ n c, (g n, c)) ∘ S) rc) with (imap (λ n c, ((g ∘ S) n, c)) rc).
  rewrite (IH (g ∘ S)) by (intros c' Hc'; apply HQ; by apply list_elem_of_further).
  assert (Hc : Q1 c ↔ Q2 c) by (apply HQ, list_elem_of_here).
  destruct (decide (Q1 c)), (decide (Q2 c)); tauto || done.
Qed.

(** The traffic columns that are carried over are all but the route: the
    hour column, appended last, is a key. *)
Lemma carried_hour rc :
  "timestamp_hour" ∉ rc →
  carried JOIN_KEYS (rc ++ ["timestamp_hour"]) = carried ["route_id"] rc.
Proof.
  intros Hrc. unfold carried. rewrite imap_app, filter_app, fmap_app. simpl.
  rewrite app_nil_r. f_equal.
  change (imap pair rc) with (imap (λ n c, (id n, c)) rc).
  refine (filter_imap_iff (λ c, c ∉ JOIN_KEYS) (λ c, c ∉ ["route_id"]) id rc _).
  intros c Hc. unfold JOIN_KEYS. rewrite !not_elem_of_cons.
  split; [tauto|]. intros [? ?]. repeat split; [done| |done].
  by intros ->.
Qed.

Lemma carried_lt on rc j : j ∈ carried on rc → j < length rc.
Proof.
  unfold carried. intros ([j' c] & -> & Hin)%list_elem_of_fmap.
  apply list_elem_of_filter in Hin as [_ Hin].
  apply elem_of_lookup_imap in Hin as (n & c' & [= -> ->] & Hn).
  by eapply lookup_lt_Some.
Qed.

Lemma col_index_middle x l k : x ∉ l → col_index x (l ++ x :: k) = Some (length l).
Proof.
  induction l as [|y l IH]; intros Hx; simpl.
  - by rewrite decide_True.
  - apply not_elem_of_cons in Hx as [Hy Hx].
    rewrite decide_False by done. by rewrite IH.
Qed.

Lemma public_suffix_fresh c :
  c +:+ "_public" ≠ "event_hour" ∧ c +:+ "_public" ≠ "timestamp_hour".
Proof.
  assert (Hlen : ∀ a b : string,
            String.length (a +:+ b) = String.length a + String.length b).
  { intros a b. induction a as [|x a IH]; simpl; [done|]. by rewrite IH. }
  split; intros Heq; pose proof (f_equal String.length Heq) as Hl;
    rewrite Hlen in Hl; simpl in Hl.
  - do 4 (destruct c as [|? c]; simpl in Hl; try lia). discriminate.
  - do 8 (destruct c as [|? c]; simpl in Hl; try lia). discriminate.
Qed.

(** The hour column of the public side, renamed, is the one and only
    [event_hour] column the result is read by. *)
Lemma event_hour_index pc tc :
  "timestamp_hour" ∉ pc → "event_hour" ∉ pc →
  col_index "event_hour"
    (renamed [("timestamp_hour", "event_hour")]
       <$> merged_columns JOIN_KEYS "_public" "_traffic"
             (pc ++ ["timestamp_hour"]) (tc ++ ["timestamp_hour"]))
  = Some (length pc).
Proof.
  intros Hth Heh. unfold merged_columns.
  rewrite !fmap_app. simpl. rewrite <- app_assoc. simpl.
  rewrite <- (length_fmap (λ c, if decide (c ∈ JOIN_KEYS) then c
                            else if decide (c ∈ tc ++ ["timestamp_hour"])
                                 then c +:+ "_public" else c) pc).
  rewrite <- (length_fmap (renamed [("timestamp_hour", "event_hour")])).
  apply col_index_middle.
  intros (x & Hx & (c & -> & Hc)%list_elem_of_fmap)%list_elem_of_fmap.
  destruct (public_suffix_fresh c) as [Hs1 Hs2].
  simpl in Hx. repeat case_decide; simplify_eq; congruence.
Qed.

(** The claim C1, as it is written, fails on what the cleaner lets
    through.  The two frames are cleaned: the cleaner returns them as they
    are.  Each has a record of route R1 and a record without a route, all
    four in the same hour.  One pair of records has equal route strings,
    and the joiner returns two rows: the second is made of the two records
    without a route. *)
Lemma build_unified_table_joins_missing_routes :
  (∃ r' h', validate_and_clean (P := sample_pandas) 0 "timestamp" [routeless_public]
            = (Ok r', h') ∧ h' !! r' = Some routeless_public) ∧
  (∃ r' h', validate_and_clean (P := sample_pandas) 0 "timestamp" [routeless_traffic]
            = (Ok r', h') ∧ h' !! r' = Some routeless_traffic) ∧
  length (filter (same_bucket (columns routeless_public) (columns routeless_traffic))
                 (list_prod (rows routeless_public) (rows routeless_traffic))) = 1 ∧
  ∃ u h' out,
    build_unified_table 0 1 [routeless_public; routeless_traffic] = (Ok u, h') ∧
    h' !! u = Some out ∧
    length (rows out) = 2 ∧
    cell_of (columns out) "route_id" <$> rows out = [CStr "R1"; CNull] ∧
    cell_of (columns out) "bus_stop" <$> rows out = [CStr "S1"; CStr "S9"].
Proof.
  split; [eexists _, _; split; [vm_compute; reflexivity|reflexivity]|].
  split; [eexists _, _; split; [vm_compute; reflexivity|reflexivity]|].
  split; [by vm_compute|].
  eexists _, _, _. split; [vm_compute; reflexivity|]. by vm_compute.
Qed.

(** C1, amended.  For two frames of cleaned records whose routes are all
    strings, with distinct column labels that stay distinct in the unified
    table, the public one without an [event_hour] column of its own,
    [build_unified_table] returns a frame whose rows are, one for one, the
    pairs of a public and a traffic record with the same route (as
    strings) and with timestamps in the same hour: every such pair of the
    cross product once, pairs of repeated keys included, and nothing else.
    The row of a pair holds the cells of the public record, then the hour,
    then the cells of the traffic record except its route; its
    [event_hour] is the start of the hour in which both timestamps lie. *)
Theorem build_unified_table_inner_join
    (h : heap) (p t : ref) (dp dt : DataFrame) :
  h !! p = Some dp → h !! t = Some dt → p ≠ t →
  NoDup (columns dp) → NoDup (columns dt) →
  NoDup (unified_columns (columns dp) (columns dt)) →
  "route_id" ∈ columns dp → "timestamp" ∈ columns dp →
  "route_id" ∈ columns dt → "timestamp" ∈ columns dt →
  "timestamp_hour" ∉ columns dp → "timestamp_hour" ∉ columns dt →
  "event_hour" ∉ columns dp →
  Forall (cleaned_record (columns dp)) (rows dp) →
  Forall (cleaned_record (columns dt)) (rows dt) →
  ∃ u h' out pairs,
    build_unified_table p t h = (Ok u, h') ∧ h' !! u = Some out ∧
    pairs ≡ₚ filter (same_bucket (columns dp) (columns dt))
                    (list_prod (rows dp) (rows dt)) ∧
    Forall2 (λ o pt,
        ∃ tp tt,
          cell_of (columns dp) "timestamp" pt.1 = CTime tp ∧
          cell_of (columns dt) "timestamp" pt.2 = CTime tt ∧
          hour_start tp = hour_start tt ∧
          cell_of (columns out) "event_hour" o = CTime (hour_start tp) ∧
          cells o = cells pt.1 ++ CTime (hour_start tp)
                      :: ((λ j, cell_at j pt.2) <$> carried ["route_id"] (columns dt)))
      (rows out) pairs.
Proof.
  intros Hp Ht Hpt _ _ _ [rp Hrp]%col_index_is_Some [ip Hip]%col_index_is_Some
         [rt Hrt]%col_index_is_Some [it Hit]%col_index_is_Some
         Hnp Hnt Heh Hcp Hct.
  assert (Hdp : datetime_at ip dp).
  { apply datetime_at_cleaned; [done|]. intros r Hr.
    by destruct (proj1 (Forall_forall _ _) Hcp r Hr) as (_ & _ & ?). }
  assert (Hdt : datetime_at it dt).
  { apply datetime_at_cleaned; [done|]. intros r Hr.
    by destruct (proj1 (Forall_forall _ _) Hct r Hr) as (_ & _ & ?). }
  pose proof (build_unified_table_run h p t dp dt ip it Hp Ht Hpt Hip Hit Hnp Hnt
                Hdp Hdt) as Hrun. simpl in Hrun.
  rewrite (df_merge_hourly dp dt ip it rp rt Hrp Hrt Hnp Hnt) in Hrun.
  set (h2 := <[t := hourly it dt]> (<[p := hourly ip dp]> h)) in *.
  assert (Hlen : length h2 = length h) by (subst h2; by rewrite !length_insert).
  (* the hour column sits after the cells of a rectangular row *)
  assert (Hcell_p : ∀ r, r ∈ rows dp → ∃ s ns,
            cell_at rp (with_hour ip r) = CStr s ∧
            cell_at (length (columns dp)) (with_hour ip r) = CTime (hour_start ns) ∧
            cell_of (columns dp) "route_id" r = CStr s ∧
            cell_of (columns dp) "timestamp" r = CTime ns ∧
            cells (with_hour ip r) = cells r ++ [CTime (hour_start ns)]).
  { intros r Hr. destruct (proj1 (Forall_forall _ _) Hcp r Hr) as (Hl & Hs & Hti).
    rewrite (cell_of_index _ _ _ _ Hrp) in Hs |- *.
    rewrite (cell_of_index _ _ _ _ Hip) in Hti |- *.
    destruct (cell_at rp r) as [|s| |] eqn:Hcs; try done.
    destruct (cell_at ip r) as [| | |ns] eqn:Hcn; try done.
    exists s, ns. unfold with_hour, cell_at, push_cell in *. simpl. rewrite Hcn.
    simpl. rewrite floor_hour_spec. fold (hour_start ns).
    split; [|split; [|done]].
    - rewrite lookup_app_l; [done|]. rewrite Hl. by eapply lookup_lt_Some, col_index_lookup.
    - rewrite <- Hl. by rewrite list_lookup_middle. }
  assert (Hcell_t : ∀ r, r ∈ rows dt → ∃ s ns,
            cell_at rt (with_hour it r) = CStr s ∧
            cell_at (length (columns dt)) (with_hour it r) = CTime (hour_start ns) ∧
            cell_of (columns dt) "route_id" r = CStr s ∧
            cell_of (columns dt) "timestamp" r = CTime ns ∧
            ∀ j, j < length (columns dt) → cell_at j (with_hour it r) = cell_at j r).
  { intros r Hr. destruct (proj1 (Forall_forall _ _) Hct r Hr) as (Hl & Hs & Hti).
    rewrite (cell_of_index _ _ _ _ Hrt) in Hs |- *.
    rewrite (cell_of_index _ _ _ _ Hit) in Hti |- *.
    destruct (cell_at rt r) as [|s| |] eqn:Hcs; try done.
    destruct (cell_at it r) as [| | |ns] eqn:Hcn; try done.
    exists s, ns. unfold with_hour, cell_at, push_cell in *. simpl. rewrite Hcn.
    simpl. rewrite floor_hour_spec. fold (hour_start ns).
    split; [|split; [|split; [done|split; [done|]]]].
    - rewrite lookup_app_l; [done|]. rewrite Hl. by eapply lookup_lt_Some, col_index_lookup.
    - rewrite <- Hl. by rewrite list_lookup_middle.
    - intros j Hj. rewrite lookup_app_l; [done|]. by rewrite Hl. }
  (* the keys of the merge agree exactly on the pairs of one bucket *)
  assert (HJ : ∀ r1 r2, r1 ∈ rows dp → r2 ∈ rows dt →
            keys_match [rp; length (columns dp)] [rt; length (columns dt)]
                       (with_hour ip r1) (with_hour it r2)
            ↔ same_bucket (columns dp) (columns dt) (r1, r2)).
  { intros r1 r2 Hr1 Hr2.
    destruct (Hcell_p r1 Hr1) as (s1 & n1 & Ha1 & Hb1 & Hc1 & Hd1 & _).
    destruct (Hcell_t r2 Hr2) as (s2 & n2 & Ha2 & Hb2 & Hc2 & Hd2 & _).
    unfold keys_match, same_bucket, route_of, hour_of. simpl.
    rewrite Hc1, Hc2, Hd1, Hd2. split.
    - intros (H1 & (H2 & _)%Forall2_cons_1)%Forall2_cons_1.
      rewrite Ha1, Ha2 in H1. rewrite Hb1, Hb2 in H2. simpl in H1, H2.
      apply bool_decide_eq_true in H1, H2.
      split; [eauto|]. split; [congruence|]. split; [eauto|congruence].
    - intros (_ & [= ->] & _ & [= Hh]). repeat constructor.
      + rewrite Ha1, Ha2. simpl. by apply bool_decide_eq_true.
      + rewrite Hb1, Hb2. simpl. apply bool_decide_eq_true. by rewrite Hh. }
  pose proof (merged_cells_pairs [rp; length (columns dp)] [rt; length (columns dt)]
                (carried JOIN_KEYS (columns dt ++ ["timestamp_hour"]))
                (with_hour ip) (with_hour it)
                (same_bucket (columns dp) (columns dt)) (rows dp) (rows dt) HJ) as Hmc.
  rewrite Hmc in Hrun. clear Hmc.
  rewrite carried_hour in Hrun by done.
  eexists _, _, _, _. split; [exact Hrun|]. split.
  { rewrite lookup_app_r by lia. by replace (S (length h) - length h2) with 1 by lia. }
  split; [reflexivity|]. simpl rows. simpl columns.
  set (pairs := filter (same_bucket (columns dp) (columns dt))
                       (list_prod (rows dp) (rows dt))).
  assert (Hpairs : Forall (λ pt : Row * Row, pt.1 ∈ rows dp ∧ pt.2 ∈ rows dt
                             ∧ same_bucket (columns dp) (columns dt) pt) pairs).
  { apply Forall_forall. intros [r1 r2] [Hsame Hin]%list_elem_of_filter.
    apply list_elem_of_In, in_prod_iff in Hin as [H1 H2].
    by rewrite <- !list_elem_of_In in H1, H2. }
  pose proof (Forall2_imap_fmap
                (λ pt : Row * Row, cells (with_hour ip pt.1) ++
                   ((λ j, cell_at j (with_hour it pt.2))
                      <$> carried ["route_id"] (columns dt)))
                mkRow pairs (λ _ _, eq_refl)) as HF.
  eapply Forall2_impl; [exact (Forall2_Forall_r _ _ _ _ HF Hpairs)|].
  clear HF Hpairs Hrun. intros o [r1 r2] [Hcells (Hr1 & Hr2 & Hsame)]. simpl in *.
  destruct (Hcell_p r1 Hr1) as (s1 & n1 & _ & _ & _ & Hd1 & He1).
  destruct (Hcell_t r2 Hr2) as (s2 & n2 & _ & _ & _ & Hd2 & He2).
  exists n1, n2. split; [done|]. split; [done|].
  destruct Hsame as (_ & _ & _ & Hhour). unfold hour_of in Hhour. simpl in Hhour.
  rewrite Hd1, Hd2 in Hhour. split; [congruence|].
  destruct (proj1 (Forall_forall _ _) Hcp r1 Hr1) as (Hl & _ & _).
  rewrite He1, <- app_assoc in Hcells. simpl in Hcells. split.
  - unfold cell_of, df_rename. simpl columns.
    rewrite event_hour_index by done. unfold cell_at.
    rewrite Hcells, <- Hl. by rewrite list_lookup_middle.
  - rewrite Hcells. do 2 f_equal. apply list_fmap_ext. intros n j Hj.
    apply He2. eapply carried_lt, list_elem_of_lookup_2, Hj.
Qed.

Lemma build_unified_table_inner_join_witness :
  ∃ u h' out pairs,
    build_unified_table 0 1 [cleaned_public; cleaned_traffic] = (Ok u, h') ∧
    h' !! u = Some out ∧
    pairs ≡ₚ filter (same_bucket (columns cleaned_public) (columns cleaned_traffic))
                    (list_prod (rows cleaned_public) (rows cleaned_traffic)) ∧
    Forall2 (λ o pt,
        ∃ tp tt,
          cell_of (columns cleaned_public) "timestamp" pt.1 = CTime tp ∧
          cell_of (columns cleaned_traffic) "timestamp" pt.2 = CTime tt ∧
          hour_start tp = hour_start tt ∧
          cell_of (columns out) "event_hour" o = CTime (hour_start tp) ∧
          cells o = cells pt.1 ++ CTime (hour_start tp)
                      :: ((λ j, cell_at j pt.2)
                            <$> carried ["route_id"] (columns cleaned_traffic)))
      (rows out) pairs.
Proof.
  apply (build_unified_table_inner_join
           [cleaned_public; cleaned_traffic] 0 1 cleaned_public cleaned_traffic).
  - reflexivity.
  - reflexivity.
  - lia.
  - apply (bool_decide_unpack _). vm_compute. exact I.
  - apply (bool_decide_unpack _). vm_compute. exact I.
  - apply (bool_decide_unpack _). vm_compute. exact I.
  - apply (bool_decide_unpack _). vm_compute. exact I.
  - apply (bool_decide_unpack _). vm_compute. exact I.
  - apply (bool_decide_unpack _). vm_compute. exact I.
  - apply (bool_decide_unpack _). vm_compute. exact I.
  - apply (bool_decide_unpack _). vm_compute. exact I.
  - apply (bool_decide_unpack _). vm_compute. exact I.
  - apply (bool_decide_unpack _). vm_compute. exact I.
  - apply (bool_decide_unpack _). vm_compute. exact I.
  - apply (bool_decide_unpack _). vm_compute. exact I.
Defined.

(** On the cleaned samples: the public records of route R1 at 08:10 and at
    08:50 each join the traffic record of R1 at 08:45, at 08:00; the public
    record of 09:05 and the traffic record of route R3 make no row. *)
Example build_unified_table_scenario :
  ∃ u h' out,
    build_unified_table 0 1 [cleaned_public; cleaned_traffic] = (Ok u, h') ∧
    h' !! u = Some out ∧
    (cell_of (columns out) "event_hour" <$> rows out)
    = [CTime 1735718400000000000; CTime 1735718400000000000] ∧
    parse_timestamp "2025-01-01 08:00:00" = Some 1735718400000000000%Z.
Proof. eexists _, _, _. split; [vm_compute; reflexivity|]. by vm_compute. Qed.

(** pandas joins a missing key with a missing key: two records without a
    route, in the same hour, make a row. *)
Example merge_matches_missing_routes :
  df_merge JOIN_KEYS "_public" "_traffic"
    (mkDF ["route_id"; "timestamp_hour"] [mkRow 0 [CNull; CTime 0]])
    (mkDF ["route_id"; "avg_speed"; "timestamp_hour"] [mkRow 0 [CNull; CNum 20; CTime 0]])
  = Ok (mkDF ["route_id"; "timestamp_hour"; "avg_speed"]
             [mkRow 0 [CNull; CTime 0; CNum 20]]).
Proof. reflexivity. Qed.

(** ** Readers and fail-fast *)

Lemma grown_refl w : grown [] w w.
Proof. unfold grown. by rewrite app_nil_r. Qed.

Lemma grown_trans ds1 ds2 w1 w2 w3 :
  grown ds1 w1 w2 → grown ds2 w2 w3 → grown (ds1 ++ ds2) w1 w3.
Proof.
  intros (Ho1 & ? & ? & ?) (Ho2 & ? & ? & ?). unfold grown.
  rewrite Ho2, Ho1, app_assoc. repeat split; congruence.
Qed.

Lemma grown_log lv msg w : grown [] w (add_log lv msg w).
Proof. unfold grown. simpl. by rewrite app_nil_r. Qed.

Lemma liftH_run {A} (m : M heap A) w r h :
  m (objects w) = (r, h) → liftH m w = (r, set_objects h w).
Proof. unfold liftH. by intros ->. Qed.

Section readers.
Context (E : Env).

Lemma maybe_git_pull_run w : ∃ w', maybe_git_pull E w = (Ok tt, w') ∧ grown [] w w'.
Proof.
  unfold maybe_git_pull. case_decide; [|eexists; split; [reflexivity|apply grown_refl]].
  unfold try_except, bind, of_result. simpl.
  destruct (git_pull E) as [[]|e]; eexists; (split; [reflexivity|]).
  - apply grown_log.
  - apply (grown_trans [] [] _ _ _ (grown_log _ _ _) (grown_log _ _ _)).
Qed.

(** The frame of a source, once read, is a new object. *)
Lemma public_received path raw w :
  public_read E path = Ok raw →
  ∃ w', (if truthy (getenv E "TRANSPORT_CSV_URL") then
           logger INFO "Fetching public transport CSV from URL";;
           received (get_csv E (default "" (getenv E "TRANSPORT_CSV_URL")))
         else received (read_csv E path)) w
        = (Ok (length (objects w)), w') ∧ grown [raw] w w'.
Proof.
  unfold public_read. intros Hread.
  destruct (truthy (getenv E "TRANSPORT_CSV_URL")).
  - erewrite bind_ok; [|reflexivity]. unfold received. rewrite Hread.
    erewrite bind_ok; [|reflexivity]. eexists. split; [reflexivity|].
    by repeat split.
  - unfold received. rewrite Hread.
    erewrite bind_ok; [|reflexivity]. eexists. split; [reflexivity|].
    by repeat split.
Qed.

Lemma traffic_received path raw w :
  traffic_read E path = Ok raw →
  ∃ w', (if truthy (getenv E "TRAFFIC_API_URL")
         then received (get_json E (default "" (getenv E "TRAFFIC_API_URL")))
         else received (load_json E path)) w
        = (Ok (length (objects w)), w') ∧ grown [raw] w w'.
Proof.
  unfold traffic_read. intros Hread.
  destruct (truthy (getenv E "TRAFFIC_API_URL")); unfold received; rewrite Hread;
    (erewrite bind_ok; [|reflexivity]); eexists; (split; [reflexivity|]);
    by repeat split.
Qed.

Lemma columns_of_last w w' raw ds :
  objects w' = objects w ++ ds ++ [raw] →
  liftH (df_columns (length (objects w) + length ds)) w' = (Ok (columns raw), w').
Proof.
  intros Ho. erewrite liftH_run.
  2:{ apply df_columns_run. rewrite Ho, app_assoc.
      rewrite <- length_app. apply lookup_last. }
  unfold set_objects. by destruct w'.
Qed.

Lemma load_public_raises path raw w :
  public_read E path = Ok raw →
  missing PUBLIC_REQUIRED (columns raw) ≠ [] →
  ∃ w', load_public_transport_csv E path w
        = (Raise (ValueError "Public transport CSV missing required columns"
                             (missing PUBLIC_REQUIRED (columns raw))), w')
        ∧ grown [raw] w w'.
Proof.
  intros Hread Hmiss. unfold load_public_transport_csv.
  destruct (public_received path raw w Hread) as (w1 & Hrun & Hg).
  step ltac:(exact Hrun).
  pose proof (columns_of_last w w1 raw [] (proj1 Hg)) as Hcols.
  simpl in Hcols. rewrite Nat.add_0_r in Hcols.
  step ltac:(exact Hcols). fold (missing PUBLIC_REQUIRED (columns raw)).
  rewrite decide_True by done. eauto.
Qed.

Lemma load_public_returns path raw w :
  public_read E path = Ok raw →
  missing PUBLIC_REQUIRED (columns raw) = [] →
  ∃ w', load_public_transport_csv E path w = (Ok (S (length (objects w))), w')
        ∧ grown [raw; df_rename [("timing", "timestamp")] raw] w w'.
Proof.
  intros Hread Hmiss. unfold load_public_transport_csv.
  destruct (public_received path raw w Hread) as (w1 & Hrun & Hg).
  step ltac:(exact Hrun).
  pose proof (columns_of_last w w1 raw [] (proj1 Hg)) as Hcols.
  simpl in Hcols. rewrite Nat.add_0_r in Hcols.
  step ltac:(exact Hcols). fold (missing PUBLIC_REQUIRED (columns raw)).
  rewrite decide_False by (by rewrite Hmiss; intros ?).
  destruct Hg as (Ho & Hf & Hd & Hm).
  erewrite bind_ok.
  2:{ apply liftH_run. apply rename_run. rewrite Ho. apply lookup_last. }
  exists (set_objects (objects w1 ++ [df_rename [("timing", "timestamp")] raw]) w1).
  split.
  - unfold ret. do 2 f_equal. rewrite Ho, length_app. simpl. lia.
  - unfold grown. simpl. rewrite Ho, <- app_assoc. done.
Qed.

Lemma load_traffic_raises path raw w :
  traffic_read E path = Ok raw →
  missing TRAFFIC_REQUIRED (columns raw) ≠ [] →
  ∃ w', load_traffic_data E path w
        = (Raise (ValueError "Traffic JSON/API data missing required fields"
                             (missing TRAFFIC_REQUIRED (columns raw))), w')
        ∧ grown [raw] w w'.
Proof.
  intros Hread Hmiss. unfold load_traffic_data.
  destruct (traffic_received path raw w Hread) as (w1 & Hrun & Hg).
  step ltac:(exact Hrun).
  pose proof (columns_of_last w w1 raw [] (proj1 Hg)) as Hcols.
  simpl in Hcols. rewrite Nat.add_0_r in Hcols.
  step ltac:(exact Hcols). fold (missing TRAFFIC_REQUIRED (columns raw)).
  rewrite decide_True by done. eauto.
Qed.

Lemma load_traffic_returns path raw w :
  traffic_read E path = Ok raw →
  missing TRAFFIC_REQUIRED (columns raw) = [] →
  ∃ w', load_traffic_data E path w = (Ok (length (objects w)), w')
        ∧ grown [raw] w w'.
Proof.
  intros Hread Hmiss. unfold load_traffic_data.
  destruct (traffic_received path raw w Hread) as (w1 & Hrun & Hg).
  step ltac:(exact Hrun).
  pose proof (columns_of_last w w1 raw [] (proj1 Hg)) as Hcols.
  simpl in Hcols. rewrite Nat.add_0_r in Hcols.
  step ltac:(exact Hcols). fold (missing TRAFFIC_REQUIRED (columns raw)).
  rewrite decide_False by (by rewrite Hmiss; intros ?). eauto.
Qed.
End readers.

Lemma set_objects_id w : set_objects (objects w) w = w.
Proof. by destruct w. Qed.

Lemma len_run w r d :
  objects w !! r = Some d →
  liftH (d ← frame r; ret (length (rows d))) w = (Ok (length (rows d)), w).
Proof.
  intros Hr. erewrite liftH_run.
  2:{ erewrite bind_ok; [|by apply frame_run]. reflexivity. }
  by rewrite set_objects_id.
Qed.

Lemma elem_of_missing c required cols :
  c ∈ missing required cols ↔ c ∈ required ∧ c ∉ cols.
Proof. unfold missing. rewrite list_elem_of_filter. tauto. Qed.

(** C5. When the frame read from a source lacks a required column, its
    reader raises a [ValueError] that lists the required columns the frame
    does not have, these and no others, without a look at the rows; and the
    run raises the error of the first reader that fails, having written no
    file and no table: the files and the database are as before the run,
    and the only new objects are the frames as they were read (and the
    renamed copy of the transport frame), with all their rows. *)
Theorem missing_column_fails_fast (E : Env) {P : Pandas} (w : World)
    (rp rt : DataFrame) :
  let public_csv := path_join (RAW_DIR E) "transport.csv" in
  let traffic_json := path_join (RAW_DIR E) "traffic.json" in
  public_read E public_csv = Ok rp →
  traffic_read E traffic_json = Ok rt →
  missing PUBLIC_REQUIRED (columns rp) ≠ [] ∨
  missing TRAFFIC_REQUIRED (columns rt) ≠ [] →
  (∀ required cols c, c ∈ missing required cols ↔ c ∈ required ∧ c ∉ cols) ∧
  (missing PUBLIC_REQUIRED (columns rp) ≠ [] →
   ∃ w1,
     load_public_transport_csv E public_csv w
     = (Raise (ValueError "Public transport CSV missing required columns"
                          (missing PUBLIC_REQUIRED (columns rp))), w1) ∧
     files w1 = files w ∧ database w1 = database w) ∧
  (missing TRAFFIC_REQUIRED (columns rt) ≠ [] →
   ∃ w1,
     load_traffic_data E traffic_json w
     = (Raise (ValueError "Traffic JSON/API data missing required fields"
                          (missing TRAFFIC_REQUIRED (columns rt))), w1) ∧
     files w1 = files w ∧ database w1 = database w) ∧
  ∃ w',
    run_pipeline E w = (Raise (schema_error rp rt), w') ∧
    files w' = files w ∧ database w' = database w ∧
    Forall (λ d, rows d = rows rp ∨ rows d = rows rt)
           (drop (length (objects w)) (objects w')).
Proof.
  intros public_csv traffic_json Hrp Hrt Hmiss.
  split; [intros required cols c; apply elem_of_missing|]. split; [|split].
  - intros Hm. destruct (load_public_raises E public_csv rp w Hrp Hm)
      as (w1 & Hrun & _ & Hf & Hd & _).
    by exists w1.
  - intros Hm. destruct (load_traffic_raises E traffic_json rt w Hrt Hm)
      as (w1 & Hrun & _ & Hf & Hd & _).
    by exists w1.
  - unfold run_pipeline, schema_error. fold public_csv traffic_json.
    erewrite bind_ok; [|reflexivity].
    destruct (maybe_git_pull_run E (add_log INFO "Starting ETL pipeline" w))
      as (w2 & Hgit & Hg2).
    step ltac:(exact Hgit).
    erewrite bind_ok; [|reflexivity].
    set (w3 := add_log INFO _ w2).
    assert (Hg3 : grown [] w w3).
    { apply (grown_trans [] [] _ (add_log INFO "Starting ETL pipeline" w));
        [apply grown_log|].
      apply (grown_trans [] [] _ w2); [done|apply grown_log]. }
    destruct (decide (missing PUBLIC_REQUIRED (columns rp) = [])) as [Hok|Hbad].
    + destruct Hmiss as [Hm|Hm]; [done|].
      rewrite decide_False by (by intros ?).
      destruct (load_public_returns E public_csv rp w3 Hrp Hok) as (w4 & Hrun4 & Hg4).
      step ltac:(exact Hrun4).
      pose proof (grown_trans _ _ _ _ _ Hg3 Hg4) as Hg4'. simpl in Hg4'.
      destruct Hg3 as (Ho3 & _). rewrite app_nil_r in Ho3.
      erewrite bind_ok.
      2:{ apply len_run. rewrite (proj1 Hg4). rewrite lookup_app_r by lia.
          by replace (S (length (objects w3)) - length (objects w3)) with 1 by lia. }
      cbv beta. erewrite bind_ok; [|reflexivity].
      erewrite bind_ok; [|reflexivity].
      set (w6 := add_log INFO _ (add_log INFO _ w4)).
      assert (Hg6 : grown [rp; df_rename [("timing", "timestamp")] rp] w w6).
      { replace [rp; df_rename [("timing", "timestamp")] rp]
          with (([rp; df_rename [("timing", "timestamp")] rp] ++ []) ++ [])
          by by rewrite !app_nil_r.
        eapply grown_trans; [|apply grown_log].
        eapply grown_trans; [exact Hg4'|apply grown_log]. }
      destruct (load_traffic_raises E traffic_json rt w6 Hrt Hm) as (w7 & Hrun7 & Hg7).
      erewrite bind_raise; [|exact Hrun7].
      pose proof (grown_trans _ _ _ _ _ Hg6 Hg7) as (Ho & Hf & Hd & _).
      exists w7. split; [reflexivity|]. do 2 (split; [done|]).
      rewrite Ho, drop_app_length.
      repeat apply Forall_cons_2; [by left|by left|by right|apply Forall_nil_2].
    + rewrite decide_True by done.
      destruct (load_public_raises E public_csv rp w3 Hrp Hbad) as (w4 & Hrun4 & Hg4).
      erewrite bind_raise; [|exact Hrun4].
      pose proof (grown_trans _ _ _ _ _ Hg3 Hg4) as (Ho & Hf & Hd & _).
      exists w4. split; [reflexivity|]. do 2 (split; [done|]).
      rewrite Ho, drop_app_length.
      repeat apply Forall_cons_2; [by left|apply Forall_nil_2].
Qed.

Lemma missing_column_fails_fast_witness :
  (∀ required cols c, c ∈ missing required cols ↔ c ∈ required ∧ c ∉ cols) ∧
  (missing PUBLIC_REQUIRED (columns raw_public_short) ≠ [] →
   ∃ w1,
     load_public_transport_csv short_env
       (path_join (RAW_DIR short_env) "transport.csv") empty_world
     = (Raise (ValueError "Public transport CSV missing required columns"
                          (missing PUBLIC_REQUIRED (columns raw_public_short))), w1) ∧
     files w1 = files empty_world ∧ database w1 = database empty_world) ∧
  (missing TRAFFIC_REQUIRED (columns raw_traffic) ≠ [] →
   ∃ w1,
     load_traffic_data short_env
       (path_join (RAW_DIR short_env) "traffic.json") empty_world
     = (Raise (ValueError "Traffic JSON/API data missing required fields"
                          (missing TRAFFIC_REQUIRED (columns raw_traffic))), w1) ∧
     files w1 = files empty_world ∧ database w1 = database empty_world) ∧
  ∃ w',
    run_pipeline short_env (P := sample_pandas) empty_world
    = (Raise (schema_error raw_public_short raw_traffic), w') ∧
    files w' = files empty_world ∧ database w' = database empty_world ∧
    Forall (λ d, rows d = rows raw_public_short ∨ rows d = rows raw_traffic)
           (drop (length (objects empty_world)) (objects w')).
Proof.
  apply (missing_column_fails_fast short_env (P := sample_pandas) empty_world
           raw_public_short raw_traffic).
  - reflexivity.
  - reflexivity.
  - left. vm_compute. discriminate.
Defined.

(** The file without [ridership] and [timing]: the error names these two. *)
Example schema_error_sample :
  schema_error raw_public_short raw_traffic
  = ValueError "Public transport CSV missing required columns" ["ridership"; "timing"].
Proof. reflexivity. Qed.

(** ** Runs of the pipeline *)

Lemma uniform_ret {A} (a : A) : uniform (ret a).
Proof. by intros w0 w0' w w' Hs. Qed.

Lemma uniform_raise {A} e : uniform (raise (A := A) e).
Proof. by intros w0 w0' w w' Hs. Qed.

Lemma uniform_of_result {A} (r : result A) : uniform (of_result r).
Proof. by intros w0 w0' w w' Hs. Qed.

Lemma uniform_bind {A B} (m : M World A) (k : A → M World B) :
  uniform m → (∀ a, uniform (k a)) → uniform (bind m k).
Proof.
  intros Hm Hk w0 w0' w w' Hs. unfold bind.
  destruct (Hm _ _ _ _ Hs) as [Hr Hs1].
  destruct (m w) as [[a|e] w1], (m w') as [[a'|e'] w1']; simplify_eq/=; [|done].
  by apply Hk.
Qed.

Lemma uniform_liftH {A} (m : M heap A) : uniform (liftH m).
Proof.
  intros w0 w0' w w' [Ho HFD]. unfold liftH. rewrite Ho.
  destruct (m (objects w')) as [r h]. by split.
Qed.

Lemma uniform_logger lv msg : uniform (logger lv msg).
Proof. by intros w0 w0' w w' Hs. Qed.

Lemma uniform_try_except {A} (m : M World A) (h : exn → M World A) :
  uniform m → (∀ e, uniform (h e)) → uniform (try_except m h).
Proof.
  intros Hm Hh w0 w0' w w' Hs. unfold try_except.
  destruct (Hm _ _ _ _ Hs) as [Hr Hs1].
  destruct (m w) as [[a|e] w1], (m w') as [[a'|e'] w1']; simplify_eq/=; [done|].
  by apply Hh.
Qed.

Lemma uniform_if {A} (b : bool) (m1 m2 : M World A) :
  uniform m1 → uniform m2 → uniform (if b then m1 else m2).
Proof. by destruct b. Qed.

Lemma uniform_decide {A} (Q : Prop) `{!Decision Q} (m1 m2 : M World A) :
  uniform m1 → uniform m2 → uniform (if decide Q then m1 else m2).
Proof. by destruct (decide Q). Qed.

Lemma uniform_to_csv df path : uniform (to_csv df path).
Proof.
  apply uniform_bind; [apply uniform_liftH|].
  intros d w0 w0' w w' (Ho & F & D & HF & HF' & HD & HD'). split; [done|].
  split; [done|]. exists (<[path := table_of d]> F), D. simpl.
  rewrite HF, HF'. by rewrite !insert_union_l.
Qed.

Lemma uniform_load_to_database df name : uniform (load_to_database df name).
Proof.
  apply uniform_bind; [apply uniform_liftH|].
  intros d w0 w0' w w' (Ho & F & D & HF & HF' & HD & HD'). split; [done|].
  split; [done|]. exists F, (<[name := table_of d]> D). simpl.
  rewrite HD, HD'. by rewrite !insert_union_l.
Qed.

Create HintDb uniform.
#[global] Hint Resolve uniform_ret uniform_raise uniform_of_result uniform_liftH
  uniform_logger uniform_to_csv uniform_load_to_database : uniform.

Ltac uniform_steps :=
  repeat lazymatch goal with
  | |- uniform (let _ := _ in _) => cbv zeta
  | |- uniform (bind _ _) => apply uniform_bind; [|intros ?]
  | |- uniform (try_except _ _) => apply uniform_try_except; [|intros ?]
  | |- uniform (if decide _ then _ else _) => apply uniform_decide
  | |- uniform (if _ then _ else _) => apply uniform_if
  | |- uniform _ => solve [auto with uniform]
  end.

Section uniform_pipeline.
Context (E : Env) {P : Pandas}.

Lemma uniform_received r : uniform (received r).
Proof. unfold received. uniform_steps. Qed.

Lemma uniform_load_public path : uniform (load_public_transport_csv E path).
Proof. unfold load_public_transport_csv. uniform_steps; apply uniform_received. Qed.

Lemma uniform_load_traffic path : uniform (load_traffic_data E path).
Proof. unfold load_traffic_data. uniform_steps; apply uniform_received. Qed.

Lemma uniform_create_summary_report df path : uniform (create_summary_report df path).
Proof. unfold create_summary_report. uniform_steps. Qed.

Lemma uniform_maybe_git_pull : uniform (maybe_git_pull E).
Proof. unfold maybe_git_pull. uniform_steps. Qed.

Lemma uniform_run_pipeline : uniform (run_pipeline E).
Proof.
  unfold run_pipeline.
  repeat lazymatch goal with
  | |- uniform (let _ := _ in _) => cbv zeta
  | |- uniform (bind _ _) => apply uniform_bind; [|intros ?]
  | |- uniform _ =>
      first [ solve [auto with uniform]
            | apply uniform_maybe_git_pull
            | apply uniform_load_public
            | apply uniform_load_traffic
            | apply uniform_create_summary_report ]
  end.
Qed.
End uniform_pipeline.

Lemma settles_ret {A} (a : A) : settles ∅ ∅ (ret a).
Proof. intros w. simpl. set_solver. Qed.

Lemma settles_raise {A} Kf Kd e : settles Kf Kd (raise (A := A) e).
Proof. intros w. simpl. set_solver. Qed.

Lemma settles_of_result {A} (r : result A) : settles ∅ ∅ (of_result r).
Proof. intros w. simpl. set_solver. Qed.

Lemma settles_logger lv msg : settles ∅ ∅ (logger lv msg).
Proof. intros w. simpl. set_solver. Qed.

Lemma settles_liftH {A} (m : M heap A) : settles ∅ ∅ (liftH m).
Proof. intros w. unfold liftH. destruct (m (objects w)). simpl. set_solver. Qed.

Lemma settles_bind {A B} Kf1 Kd1 Kf2 Kd2 (m : M World A) (k : A → M World B) :
  settles Kf1 Kd1 m → (∀ a, settles Kf2 Kd2 (k a)) →
  settles (Kf1 ∪ Kf2) (Kd1 ∪ Kd2) (bind m k).
Proof.
  intros Hm Hk w. unfold bind. destruct (Hm w) as (Hf & Hd & Hok).
  destruct (m w) as [[a|e] w1]; simpl in *.
  - destruct (Hk a w1) as (Hf' & Hd' & Hok'). destruct (Hok a eq_refl).
    split; [set_solver|]. split; [set_solver|]. intros b Hb.
    destruct (Hok' b Hb). set_solver.
  - split; [done|]. split; [done|]. by intros a [=].
Qed.

Lemma settles_mono {A} Kf Kd Kf' Kd' (m : M World A) :
  settles Kf Kd m → Kf' ⊆ Kf → Kd' ⊆ Kd → settles Kf' Kd' m.
Proof.
  intros Hm Hf Hd w. destruct (Hm w) as (? & ? & Hok).
  split; [done|]. split; [done|]. intros a Ha. destruct (Hok a Ha). set_solver.
Qed.

Lemma settles_bind_quiet {A B} Kf Kd (m : M World A) (k : A → M World B) :
  settles ∅ ∅ m → (∀ a, settles Kf Kd (k a)) → settles Kf Kd (bind m k).
Proof.
  intros Hm Hk. eapply settles_mono; [by apply settles_bind| |]; set_solver.
Qed.

Lemma settles_to_csv df path : settles {[path]} ∅ (to_csv df path).
Proof.
  apply settles_bind_quiet; [apply settles_liftH|].
  intros d w. simpl. rewrite dom_insert_L. set_solver.
Qed.

Lemma settles_load_to_database df name : settles ∅ {[name]} (load_to_database df name).
Proof.
  apply settles_bind_quiet; [apply settles_liftH|].
  intros d w. simpl. rewrite dom_insert_L. set_solver.
Qed.

Lemma settles_try_except {A} (m : M World A) (h : exn → M World A) :
  settles ∅ ∅ m → (∀ e, settles ∅ ∅ (h e)) → settles ∅ ∅ (try_except m h).
Proof.
  intros Hm Hh w. unfold try_except. destruct (Hm w) as (Hf & Hd & _).
  destruct (m w) as [[a|e] w1]; simpl in *; [set_solver|].
  destruct (Hh e w1) as (Hf' & Hd' & _). set_solver.
Qed.

Lemma settles_if {A} Kf Kd (b : bool) (m1 m2 : M World A) :
  settles Kf Kd m1 → settles Kf Kd m2 → settles Kf Kd (if b then m1 else m2).
Proof. by destruct b. Qed.

Lemma settles_decide {A} Kf Kd (Q : Prop) `{!Decision Q} (m1 m2 : M World A) :
  settles Kf Kd m1 → settles Kf Kd m2 → settles Kf Kd (if decide Q then m1 else m2).
Proof. by destruct (decide Q). Qed.

Create HintDb quiet.
#[global] Hint Resolve settles_ret settles_raise settles_of_result settles_logger
  settles_liftH : quiet.

Ltac quiet_steps :=
  repeat lazymatch goal with
  | |- settles _ _ (let _ := _ in _) => cbv zeta
  | |- settles _ _ (bind _ _) => apply settles_bind_quiet; [|intros ?]
  | |- settles _ _ (try_except _ _) => apply settles_try_except; [|intros ?]
  | |- settles _ _ (if decide _ then _ else _) => apply settles_decide
  | |- settles _ _ (if _ then _ else _) => apply settles_if
  | |- settles _ _ _ => solve [auto with quiet]
  end.

Section settled_pipeline.
Context (E : Env) {P : Pandas}.

Lemma quiet_received r : settles ∅ ∅ (received r).
Proof. unfold received. quiet_steps. Qed.

Lemma quiet_load_public path : settles ∅ ∅ (load_public_transport_csv E path).
Proof. unfold load_public_transport_csv. quiet_steps; apply quiet_received. Qed.

Lemma quiet_load_traffic path : settles ∅ ∅ (load_traffic_data E path).
Proof. unfold load_traffic_data. quiet_steps; apply quiet_received. Qed.

Lemma quiet_maybe_git_pull : settles ∅ ∅ (maybe_git_pull E).
Proof. unfold maybe_git_pull. quiet_steps. Qed.

Lemma settles_create_summary_report df path :
  settles {[path]} ∅ (create_summary_report df path).
Proof.
  unfold create_summary_report.
  apply settles_bind_quiet; [apply settles_liftH|intros g].
  apply settles_bind_quiet; [apply settles_liftH|intros s].
  apply settles_to_csv.
Qed.

Lemma settles_run_pipeline :
  settles {[processed_csv E; summary_csv E]} {["transport_traffic"]} (run_pipeline E).
Proof.
  unfold run_pipeline. fold (processed_csv E) (summary_csv E).
  repeat lazymatch goal with
  | |- settles _ _ (bind (to_csv _ _) _) => fail
  | |- settles _ _ (bind _ _) =>
      apply settles_bind_quiet;
        [first [ solve [auto with quiet] | apply quiet_maybe_git_pull
               | apply quiet_load_public | apply quiet_load_traffic ]
        |intros ?]
  end.
  eapply settles_mono; [|shelve..].
  { apply settles_bind; [apply settles_to_csv|intros _].
    apply settles_bind_quiet; [apply settles_logger|intros _].
    apply settles_bind; [apply settles_load_to_database|intros _].
    apply settles_bind_quiet; [apply settles_logger|intros _].
    apply settles_bind_quiet; [apply settles_logger|intros _].
    apply settles_bind; [apply settles_create_summary_report|intros _].
    apply settles_bind_quiet; [apply settles_logger|intros _].
    apply settles_logger. }
  Unshelve. all: set_solver.
Qed.
End settled_pipeline.


(** The sample run with the traffic file that names the city returns, and
    these are the rows of its report. *)
Example pipeline_run_sample :
  let run := pipeline_run (sample_env raw_traffic_city) (P := sample_pandas) empty_world in
  run.1 = Ok tt ∧
  files run.2 !! summary_csv (sample_env raw_traffic_city)
  = Some (mkTable ["route_id"; "city_public"; "bus_stop"; "avg_ridership";
                   "avg_congestion_index"]
                  [[CStr "R1"; CStr "Pune"; CStr "S1"; CNum 110; CNum (7 # 10)]]).
Proof. by vm_compute. Qed.

(** ** The report on the declared columns *)

(** C2, on the code. The two files of the scenario carry the declared
    columns, and both readers accept them.  [city] is a column of the
    transport file only, so the merge leaves its label alone: the unified
    table is written, to the file and to the database, with the one row of
    the scenario, a [city] column and no [city_public] column; then
    [create_summary_report] raises [KeyError] on its group key
    [city_public], and no report is written. *)
Theorem summary_report_fails_on_declared_columns :
  let E := scenario_env in
  let run := pipeline_run E (P := sample_pandas) empty_world in
  columns scenario_public = PUBLIC_REQUIRED ∧
  columns scenario_traffic = TRAFFIC_REQUIRED ∧
  run.1 = Raise (KeyError "city_public") ∧
  files run.2 !! processed_csv E
  = Some (mkTable
            ["route_id"; "city"; "bus_stop"; "ridership"; "timestamp_public";
             "event_hour"; "avg_speed"; "congestion_index"; "timestamp_traffic"]
            [[CStr "R1"; CStr "Pune"; CStr "S1"; CNum 120;
              CTime 1735719000000000000; CTime 1735718400000000000;
              CNum (37 # 2); CNum (7 # 10); CTime 1735721100000000000]]) ∧
  database run.2 !! "transport_traffic" = files run.2 !! processed_csv E ∧
  files run.2 !! summary_csv E = None.
Proof. by vm_compute. Qed.

(** ** Notification *)

(** With a port that [int] accepts, the function returns when a required
    setting is missing, without a mail, and it returns when the message can
    be built, whatever the session with the server does. *)
Lemma send_failure_email_returns (E : Env) subject body w port :
  py_int (getenv_or E "SMTP_PORT" "587") = Ok port →
  (truthy (getenv E "SMTP_HOST") && truthy (getenv E "SMTP_USER")
   && truthy (getenv E "SMTP_PASS") && truthy (getenv E "ALERT_EMAIL_TO")
   && bool_decide (getenv_or E "ALERT_EMAIL_FROM" (default "" (getenv E "SMTP_USER")) ≠ "")
   = false →
   send_failure_email E subject body w
   = (Ok tt, add_log INFO "Email not sent; SMTP or recipient env vars missing" w)) ∧
  (∀ msg,
     compose E subject (getenv_or E "ALERT_EMAIL_FROM" (default "" (getenv E "SMTP_USER")))
             (default "" (getenv E "ALERT_EMAIL_TO")) body = Ok msg →
     ∃ w', send_failure_email E subject body w = (Ok tt, w') ∧
           files w' = files w ∧ database w' = database w).
Proof.
  intros Hport. unfold send_failure_email. rewrite Hport.
  erewrite bind_ok; [|reflexivity]. cbv beta. split.
  - intros ->. reflexivity.
  - intros msg Hmsg. destruct (negb _).
    + eexists. split; [reflexivity|]. by split.
    + rewrite Hmsg. erewrite bind_ok; [|reflexivity]. cbv beta.
      unfold try_except, bind, of_result.
      destruct (smtp_session E _ _ _ _ _) as [[]|e]; simpl;
        eexists; (split; [reflexivity|]); by split.
Qed.

(** C9, on the code. With [SMTP_PORT] set to a text that [int] rejects and
    every required setting absent, [send_failure_email] raises the
    [ValueError] of [int]: the conversion stands before the test of the
    settings and outside the [try].  In the [__main__] block the error of
    the run is then replaced by this one. *)
Theorem send_failure_email_raises_on_bad_port :
  (∀ subject body w,
     send_failure_email bad_port_env subject body w
     = (Raise (ValueError "invalid literal for int() with base 10" ["abc"]), w)) ∧
  getenv bad_port_env "SMTP_HOST" = None ∧
  (run_pipeline bad_port_env (P := sample_pandas) empty_world).1
  = Raise (KeyError "city_public") ∧
  (main bad_port_env (P := sample_pandas) empty_world).1
  = Raise (ValueError "invalid literal for int() with base 10" ["abc"]).
Proof.
  split; [|by vm_compute]. intros subject body w. reflexivity.
Qed.

(* ================================================================== *)
(** * Further properties of the pipeline *)
(* ================================================================== *)

(** ** The notification, case by case *)

(** The notification with a port that [int] accepts, case by case. *)
Lemma send_failure_email_run (E : Env) subject body w port :
  py_int (getenv_or E "SMTP_PORT" "587") = Ok port →
  (mail_configured E = false →
   send_failure_email E subject body w
   = (Ok tt, add_log INFO "Email not sent; SMTP or recipient env vars missing" w)) ∧
  (∀ msg,
     mail_configured E = true →
     compose E subject (sender E) (default "" (getenv E "ALERT_EMAIL_TO")) body = Ok msg →
     send_failure_email E subject body w
     = match smtp_session E (default "" (getenv E "SMTP_HOST")) port
                          (default "" (getenv E "SMTP_USER"))
                          (default "" (getenv E "SMTP_PASS")) msg with
       | Ok _ => (Ok tt, add_log INFO "Failure email sent" (add_mail msg w))
       | Raise e => (Ok tt, add_log WARNING ("Failed to send email: " +:+ show_exn e) w)
       end).
Proof.
  intros Hport.
  unfold send_failure_email, mail_configured, sender. rewrite Hport.
  erewrite bind_ok; [|reflexivity]. cbv beta. split.
  - intros ->. reflexivity.
  - intros msg -> Hmsg. rewrite Hmsg. change (negb true) with false. cbv iota.
    unfold try_except, bind, of_result.
    by destruct (smtp_session E _ _ _ _ _) as [[]|e].
Qed.

(** X2. [send_failure_email] with a port that [int] accepts never raises
    once the message is built.  If a required setting is missing or empty
    it sends nothing and logs one line; the port is 587 when [SMTP_PORT] is
    not set.  Otherwise one session is opened with the configured host,
    port, user and password: if the server accepts, exactly this one
    message is sent; if the session fails, the error is swallowed, a
    warning is logged and nothing is sent. *)
Theorem send_failure_email_outcomes (E : Env) subject body w port :
  py_int (getenv_or E "SMTP_PORT" "587") = Ok port →
  (getenv E "SMTP_PORT" = None → port = 587%Z) ∧
  (mail_configured E = false →
   send_failure_email E subject body w
   = (Ok tt, add_log INFO "Email not sent; SMTP or recipient env vars missing" w)) ∧
  (∀ msg,
     mail_configured E = true →
     compose E subject (sender E) (default "" (getenv E "ALERT_EMAIL_TO")) body = Ok msg →
     send_failure_email E subject body w
     = match smtp_session E (default "" (getenv E "SMTP_HOST")) port
                          (default "" (getenv E "SMTP_USER"))
                          (default "" (getenv E "SMTP_PASS")) msg with
       | Ok _ => (Ok tt, add_log INFO "Failure email sent" (add_mail msg w))
       | Raise e => (Ok tt, add_log WARNING ("Failed to send email: " +:+ show_exn e) w)
       end).
Proof.
  intros Hport. split; [|by apply send_failure_email_run].
  intros Hnone. unfold getenv_or in Hport. rewrite Hnone in Hport.
  vm_compute in Hport. congruence.
Qed.

Lemma send_failure_email_outcomes_witness :
  py_int (getenv_or mail_env "SMTP_PORT" "587") = Ok 587%Z ∧
  mail_configured mail_env = true ∧
  send_failure_email mail_env "s" "b" empty_world
  = (Ok tt, add_log WARNING "Failed to send email: connection refused" empty_world).
Proof.
  split; [reflexivity|]. split; [reflexivity|].
  pose proof (send_failure_email_outcomes mail_env "s" "b" empty_world 587%Z eq_refl)
    as (_ & _ & H).
  exact (H (mkEmail "s" "etl@example.org" "ops@example.org" "b") eq_refl eq_refl).
Defined.

(** X3. The [__main__] block: when the run fails with [e], the port is one
    that [int] accepts and the message can be built whenever the mail is
    configured, the block logs the failure, sends at most one mail and
    raises [e] again; files, database and objects are as the run left
    them.  Without the mail settings nothing is sent. *)
Theorem main_reraises (E : Env) {P : Pandas} (w w1 : World) (e : exn) (port : Z) :
  run_pipeline E w = (Raise e, w1) →
  py_int (getenv_or E "SMTP_PORT" "587") = Ok port →
  (mail_configured E = true →
   ∀ body, ∃ msg, compose E "ETL Pipeline Failure" (sender E)
                    (default "" (getenv E "ALERT_EMAIL_TO")) body = Ok msg) →
  ∃ w2, main E w = (Raise e, w2) ∧
    files w2 = files w1 ∧ database w2 = database w1 ∧ objects w2 = objects w1 ∧
    (∃ l, log w2 = log w1 ++ [(ERROR, "ETL pipeline failed"); l]) ∧
    (outbox w2 = outbox w1 ∨ ∃ msg, outbox w2 = outbox w1 ++ [msg]) ∧
    (mail_configured E = false → outbox w2 = outbox w1).
Proof.
  intros Hrun Hport Hmsg. unfold main, try_except. rewrite Hrun.
  erewrite bind_ok; [|reflexivity]. erewrite bind_ok; [|reflexivity]. cbv beta zeta.
  match goal with |- context [send_failure_email E ?s ?b] =>
    destruct (send_failure_email_run E s b (add_log ERROR "ETL pipeline failed" w1)
                port Hport) as (Hoff & Hon); set (body := b) in * end.
  destruct (mail_configured E) eqn:Hconf.
  - destruct (Hmsg eq_refl body) as [msg Hc]. specialize (Hon msg eq_refl Hc).
    destruct (smtp_session E _ _ _ _ _) as [[]|e'];
      (erewrite bind_ok; [|exact Hon]); (eexists; split; [reflexivity|]); simpl;
      rewrite <- app_assoc; repeat split; eauto; discriminate.
  - erewrite bind_ok; [|exact (Hoff eq_refl)]. eexists. split; [reflexivity|]. simpl.
    rewrite <- app_assoc. repeat split; eauto.
Qed.

Lemma main_reraises_witness :
  ∃ w2, main mail_env (P := sample_pandas) empty_world
        = (Raise (KeyError "city_public"), w2) ∧
        files w2 = files (run_pipeline mail_env (P := sample_pandas) empty_world).2.
Proof.
  destruct (main_reraises mail_env (P := sample_pandas) empty_world
              (run_pipeline mail_env (P := sample_pandas) empty_world).2
              (KeyError "city_public") 587%Z)
    as (w2 & Hmain & Hf & _).
  - by vm_compute.
  - reflexivity.
  - intros _ body. eexists. reflexivity.
  - exists w2. split; [exact Hmain|exact Hf].
Defined.

(** ** The tail of the log *)

Lemma string_of_list_ascii_app l1 l2 :
  String.string_of_list_ascii (l1 ++ l2)
  = String.string_of_list_ascii l1 +:+ String.string_of_list_ascii l2.
Proof. induction l1 as [|a l1 IH]; simpl; [done|by rewrite IH]. Qed.

Lemma length_string_of_list_ascii l :
  String.length (String.string_of_list_ascii l) = length l.
Proof. induction l as [|a l IH]; simpl; [done|by rewrite IH]. Qed.

Lemma length_list_ascii_of_string s :
  length (String.list_ascii_of_string s) = String.length s.
Proof. induction s as [|a s IH]; simpl; [done|by rewrite IH]. Qed.

Lemma str_tail_suffix (n : nat) (s : string) :
  ∃ pre, s = pre +:+ str_tail n s ∧
         String.length (str_tail n s) = n `min` String.length s.
Proof.
  unfold str_tail.
  exists (String.string_of_list_ascii
            (take (length (String.list_ascii_of_string s) - n)
                  (String.list_ascii_of_string s))).
  split.
  - by rewrite <- string_of_list_ascii_app, take_drop,
      String.string_of_list_ascii_of_string.
  - rewrite length_string_of_list_ascii, length_drop, length_list_ascii_of_string. lia.
Qed.

(** X4. The failure mail.  When the run fails with [e], the mail is
    configured, the message is built from its four parts as given and the
    server accepts the session, the [__main__] block sends exactly one
    mail and raises [e] again.  The mail has the subject
    [ETL Pipeline Failure], the configured sender and recipient, and a
    body that names the error and ends with the tail of the log.  When
    the log file can be read back, the tail is the end of its text: the
    last 10000 characters, or the whole text when it is shorter.  When it
    cannot, the tail is the text of the error [e]. *)
Theorem main_failure_mail (E : Env) {P : Pandas} (w w1 : World) (e : exn) (port : Z) :
  run_pipeline E w = (Raise e, w1) →
  py_int (getenv_or E "SMTP_PORT" "587") = Ok port →
  mail_configured E = true →
  (∀ subject from to body, compose E subject from to body
                           = Ok (mkEmail subject from to body)) →
  (∀ msg, smtp_session E (default "" (getenv E "SMTP_HOST")) port
            (default "" (getenv E "SMTP_USER")) (default "" (getenv E "SMTP_PASS")) msg
          = Ok tt) →
  ∃ w2 tail,
    main E w = (Raise e, w2) ∧
    outbox w2
    = outbox w1 ++
      [mkEmail "ETL Pipeline Failure" (sender E) (default "" (getenv E "ALERT_EMAIL_TO"))
         ("An error occurred during ETL." +:+ NL +:+ NL +:+ "Error: " +:+ show_exn e
          +:+ NL +:+ NL +:+ "Last log tail:" +:+ NL +:+ tail)] ∧
    (∀ text, read_log E (log w1 ++ [(ERROR, "ETL pipeline failed")]) = Ok text →
       ∃ pre, text = pre +:+ tail ∧
              String.length tail = Z.to_nat 10000 `min` String.length text) ∧
    (∀ e', read_log E (log w1 ++ [(ERROR, "ETL pipeline failed")]) = Raise e' →
       tail = show_exn e).
Proof.
  intros Hrun Hport Hconf Hcompose Hsession. unfold main, try_except. rewrite Hrun.
  erewrite bind_ok; [|reflexivity]. erewrite bind_ok; [|reflexivity]. cbv beta zeta.
  match goal with |- context [send_failure_email E ?s ?b] =>
    destruct (send_failure_email_run E s b (add_log ERROR "ETL pipeline failed" w1)
                port Hport) as (_ & Hon);
    specialize (Hon _ Hconf (Hcompose _ _ _ _)) end.
  rewrite Hsession in Hon. erewrite bind_ok; [|exact Hon].
  cbn [log add_log].
  eexists _, _. split; [reflexivity|]. split; [reflexivity|]. split.
  - intros text ->. apply str_tail_suffix.
  - by intros e' ->.
Qed.

Lemma main_failure_mail_witness :
  ∃ w2 tail,
    main relay_env (P := sample_pandas) empty_world = (Raise (KeyError "city_public"), w2) ∧
    outbox w2
    = [mkEmail "ETL Pipeline Failure" "etl@example.org" "ops@example.org"
         ("An error occurred during ETL." +:+ NL +:+ NL +:+ "Error: 'city_public'"
          +:+ NL +:+ NL +:+ "Last log tail:" +:+ NL +:+ tail)] ∧
    String.length tail
    = Z.to_nat 10000
      `min` String.length
              (log_text (log (run_pipeline relay_env (P := sample_pandas) empty_world).2
                         ++ [(ERROR, "ETL pipeline failed")])).
Proof.
  destruct (main_failure_mail relay_env (P := sample_pandas) empty_world
              (run_pipeline relay_env (P := sample_pandas) empty_world).2
              (KeyError "city_public") 587%Z)
    as (w2 & tail & Hmain & Hout & Htext & _).
  - by vm_compute.
  - reflexivity.
  - reflexivity.
  - reflexivity.
  - reflexivity.
  - exists w2, tail. split; [exact Hmain|]. split; [exact Hout|].
    destruct (Htext _ eq_refl) as (pre & _ & Hlen). exact Hlen.
Defined.

(** ** The readers on a complete frame, and on a source that fails *)

Lemma missing_nil required cols :
  missing required cols = [] ↔ ∀ c, c ∈ required → c ∈ cols.
Proof.
  split.
  - intros Hm c Hc. destruct (decide (c ∈ cols)) as [|Hn]; [done|].
    assert (Hin : c ∈ missing required cols) by (apply elem_of_missing; split; assumption).
    rewrite Hm in Hin. by apply elem_of_nil in Hin.
  - intros Hall. destruct (missing required cols) as [|c l] eqn:Hm; [done|].
    assert (Hc : c ∈ missing required cols) by (rewrite Hm; apply list_elem_of_here).
    apply elem_of_missing in Hc as [Hc Hn]. destruct Hn. by apply Hall.
Qed.

(** X5. On a transport frame with all five required columns the reader
    returns a new frame with the rows as read and the column [timing]
    relabelled [timestamp], every other label (extra columns included) and
    the column order kept; the objects that existed stay as they were and
    nothing is written. *)
Theorem load_public_transport_csv_renames (E : Env) (path : string)
    (raw : DataFrame) (w : World) :
  public_read E path = Ok raw →
  (∀ c, c ∈ PUBLIC_REQUIRED → c ∈ columns raw) →
  ∃ r w' out,
    load_public_transport_csv E path w = (Ok r, w') ∧
    objects w' !! r = Some out ∧
    rows out = rows raw ∧
    columns out = (λ c, if decide (c = "timing") then "timestamp" else c) <$> columns raw ∧
    "timestamp" ∈ columns out ∧ ("timing" ∉ columns out) ∧
    (∀ r0 d0, objects w !! r0 = Some d0 → objects w' !! r0 = Some d0) ∧
    files w' = files w ∧ database w' = database w ∧ outbox w' = outbox w.
Proof.
  intros Hread Hreq.
  destruct (load_public_returns E path raw w Hread (proj2 (missing_nil _ _) Hreq))
    as (w' & Hrun & Ho & Hf & Hd & Hm).
  exists (S (length (objects w))), w', (df_rename [("timing", "timestamp")] raw).
  split; [exact Hrun|].
  assert (Hcols : columns (df_rename [("timing", "timestamp")] raw)
                  = (λ c, if decide (c = "timing") then "timestamp" else c)
                      <$> columns raw).
  { simpl. apply list_fmap_ext. intros _ c _. simpl.
    by destruct (decide ("timing" = c)), (decide (c = "timing")). }
  split; [|split; [done|split; [done|split; [|split; [|split; [|done]]]]]].
  - rewrite Ho. rewrite lookup_app_r by lia.
    by replace (S (length (objects w)) - length (objects w)) with 1 by lia.
  - rewrite Hcols. apply list_elem_of_fmap. exists "timing". split; [done|].
    apply Hreq. by apply (bool_decide_unpack _).
  - rewrite Hcols. intros (c & Hc & _)%list_elem_of_fmap. by case_decide.
  - intros r0 d0 Hr0. rewrite Ho. by apply lookup_app_l_Some.
Qed.

Lemma load_public_transport_csv_renames_witness :
  ∃ r w' out,
    load_public_transport_csv (sample_env raw_traffic) "transport.csv" empty_world
    = (Ok r, w') ∧
    objects w' !! r = Some out ∧
    rows out = rows raw_public ∧
    columns out = (λ c, if decide (c = "timing") then "timestamp" else c)
                    <$> columns raw_public ∧
    "timestamp" ∈ columns out ∧ ("timing" ∉ columns out) ∧
    (∀ r0 d0, objects empty_world !! r0 = Some d0 → objects w' !! r0 = Some d0) ∧
    files w' = files empty_world ∧ database w' = database empty_world ∧
    outbox w' = outbox empty_world.
Proof.
  apply (load_public_transport_csv_renames (sample_env raw_traffic) "transport.csv"
           raw_public empty_world).
  - reflexivity.
  - apply Forall_forall. apply (bool_decide_unpack _). vm_compute. exact I.
Defined.

(** X6. The traffic reader accepts a frame exactly when it has the four
    fields [route_id], [avg_speed], [congestion_index] and [timestamp];
    the frame it returns is the frame as read, unchanged, whatever other
    fields it has. *)
Theorem load_traffic_data_accepts_iff (E : Env) (path : string)
    (raw : DataFrame) (w : World) :
  traffic_read E path = Ok raw →
  ((∀ c, c ∈ TRAFFIC_REQUIRED → c ∈ columns raw)
   ↔ ∃ r w', load_traffic_data E path w = (Ok r, w')) ∧
  (∀ r w', load_traffic_data E path w = (Ok r, w') →
           objects w' !! r = Some raw ∧ r = length (objects w) ∧
           files w' = files w ∧ database w' = database w).
Proof.
  intros Hread.
  destruct (decide (missing TRAFFIC_REQUIRED (columns raw) = [])) as [Hok|Hbad].
  - destruct (load_traffic_returns E path raw w Hread Hok) as (w1 & Hrun & Ho & Hf & Hd & _).
    split.
    + split; [eauto|]. intros _. by apply missing_nil.
    + intros r w' Hrun'. rewrite Hrun in Hrun'. injection Hrun' as <- <-.
      rewrite Ho. by rewrite lookup_last.
  - destruct (load_traffic_raises E path raw w Hread Hbad) as (w1 & Hrun & _).
    split.
    + split; [by intros ?%missing_nil|]. intros (r & w' & Hrun').
      rewrite Hrun in Hrun'. discriminate.
    + intros r w' Hrun'. rewrite Hrun in Hrun'. discriminate.
Qed.

Lemma load_traffic_data_accepts_iff_witness :
  ((∀ c, c ∈ TRAFFIC_REQUIRED → c ∈ columns raw_traffic_city)
   ↔ ∃ r w', load_traffic_data (sample_env raw_traffic_city) "traffic.json" empty_world
             = (Ok r, w')) ∧
  (∀ r w', load_traffic_data (sample_env raw_traffic_city) "traffic.json" empty_world
           = (Ok r, w') →
           objects w' !! r = Some raw_traffic_city ∧ r = length (objects empty_world) ∧
           files w' = files empty_world ∧ database w' = database empty_world).
Proof.
  apply (load_traffic_data_accepts_iff (sample_env raw_traffic_city) "traffic.json"
           raw_traffic_city empty_world).
  reflexivity.
Defined.

Lemma load_public_unavailable (E : Env) path e w :
  public_read E path = Raise e →
  ∃ w', load_public_transport_csv E path w = (Raise e, w') ∧ grown [] w w'.
Proof.
  unfold public_read, load_public_transport_csv. intros Hread.
  destruct (truthy (getenv E "TRANSPORT_CSV_URL")).
  - erewrite bind_raise.
    2:{ erewrite bind_ok; [|reflexivity]. unfold received. rewrite Hread.
        by erewrite bind_raise. }
    eexists. split; [reflexivity|]. apply grown_log.
  - erewrite bind_raise.
    2:{ unfold received. rewrite Hread. by erewrite bind_raise. }
    eexists. split; [reflexivity|]. apply grown_refl.
Qed.

Lemma load_traffic_unavailable (E : Env) path e w :
  traffic_read E path = Raise e →
  ∃ w', load_traffic_data E path w = (Raise e, w') ∧ grown [] w w'.
Proof.
  unfold traffic_read, load_traffic_data. intros Hread.
  erewrite bind_raise.
  2:{ destruct (truthy (getenv E "TRAFFIC_API_URL")); unfold received; rewrite Hread;
        by erewrite bind_raise. }
  eexists. split; [reflexivity|]. apply grown_refl.
Qed.

(** The run up to the first reader: only the log has changed. *)
Lemma run_pipeline_start (E : Env) {P : Pandas} (w : World) :
  ∃ w3, grown [] w w3 ∧
    run_pipeline E w
    = (pub_df ← load_public_transport_csv E (path_join (RAW_DIR E) "transport.csv");
       n ← liftH (d ← frame pub_df; ret (length (rows d)));
       logger INFO ("Loaded " +:+ pretty n +:+ " public transport records");;
       logger INFO ("Loading traffic sensor data from "
                    +:+ path_join (RAW_DIR E) "traffic.json"
                    +:+ " or TRAFFIC_API_URL");;
       traf_df ← load_traffic_data E (path_join (RAW_DIR E) "traffic.json");
       n ← liftH (d ← frame traf_df; ret (length (rows d)));
       logger INFO ("Loaded " +:+ pretty n +:+ " traffic sensor records");;
       logger INFO "Validating and cleaning datasets";;
       pub_df ← liftH (validate_and_clean pub_df "timestamp");
       traf_df ← liftH (validate_and_clean traf_df "timestamp");
       logger INFO "Building unified table";;
       unified_df ← liftH (build_unified_table pub_df traf_df);
       n ← liftH (d ← frame unified_df; ret (length (rows d)));
       logger INFO ("Unified table has " +:+ pretty n +:+ " rows");;
       logger INFO "Saving cleaned unified dataset to CSV";;
       to_csv unified_df (processed_csv E);;
       logger INFO "Loading unified dataset into relational database";;
       load_to_database unified_df "transport_traffic";;
       logger INFO ("Data loaded into database at " +:+ DB_URL E);;
       logger INFO "Creating summary report (avg ridership & congestion per route)";;
       create_summary_report unified_df (summary_csv E);;
       logger INFO ("Summary report written to " +:+ summary_csv E);;
       logger INFO "ETL pipeline completed successfully") w3.
Proof.
  unfold run_pipeline. fold (processed_csv E) (summary_csv E).
  erewrite bind_ok; [|reflexivity].
  destruct (maybe_git_pull_run E (add_log INFO "Starting ETL pipeline" w))
    as (w2 & Hgit & Hg2).
  step ltac:(exact Hgit).
  erewrite bind_ok; [|reflexivity].
  eexists. split; [|reflexivity].
  apply (grown_trans [] [] _ (add_log INFO "Starting ETL pipeline" w));
    [apply grown_log|].
  apply (grown_trans [] [] _ w2); [done|apply grown_log].
Qed.

(** The run after a transport frame with the required columns was read:
    the frame and its relabelled copy are objects [n] and [n + 1]. *)
Lemma run_pipeline_public (E : Env) {P : Pandas} (w : World) (rp : DataFrame) :
  public_read E (path_join (RAW_DIR E) "transport.csv") = Ok rp →
  missing PUBLIC_REQUIRED (columns rp) = [] →
  ∃ w6, grown [rp; df_rename [("timing", "timestamp")] rp] w w6 ∧
    run_pipeline E w
    = (traf_df ← load_traffic_data E (path_join (RAW_DIR E) "traffic.json");
       n ← liftH (d ← frame traf_df; ret (length (rows d)));
       logger INFO ("Loaded " +:+ pretty n +:+ " traffic sensor records");;
       logger INFO "Validating and cleaning datasets";;
       pub_df ← liftH (validate_and_clean (S (length (objects w))) "timestamp");
       traf_df ← liftH (validate_and_clean traf_df "timestamp");
       logger INFO "Building unified table";;
       unified_df ← liftH (build_unified_table pub_df traf_df);
       n ← liftH (d ← frame unified_df; ret (length (rows d)));
       logger INFO ("Unified table has " +:+ pretty n +:+ " rows");;
       logger INFO "Saving cleaned unified dataset to CSV";;
       to_csv unified_df (processed_csv E);;
       logger INFO "Loading unified dataset into relational database";;
       load_to_database unified_df "transport_traffic";;
       logger INFO ("Data loaded into database at " +:+ DB_URL E);;
       logger INFO "Creating summary report (avg ridership & congestion per route)";;
       create_summary_report unified_df (summary_csv E);;
       logger INFO ("Summary report written to " +:+ summary_csv E);;
       logger INFO "ETL pipeline completed successfully") w6.
Proof.
  intros Hrp Hok. destruct (run_pipeline_start E w) as (w3 & Hg3 & ->).
  destruct (load_public_returns E _ rp w3 Hrp Hok) as (w4 & Hrun4 & Hg4).
  step ltac:(exact Hrun4).
  pose proof (grown_trans _ _ _ _ _ Hg3 Hg4) as Hg4'. simpl in Hg4'.
  destruct Hg3 as (Ho3 & _). rewrite app_nil_r in Ho3.
  erewrite bind_ok.
  2:{ apply len_run. rewrite (proj1 Hg4). rewrite lookup_app_r by lia.
      by replace (S (length (objects w3)) - length (objects w3)) with 1 by lia. }
  cbv beta. erewrite bind_ok; [|reflexivity].
  erewrite bind_ok; [|reflexivity]. rewrite Ho3.
  eexists. split; [|reflexivity].
  replace [rp; df_rename [("timing", "timestamp")] rp]
    with (([rp; df_rename [("timing", "timestamp")] rp] ++ []) ++ [])
    by by rewrite !app_nil_r.
  eapply grown_trans; [|apply grown_log].
  eapply grown_trans; [exact Hg4'|apply grown_log].
Qed.

(** X7. A source that cannot be read is fatal, and it is so before
    anything is written: when the read of the transport data raises [e],
    or when the transport frame is complete and the read of the traffic
    data raises [e], the run raises [e] and files and database are as
    before the run. *)
Theorem unreadable_source_is_fatal (E : Env) {P : Pandas} (w : World) (e : exn) :
  public_read E (path_join (RAW_DIR E) "transport.csv") = Raise e ∨
  (∃ rp, public_read E (path_join (RAW_DIR E) "transport.csv") = Ok rp ∧
         (∀ c, c ∈ PUBLIC_REQUIRED → c ∈ columns rp) ∧
         traffic_read E (path_join (RAW_DIR E) "traffic.json") = Raise e) →
  ∃ w', run_pipeline E w = (Raise e, w') ∧
        files w' = files w ∧ database w' = database w ∧ outbox w' = outbox w.
Proof.
  intros [Hp|(rp & Hp & Hreq & Ht)].
  - destruct (run_pipeline_start E w) as (w3 & Hg3 & ->).
    destruct (load_public_unavailable E _ e w3 Hp) as (w4 & Hrun & Hg4).
    erewrite bind_raise; [|exact Hrun].
    destruct (grown_trans _ _ _ _ _ Hg3 Hg4) as (_ & ? & ? & ?). eauto.
  - destruct (run_pipeline_public E w rp Hp (proj2 (missing_nil _ _) Hreq))
      as (w6 & Hg6 & ->).
    destruct (load_traffic_unavailable E _ e w6 Ht) as (w7 & Hrun & Hg7).
    erewrite bind_raise; [|exact Hrun].
    destruct (grown_trans _ _ _ _ _ Hg6 Hg7) as (_ & ? & ? & ?). eauto.
Qed.

Lemma unreadable_source_is_fatal_witness :
  ∃ w', run_pipeline offline_env (P := sample_pandas) empty_world
        = (Raise (SourceError "No such file or directory"), w') ∧
        files w' = files empty_world ∧ database w' = database empty_world ∧
        outbox w' = outbox empty_world.
Proof.
  apply (unreadable_source_is_fatal offline_env (P := sample_pandas) empty_world).
  left. reflexivity.
Defined.

(** ** The cleaner, exactly *)

Lemma filter_fmap_with {A B} (g : A → B) (Q : B → Prop) (Q' : A → Prop)
    `{!∀ y, Decision (Q y)} `{!∀ x, Decision (Q' x)} (l : list A) :
  (∀ x, x ∈ l → Q (g x) ↔ Q' x) → filter Q (g <$> l) = g <$> filter Q' l.
Proof.
  induction l as [|x l IH]; intros HQ; [done|].
  rewrite fmap_cons, !filter_cons.
  rewrite IH by (intros y Hy; apply HQ; by apply list_elem_of_further).
  pose proof (HQ x (list_elem_of_here _ _)) as Hx.
  destruct (decide (Q (g x))), (decide (Q' x)); tauto || done.
Qed.

Lemma Forall2_Forall_outs {A B} (R : A → B → Prop) (Q : A → Prop) l k :
  Forall2 R l k → (∀ x y, R x y → Q x) → Forall Q l.
Proof. induction 1; intros HQ; constructor; eauto. Qed.

Lemma filter_all {A} (Q : A → Prop) `{!∀ x, Decision (Q x)} (l : list A) :
  Forall Q l → filter Q l = l.
Proof.
  induction 1 as [|x l Hx _ IH]; [done|].
  by rewrite filter_cons, decide_True, IH.
Qed.

Lemma foldl_drop_missing js rs :
  foldl (λ acc j, drop_missing j acc) rs js
  = filter (λ r, Forall (λ j, isna (cell_at j r) = false) js) rs.
Proof.
  revert rs. induction js as [|j js IH]; intros rs; simpl.
  - symmetry. apply filter_all, Forall_true. intros r. constructor.
  - rewrite IH. unfold drop_missing. rewrite list_filter_filter.
    apply list_filter_iff. intros r. rewrite Forall_cons. tauto.
Qed.

Lemma set_cell_same j r : set_cell j (cell_at j r) r = r.
Proof.
  unfold set_cell, cell_at. destruct r as [l cs]. simpl. f_equal.
  destruct (cs !! j) as [c|] eqn:Hc; simpl.
  - by apply list_insert_id.
  - apply list_insert_ge. by apply lookup_ge_None.
Qed.

Lemma cell_at_set_cell_lt j v r : j < length (cells r) → cell_at j (set_cell j v r) = v.
Proof. intros Hlt. unfold cell_at, set_cell. simpl. by rewrite list_lookup_insert_eq. Qed.

Section exact.
Context {P : Pandas}.

Lemma foldl_coerce_column js rs :
  foldl (λ acc j, coerce_column j acc) rs js
  = (λ r, foldl (λ a j, set_cell j (to_numeric (cell_at j a)) a) r js) <$> rs.
Proof.
  revert rs. induction js as [|j js IH]; intros rs; simpl.
  - by rewrite list_fmap_id.
  - by rewrite coerce_column_fmap, IH, <- list_fmap_compose.
Qed.

Lemma coerce_cells js : ∀ r,
  NoDup js → (∀ j, j ∈ js → j < length (cells r)) →
  let o := foldl (λ a j, set_cell j (to_numeric (cell_at j a)) a) r js in
  label o = label r ∧ length (cells o) = length (cells r) ∧
  (∀ j, j ∈ js → cell_at j o = to_numeric (cell_at j r)) ∧
  (∀ j, j ∉ js → cell_at j o = cell_at j r).
Proof.
  induction js as [|j js IH]; intros r Hnd Hlt; simpl.
  { repeat split; try done. by intros j ?%elem_of_nil. }
  apply NoDup_cons in Hnd as [Hj Hnd].
  set (r1 := set_cell j (to_numeric (cell_at j r)) r).
  assert (Hlen1 : length (cells r1) = length (cells r)).
  { subst r1. unfold set_cell. simpl. by rewrite length_insert. }
  destruct (IH r1 Hnd) as (Hlab & Hlen & Hin & Hout).
  { intros j' Hj'. rewrite Hlen1. apply Hlt. by apply list_elem_of_further. }
  split; [done|]. split; [congruence|]. split.
  - intros j' [->|Hj']%elem_of_cons.
    + rewrite Hout by done. subst r1. apply cell_at_set_cell_lt, Hlt, list_elem_of_here.
    + rewrite Hin by done. subst r1. rewrite cell_at_set_cell_ne; [done|].
      by intros ->.
  - intros j' [Hne Hj']%not_elem_of_cons. rewrite Hout by done.
    subst r1. by rewrite cell_at_set_cell_ne.
Qed.

Lemma clean_rows_exact i js rs :
  i ∉ js → NoDup js →
  Forall (λ k, i < length (cells k) ∧ ∀ j, j ∈ js → j < length (cells k)) rs →
  Forall2 (converted i js) (clean_rows i js rs) (filter (kept js) (parsed i rs)).
Proof.
  intros Hi Hnd Hrect. unfold clean_rows, parse_times, assign.
  rewrite zip_with_zip. fold (parsed i rs).
  assert (Hin : ∀ kt, kt ∈ parsed i rs →
            i < length (cells kt.1) ∧ ∀ j, j ∈ js → j < length (cells kt.1)).
  { intros [k t] Hkt. apply elem_of_zip_l in Hkt.
    apply list_elem_of_filter in Hkt as [_ Hk].
    by apply (proj1 (Forall_forall _ _) Hrect). }
  set (g1 := uncurry (λ (r : Row) (v : cell), set_cell i v r)).
  set (G := λ r, foldl (λ a j, set_cell j (to_numeric (cell_at j a)) a) r js).
  assert (Hconv : ∀ kt, kt ∈ parsed i rs → converted i js (G (g1 kt)) kt).
  { intros [k t] Hkt. destruct (Hin _ Hkt) as [Hik Hjk]. simpl in Hik, Hjk.
    assert (Hlen1 : length (cells (set_cell i t k)) = length (cells k)).
    { unfold set_cell. simpl. by rewrite length_insert. }
    destruct (coerce_cells js (set_cell i t k) Hnd) as (Hlab & Hlen & HinG & Hout).
    { intros j Hj. rewrite Hlen1. by apply Hjk. }
    unfold converted, G, g1. simpl. split; [done|]. split; [congruence|]. split; [|split].
    - rewrite Hout by done. by apply cell_at_set_cell_lt.
    - intros j Hj. rewrite HinG by done. rewrite cell_at_set_cell_ne; [done|].
      by intros ->.
    - intros j Hji Hj. rewrite Hout by done. by rewrite cell_at_set_cell_ne. }
  change (drop_missing i (g1 <$> parsed i rs))
    with (filter (λ r, isna (cell_at i r) = false) (g1 <$> parsed i rs)).
  rewrite (filter_fmap_with g1 _ (λ kt : Row * cell, isna kt.2 = false)).
  2:{ intros [k t] Hkt. destruct (Hin _ Hkt) as [Hik _]. unfold g1. simpl.
      by rewrite cell_at_set_cell_lt. }
  rewrite foldl_coerce_column, foldl_drop_missing, <- list_fmap_compose.
  fold G.
  rewrite (filter_fmap_with (G ∘ g1) _
             (λ kt : Row * cell,
                Forall (λ j, isna (to_numeric (cell_at j kt.1)) = false) js)).
  2:{ intros kt [_ Hkt]%list_elem_of_filter.
      destruct (Hconv kt Hkt) as (_ & _ & _ & Hnum & _).
      rewrite !Forall_forall. simpl.
      split; intros Hall j Hj; specialize (Hall j Hj);
        [by rewrite <- Hnum|by rewrite Hnum]. }
  rewrite list_filter_filter.
  rewrite (list_filter_iff _ (kept js)) by (intros kt; unfold kept; tauto).
  apply Forall2_fmap_l, Forall_Forall2_diag, Forall_forall.
  intros kt [_ Hkt]%list_elem_of_filter. by apply Hconv.
Qed.

Lemma coerce_row_fixed js o :
  (∀ q, to_numeric (CNum q) = CNum q) →
  (∀ j, j ∈ js → is_num (cell_at j o)) →
  foldl (λ a j, set_cell j (to_numeric (cell_at j a)) a) o js = o.
Proof.
  intros Hnum. induction js as [|j js IH]; intros Hjs; [done|]. simpl.
  pose proof (Hjs j (list_elem_of_here _ _)) as Hj.
  destruct (cell_at j o) as [| |q|] eqn:Hc; try done.
  rewrite Hnum, <- Hc, set_cell_same. apply IH.
  intros j' Hj'. by apply Hjs, list_elem_of_further.
Qed.

Lemma clean_rows_fixed i js rs :
  (∀ vs, Forall (λ v, is_time v) vs → to_datetime vs = vs) →
  (∀ q, to_numeric (CNum q) = CNum q) →
  Forall (λ o, is_time (cell_at i o) ∧ ∀ j, j ∈ js → is_num (cell_at j o)) rs →
  clean_rows i js rs = rs.
Proof.
  intros Hdt Hnum Hrs. unfold clean_rows.
  assert (Hdrop : drop_missing i rs = rs).
  { apply filter_all. eapply Forall_impl; [exact Hrs|]. intros o [Ht _].
    by destruct (cell_at i o). }
  rewrite Hdrop. unfold parse_times, assign.
  rewrite Hdt.
  2:{ apply Forall_fmap. eapply Forall_impl; [exact Hrs|]. by intros o [Ht _]. }
  rewrite zip_with_fmap_r, zip_with_diag.
  rewrite (list_fmap_ext _ id rs) by (intros; apply set_cell_same).
  rewrite list_fmap_id, Hdrop.
  rewrite foldl_coerce_column.
  rewrite (list_fmap_ext _ id rs), list_fmap_id.
  2:{ intros n o Ho. simpl. apply coerce_row_fixed; [done|].
      apply (proj1 (Forall_forall _ _) Hrs). by eapply list_elem_of_lookup_2. }
  rewrite foldl_drop_missing. apply filter_all.
  eapply Forall_impl; [exact Hrs|]. intros o [_ Hjs]. apply Forall_forall.
  intros j Hj. specialize (Hjs j Hj). by destruct (cell_at j o).
Qed.
End exact.

(** X8. The rows that [validate_and_clean] returns, exactly, on a frame
    with distinct column labels and rows as long as the header.  Take the
    rows of the frame that have a value in the time column, each with what
    [to_datetime] made of it; the result holds those of them whose time was
    parsed and whose numeric fields [to_numeric] reads, all of them, once
    each and in their order, and no other row.  Such a row keeps its index
    label and its length; it has the parsed timestamp in the time column,
    in each numeric field of the frame the number [to_numeric] read, and
    every other cell as it was. *)
Theorem validate_and_clean_exact {P : Pandas} {PC : PandasCoerce P}
    (h : heap) (r : ref) (df : DataFrame) (tc : string) (i : nat) :
  h !! r = Some df → col_index tc (columns df) = Some i → tc ∉ NUMERIC_FIELDS →
  NoDup (columns df) →
  Forall (λ k, length (cells k) = length (columns df)) (rows df) →
  ∃ r' h' out,
    validate_and_clean r tc h = (Ok r', h') ∧ h' !! r' = Some out ∧
    columns out = columns df ∧
    Forall2 (converted i (present NUMERIC_FIELDS (columns df))) (rows out)
            (filter (kept (present NUMERIC_FIELDS (columns df)))
                    (parsed i (rows df))).
Proof.
  intros Hr Hi Htc _ Hrect.
  destruct (validate_and_clean_run h r df tc i Hr Hi) as (ext & r' & Hrun & _ & Hout).
  eexists r', (h ++ ext), _. split; [exact Hrun|]. split; [exact Hout|].
  split; [done|]. cbn [rows]. apply clean_rows_exact.
  - intros (c & Hc & Hci)%elem_of_present.
    by rewrite (col_index_inj _ _ _ _ Hci Hi) in Hc.
  - apply present_NoDup, NoDup_NUMERIC_FIELDS.
  - eapply Forall_impl; [exact Hrect|]. intros k ->. split.
    + by eapply lookup_lt_Some, col_index_lookup.
    + intros j (c & _ & Hc)%elem_of_present.
      by eapply lookup_lt_Some, col_index_lookup.
Qed.

Lemma validate_and_clean_exact_witness :
  ∃ r' h' out,
    validate_and_clean (P := sample_pandas) 0 "timestamp" [sample_public] = (Ok r', h') ∧
    h' !! r' = Some out ∧
    columns out = columns sample_public ∧
    Forall2 (converted (P := sample_pandas) 4
               (present NUMERIC_FIELDS (columns sample_public))) (rows out)
            (filter (kept (P := sample_pandas)
                       (present NUMERIC_FIELDS (columns sample_public)))
                    (parsed (P := sample_pandas) 4 (rows sample_public))).
Proof.
  apply (validate_and_clean_exact (P := sample_pandas) (PC := sample_pandas_coerce)
           [sample_public] 0 sample_public "timestamp" 4).
  - reflexivity.
  - reflexivity.
  - apply (bool_decide_unpack _). vm_compute. exact I.
  - apply (bool_decide_unpack _). vm_compute. exact I.
  - apply (bool_decide_unpack _). vm_compute. exact I.
Defined.

(** X9. Cleaning is idempotent.  With parsers that leave a column of
    timestamps and a number as they are, and on a frame with distinct
    column labels, [validate_and_clean] applied to the frame it has
    returned returns a frame with the same columns and the same rows:
    nothing is dropped and no cell changes the second time.  It is again a
    new object. *)
Theorem validate_and_clean_idempotent {P : Pandas} {PC : PandasCoerce P}
    (h : heap) (r : ref) (df : DataFrame) (tc : string) :
  h !! r = Some df → tc ∈ columns df → tc ∉ NUMERIC_FIELDS →
  NoDup (columns df) →
  (∀ vs, Forall (λ v, is_time v) vs → to_datetime vs = vs) →
  (∀ q, to_numeric (CNum q) = CNum q) →
  ∃ r1 h1 out r2 h2,
    validate_and_clean r tc h = (Ok r1, h1) ∧ h1 !! r1 = Some out ∧
    validate_and_clean r1 tc h1 = (Ok r2, h2) ∧ h2 !! r2 = Some out ∧
    r1 < r2 ∧ h2 !! r1 = Some out.
Proof.
  intros Hr [i Hi]%col_index_is_Some Htc _ Hdt Hnum.
  destruct (validate_and_clean_run h r df tc i Hr Hi) as (ext & r1 & Hrun & Hle & Hout).
  set (out := mkDF (columns df)
                (clean_rows i (present NUMERIC_FIELDS (columns df)) (rows df))) in *.
  destruct (validate_and_clean_run (h ++ ext) r1 out tc i Hout Hi)
    as (ext2 & r2 & Hrun2 & Hle2 & Hout2).
  exists r1, (h ++ ext), out, r2, ((h ++ ext) ++ ext2).
  split; [exact Hrun|]. split; [exact Hout|]. split; [exact Hrun2|].
  assert (Hfix : clean_rows i (present NUMERIC_FIELDS (columns out)) (rows out)
                 = rows out).
  { apply clean_rows_fixed; [done..|]. cbn [rows columns out].
    destruct (clean_rows_cleaned i (present NUMERIC_FIELDS (columns df)) (rows df))
      as (ks & _ & HF).
    - intros (c & Hc & Hci)%elem_of_present.
      by rewrite (col_index_inj _ _ _ _ Hci Hi) in Hc.
    - apply present_NoDup, NoDup_NUMERIC_FIELDS.
    - eapply Forall2_Forall_outs; [exact HF|]. intros o k (_ & Ht & Hn).
      split; [done|]. intros j Hj. by destruct (Hn j Hj). }
  rewrite Hfix in Hout2. split; [by destruct out|]. split.
  - apply lookup_lt_Some in Hout. lia.
  - by apply lookup_app_l_Some.
Qed.

Lemma validate_and_clean_idempotent_witness :
  ∃ r1 h1 out r2 h2,
    validate_and_clean (P := sample_pandas) 0 "timestamp" [sample_public] = (Ok r1, h1) ∧
    h1 !! r1 = Some out ∧
    validate_and_clean (P := sample_pandas) r1 "timestamp" h1 = (Ok r2, h2) ∧
    h2 !! r2 = Some out ∧ r1 < r2 ∧ h2 !! r1 = Some out.
Proof.
  apply (validate_and_clean_idempotent (P := sample_pandas) (PC := sample_pandas_coerce)
           [sample_public] 0 sample_public "timestamp").
  - reflexivity.
  - apply (bool_decide_unpack _). vm_compute. exact I.
  - apply (bool_decide_unpack _). vm_compute. exact I.
  - apply (bool_decide_unpack _). vm_compute. exact I.
  - intros vs Hvs. simpl. induction Hvs as [|v vs Hv _ IH]; [done|].
    rewrite fmap_cons, IH. by destruct v.
  - reflexivity.
Defined.

(** ** The joiner: failures, size and columns *)

(** X10. [build_unified_table] is not all-or-nothing.  When the public
    frame has no [timestamp] column, or a [timestamp] column that is not of
    datetimes, the call raises ([KeyError], [AttributeError]) and the store
    is as before.  When the public frame is in order and the traffic frame
    has no [timestamp] column, the call raises [KeyError] too, but the
    public frame has already got its [timestamp_hour] column. *)
Theorem build_unified_table_failures (h : heap) (p t : ref) (dp dt : DataFrame) :
  h !! p = Some dp → h !! t = Some dt → p ≠ t →
  ("timestamp" ∉ columns dp →
   build_unified_table p t h = (Raise (KeyError "timestamp"), h)) ∧
  (∀ ip, col_index "timestamp" (columns dp) = Some ip → ¬ datetime_at ip dp →
     build_unified_table p t h
     = (Raise (AttributeError "Can only use .dt accessor with datetimelike values"), h)) ∧
  (∀ ip, col_index "timestamp" (columns dp) = Some ip → datetime_at ip dp →
     "timestamp_hour" ∉ columns dp → "timestamp" ∉ columns dt →
     build_unified_table p t h
     = (Raise (KeyError "timestamp"), <[p := hourly ip dp]> h) ∧
     <[p := hourly ip dp]> h !! p = Some (hourly ip dp) ∧
     <[p := hourly ip dp]> h !! t = Some dt).
Proof.
  intros Hp Ht Hpt. split; [|split].
  - intros Hno%col_index_None. unfold build_unified_table.
    erewrite bind_raise; [done|]. unfold getitem.
    step ltac:(by apply frame_run). unfold of_result, df_getitem. by rewrite Hno.
  - intros ip Hip Hdt. unfold build_unified_table.
    step ltac:(by eapply getitem_run).
    erewrite bind_raise; [done|]. unfold of_result, dt_floor_H.
    rewrite decide_False; [done|]. by rewrite Forall_fmap.
  - intros ip Hip Hdt Hnew Hno%col_index_None.
    assert (Ht1 : <[p := hourly ip dp]> h !! t = Some dt).
    { by rewrite list_lookup_insert_ne. }
    split; [|split; [|done]].
    + unfold build_unified_table.
      rewrite (add_hours_run _ h p dp ip Hp Hip Hnew Hdt).
      erewrite bind_raise; [done|]. unfold getitem.
      step ltac:(by apply frame_run). unfold of_result, df_getitem. by rewrite Hno.
    + apply list_lookup_insert_eq. by eapply lookup_lt_Some.
Qed.

Lemma build_unified_table_failures_witness :
  build_unified_table 0 1 [cleaned_public; raw_public_short]
  = (Raise (KeyError "timestamp"), [hourly 4 cleaned_public; raw_public_short]) ∧
  build_unified_table 0 1 [raw_public_short; cleaned_public]
  = (Raise (KeyError "timestamp"), [raw_public_short; cleaned_public]).
Proof.
  split.
  - destruct (build_unified_table_failures [cleaned_public; raw_public_short] 0 1
                cleaned_public raw_public_short eq_refl eq_refl) as (_ & _ & H); [lia|].
    apply (H 4); [reflexivity| | |].
    + apply (bool_decide_unpack _). vm_compute. exact I.
    + apply (bool_decide_unpack _). vm_compute. exact I.
    + apply (bool_decide_unpack _). vm_compute. exact I.
  - destruct (build_unified_table_failures [raw_public_short; cleaned_public] 0 1
                raw_public_short cleaned_public eq_refl eq_refl) as (H & _); [lia|].
    apply H. apply (bool_decide_unpack _). vm_compute. exact I.
Defined.

Lemma length_merged_cells lk rk keep ls rs :
  length (merged_cells lk rk keep ls rs) ≤ length ls * length rs.
Proof.
  unfold merged_cells. induction ls as [|l ls IH]; simpl; [done|].
  rewrite length_app, length_fmap.
  pose proof (length_filter (keys_match lk rk l) rs). lia.
Qed.

Lemma labels_imap {A} (g : nat → nat) (F : A → list cell) (l : list A) :
  label <$> imap (λ n x, mkRow (g n) (F x)) l = g <$> seq 0 (length l).
Proof.
  revert g. induction l as [|x l IH]; intros g; simpl; [done|]. f_equal.
  change (imap ((λ n x, mkRow (g n) (F x)) ∘ S) l)
    with (imap (λ n x, mkRow ((g ∘ S) n) (F x)) l).
  by rewrite IH, <- fmap_S_seq, <- list_fmap_compose.
Qed.

(** X11. The size and the index of the unified table.  For two frames
    that [pd.merge] accepts (distinct labels, also under the suffixes, and
    routes that are texts), with a datetime [timestamp] column and a
    [route_id] column, the call returns a frame with at most (rows of the
    public frame) times (rows of the traffic frame) rows, without rows when
    one of the two frames has none, and with the fresh index 0, 1, 2, ...:
    the index labels of the inputs are gone. *)
Theorem build_unified_table_size (h : heap) (p t : ref) (dp dt : DataFrame)
    (ip it : nat) :
  h !! p = Some dp → h !! t = Some dt → p ≠ t →
  mergeable dp dt →
  col_index "timestamp" (columns dp) = Some ip →
  col_index "timestamp" (columns dt) = Some it →
  "route_id" ∈ columns dp → "route_id" ∈ columns dt →
  "timestamp_hour" ∉ columns dp → "timestamp_hour" ∉ columns dt →
  datetime_at ip dp → datetime_at it dt →
  ∃ u h' out,
    build_unified_table p t h = (Ok u, h') ∧ h' !! u = Some out ∧
    length (rows out) ≤ length (rows dp) * length (rows dt) ∧
    (rows dp = [] ∨ rows dt = [] → rows out = []) ∧
    label <$> rows out = seq 0 (length (rows out)).
Proof.
  intros Hp Ht Hpt _ Hip Hit [rp Hrp]%col_index_is_Some [rt Hrt]%col_index_is_Some
         Hnp Hnt Hdp Hdt.
  pose proof (build_unified_table_run h p t dp dt ip it Hp Ht Hpt Hip Hit Hnp Hnt
                Hdp Hdt) as Hrun. simpl in Hrun.
  rewrite (df_merge_hourly dp dt ip it rp rt Hrp Hrt Hnp Hnt) in Hrun.
  set (h2 := <[t := hourly it dt]> (<[p := hourly ip dp]> h)) in *.
  assert (Hlen : length h2 = length h) by (subst h2; by rewrite !length_insert).
  eexists _, _, _. split; [exact Hrun|]. split.
  { rewrite lookup_app_r by lia. by replace (S (length h) - length h2) with 1 by lia. }
  cbn [rows df_rename].
  set (css := merged_cells _ _ _ _ _).
  assert (Hsize : length css ≤ length (rows dp) * length (rows dt)).
  { subst css. etrans; [apply length_merged_cells|]. by rewrite !length_fmap. }
  rewrite length_imap. split; [done|]. split.
  - intros Hempty. apply nil_length_inv. rewrite length_imap.
    destruct Hempty as [He|He]; rewrite He in Hsize; simpl in Hsize; lia.
  - change (imap mkRow css) with (imap (λ n x, mkRow (id n) (id x)) css).
    by rewrite labels_imap, list_fmap_id.
Qed.

Lemma build_unified_table_size_witness :
  ∃ u h' out,
    build_unified_table 0 1 [cleaned_public; cleaned_traffic] = (Ok u, h') ∧
    h' !! u = Some out ∧
    length (rows out) ≤ length (rows cleaned_public) * length (rows cleaned_traffic) ∧
    (rows cleaned_public = [] ∨ rows cleaned_traffic = [] → rows out = []) ∧
    label <$> rows out = seq 0 (length (rows out)).
Proof.
  apply (build_unified_table_size [cleaned_public; cleaned_traffic] 0 1
           cleaned_public cleaned_traffic 4 3).
  - reflexivity.
  - reflexivity.
  - lia.
  - apply (bool_decide_unpack _). vm_compute. exact I.
  - reflexivity.
  - reflexivity.
  - apply (bool_decide_unpack _). vm_compute. exact I.
  - apply (bool_decide_unpack _). vm_compute. exact I.
  - apply (bool_decide_unpack _). vm_compute. exact I.
  - apply (bool_decide_unpack _). vm_compute. exact I.
  - apply (bool_decide_unpack _). vm_compute. exact I.
  - apply (bool_decide_unpack _). vm_compute. exact I.
Defined.

Lemma string_app_length (a b : string) :
  String.length (a +:+ b) = String.length a + String.length b.
Proof. induction a as [|x a IH]; simpl; [done|]. by rewrite IH. Qed.

Lemma string_app_inj_r (a b s : string) : a +:+ s = b +:+ s → a = b.
Proof.
  revert b. induction a as [|x a IH]; intros [|y b] Heq; [done| | |].
  - apply (f_equal String.length) in Heq.
    rewrite !string_app_length in Heq. simpl in Heq. lia.
  - apply (f_equal String.length) in Heq.
    rewrite !string_app_length in Heq. simpl in Heq. lia.
  - simpl in Heq. injection Heq as -> Heq. f_equal. by apply IH.
Qed.

Lemma traffic_suffix_fresh c :
  c +:+ "_traffic" ≠ "event_hour" ∧ c +:+ "_traffic" ≠ "timestamp_hour".
Proof.
  split; intros Heq; pose proof (f_equal String.length Heq) as Hl;
    rewrite string_app_length in Hl; simpl in Hl.
  - do 3 (destruct c as [|? c]; simpl in Hl; try lia). discriminate.
  - do 7 (destruct c as [|? c]; simpl in Hl; try lia). discriminate.
Qed.

Lemma traffic_suffix_city c : c +:+ "_traffic" ≠ "city_public".
Proof.
  intros Heq. pose proof (f_equal String.length Heq) as Hl.
  rewrite string_app_length in Hl. simpl in Hl.
  do 4 (destruct c as [|? c]; simpl in Hl; try lia). discriminate.
Qed.

Lemma filter_iff_in {A} (Q1 Q2 : A → Prop)
    `{!∀ x, Decision (Q1 x)} `{!∀ x, Decision (Q2 x)} (l : list A) :
  (∀ x, x ∈ l → Q1 x ↔ Q2 x) → filter Q1 l = filter Q2 l.
Proof.
  induction l as [|x l IH]; intros HQ; [done|]. rewrite !filter_cons.
  rewrite IH by (intros y Hy; apply HQ; by apply list_elem_of_further).
  pose proof (HQ x (list_elem_of_here _ _)).
  destruct (decide (Q1 x)), (decide (Q2 x)); tauto || done.
Qed.

(** The columns of the merged and renamed frame, label by label. *)
Lemma merged_columns_unified pc tc :
  "timestamp_hour" ∉ pc → "timestamp_hour" ∉ tc →
  renamed [("timestamp_hour", "event_hour")]
    <$> merged_columns JOIN_KEYS "_public" "_traffic"
          (pc ++ ["timestamp_hour"]) (tc ++ ["timestamp_hour"])
  = unified_columns pc tc.
Proof.
  intros Hp Ht. unfold merged_columns, unified_columns.
  rewrite filter_app, !fmap_app. rewrite <- app_assoc. f_equal; [|f_equal].
  - rewrite <- list_fmap_compose. apply list_fmap_ext. intros n c Hc.
    apply list_elem_of_lookup_2 in Hc.
    assert (c ≠ "timestamp_hour") by (by intros ->).
    destruct (public_suffix_fresh c) as [_ Hfresh].
    unfold public_label, JOIN_KEYS. simpl.
    repeat case_decide; set_solver.
  - simpl. rewrite app_nil_r.
    rewrite (filter_iff_in _ (λ c, c ≠ "route_id") tc).
    2:{ intros c Hc. unfold JOIN_KEYS. rewrite !not_elem_of_cons. split; [tauto|].
        intros Hne. split; [done|]. split; [by intros ->|apply not_elem_of_nil]. }
    rewrite <- list_fmap_compose. apply list_fmap_ext. intros n c Hc.
    apply list_elem_of_lookup_2, list_elem_of_filter in Hc as [_ Hc].
    assert (c ≠ "timestamp_hour") by (by intros ->).
    destruct (traffic_suffix_fresh c) as [_ Hfresh].
    unfold traffic_label. simpl.
    rewrite (decide_ext (c ∈ pc ++ ["timestamp_hour"]) (c ∈ pc)) by set_solver.
    destruct (decide (c ∈ pc)); by rewrite decide_False.
Qed.

Lemma elem_of_unified_columns x pc tc :
  x ∈ unified_columns pc tc ↔
  (∃ c, c ∈ pc ∧ x = public_label tc c) ∨ x = "event_hour" ∨
  (∃ c, c ∈ tc ∧ c ≠ "route_id" ∧ x = traffic_label pc c).
Proof.
  unfold unified_columns.
  rewrite elem_of_app, elem_of_cons, !list_elem_of_fmap.
  setoid_rewrite list_elem_of_filter. naive_solver.
Qed.

(** X12. The columns of the unified table, for two frames that [pd.merge]
    accepts (distinct labels, also under the suffixes, and routes that are
    texts).  They are the public columns
    in their order, then [event_hour], then the traffic columns other than
    [route_id]; a label that both frames have, [route_id] apart, appears
    twice, with [_public] and with [_traffic] appended, and a label that
    only one frame has is kept as it is.  Hence, for inputs without a
    column called [city_public], the unified table has a [city_public]
    column exactly when both frames have a [city] column. *)
Theorem build_unified_table_columns (h : heap) (p t : ref) (dp dt : DataFrame)
    (ip it : nat) :
  h !! p = Some dp → h !! t = Some dt → p ≠ t →
  mergeable dp dt →
  col_index "timestamp" (columns dp) = Some ip →
  col_index "timestamp" (columns dt) = Some it →
  "route_id" ∈ columns dp → "route_id" ∈ columns dt →
  "timestamp_hour" ∉ columns dp → "timestamp_hour" ∉ columns dt →
  datetime_at ip dp → datetime_at it dt →
  ∃ u h' out,
    build_unified_table p t h = (Ok u, h') ∧ h' !! u = Some out ∧
    columns out = unified_columns (columns dp) (columns dt) ∧
    (∀ c, c ∈ columns dp → c ∈ columns dt → c ≠ "route_id" →
          c +:+ "_public" ∈ columns out ∧ c +:+ "_traffic" ∈ columns out) ∧
    (∀ c, c ∈ columns dp → c ∉ columns dt → c ∈ columns out) ∧
    (∀ c, c ∈ columns dt → c ∉ columns dp → c ∈ columns out) ∧
    "route_id" ∈ columns out ∧ "event_hour" ∈ columns out ∧
    ("timestamp_hour" ∉ columns out) ∧
    ("city_public" ∉ columns dp → "city_public" ∉ columns dt →
     "city_public" ∈ columns out ↔ "city" ∈ columns dp ∧ "city" ∈ columns dt).
Proof.
  intros Hp Ht Hpt _ Hip Hit Hrp_in Hrt_in Hnp Hnt Hdp Hdt.
  pose proof Hrp_in as [rp Hrp]%col_index_is_Some.
  pose proof Hrt_in as [rt Hrt]%col_index_is_Some.
  pose proof (build_unified_table_run h p t dp dt ip it Hp Ht Hpt Hip Hit Hnp Hnt
                Hdp Hdt) as Hrun. simpl in Hrun.
  rewrite (df_merge_hourly dp dt ip it rp rt Hrp Hrt Hnp Hnt) in Hrun.
  set (h2 := <[t := hourly it dt]> (<[p := hourly ip dp]> h)) in *.
  assert (Hlen : length h2 = length h) by (subst h2; by rewrite !length_insert).
  eexists _, _, _. split; [exact Hrun|]. split.
  { rewrite lookup_app_r by lia. by replace (S (length h) - length h2) with 1 by lia. }
  cbn [columns df_rename]. rewrite merged_columns_unified by done.
  split; [done|]. setoid_rewrite elem_of_unified_columns.
  split; [|split; [|split; [|split; [|split; [|split]]]]].
  - intros c Hcp Hct Hne. split.
    + left. exists c. split; [done|]. unfold public_label.
      by rewrite decide_False, decide_True.
    + right. right. exists c. split; [done|]. split; [done|].
      unfold traffic_label. by rewrite decide_True.
  - intros c Hcp Hct. left. exists c. split; [done|]. unfold public_label.
    case_decide; [done|]. by rewrite decide_False.
  - intros c Hct Hcp. right. right. exists c. split; [done|].
    split; [by intros ->|]. unfold traffic_label. by rewrite decide_False.
  - left. exists "route_id". split; [done|]. unfold public_label.
    by rewrite decide_True.
  - by right; left.
  - intros [(c & Hc & Heq)|[Heq|(c & Hc & Hne & Heq)]]; [|done|].
    + unfold public_label in Heq. destruct (public_suffix_fresh c) as [_ Hfresh].
      repeat case_decide; congruence.
    + unfold traffic_label in Heq. destruct (traffic_suffix_fresh c) as [_ Hfresh].
      case_decide; congruence.
  - intros Hcp Hct. split.
    + intros [(c & Hc & Heq)|[Heq|(c & Hc & Hne & Heq)]]; [|done|].
      * unfold public_label in Heq. repeat case_decide; [congruence| |congruence].
        change "city_public" with ("city" +:+ "_public") in Heq.
        apply string_app_inj_r in Heq. by subst c.
      * unfold traffic_label in Heq. pose proof (traffic_suffix_city c).
        case_decide; congruence.
    + intros [Hc1 Hc2]. left. exists "city". split; [done|]. unfold public_label.
      by rewrite decide_False, decide_True.
Qed.

Lemma build_unified_table_columns_witness :
  ∃ u h' out,
    build_unified_table 0 1 [cleaned_public; cleaned_traffic] = (Ok u, h') ∧
    h' !! u = Some out ∧
    columns out = unified_columns (columns cleaned_public) (columns cleaned_traffic) ∧
    "city_public" ∉ columns out.
Proof.
  destruct (build_unified_table_columns [cleaned_public; cleaned_traffic] 0 1
              cleaned_public cleaned_traffic 4 3)
    as (u & h' & out & Hrun & Hout & Hcols & _ & _ & _ & _ & _ & _ & Hcity).
  - reflexivity.
  - reflexivity.
  - lia.
  - apply (bool_decide_unpack _). vm_compute. exact I.
  - reflexivity.
  - reflexivity.
  - apply (bool_decide_unpack _). vm_compute. exact I.
  - apply (bool_decide_unpack _). vm_compute. exact I.
  - apply (bool_decide_unpack _). vm_compute. exact I.
  - apply (bool_decide_unpack _). vm_compute. exact I.
  - apply (bool_decide_unpack _). vm_compute. exact I.
  - apply (bool_decide_unpack _). vm_compute. exact I.
  - exists u, h', out. split; [exact Hrun|]. split; [exact Hout|].
    split; [exact Hcols|]. intros Hin. apply Hcity in Hin as [_ Hin].
    + revert Hin. apply (bool_decide_unpack _). vm_compute. exact I.
    + apply (bool_decide_unpack _). vm_compute. exact I.
    + apply (bool_decide_unpack _). vm_compute. exact I.
Defined.

(** ** The report *)

Lemma col_indices_raise pre c post cols :
  (∀ x, x ∈ pre → x ∈ cols) → c ∉ cols →
  col_indices (pre ++ c :: post) cols = Raise (KeyError c).
Proof.
  intros Hpre Hc%col_index_None. induction pre as [|x pre IH]; simpl.
  - by rewrite Hc.
  - destruct (proj1 (col_index_is_Some x cols)) as [i ->].
    { apply Hpre, list_elem_of_here. }
    rewrite IH; [done|]. intros y Hy. by apply Hpre, list_elem_of_further.
Qed.

Lemma col_indices_ok cs cols ixs :
  Forall2 (λ c i, col_index c cols = Some i) cs ixs → col_indices cs cols = Ok ixs.
Proof. induction 1 as [|c i cs ixs Hc _ IH]; simpl; [done|]. by rewrite Hc, IH. Qed.

Lemma to_csv_run u path w d :
  objects w !! u = Some d →
  to_csv u path w = (Ok tt, set_files (<[path := table_of d]> (files w)) w).
Proof.
  intros Hu. unfold to_csv. erewrite bind_ok.
  2:{ apply liftH_run. by apply frame_run. }
  by rewrite set_objects_id.
Qed.

Lemma load_to_database_run u name w d :
  objects w !! u = Some d →
  load_to_database u name w
  = (Ok tt, set_database (<[name := table_of d]> (database w)) w).
Proof.
  intros Hu. unfold load_to_database, to_sql. erewrite bind_ok.
  2:{ apply liftH_run. by apply frame_run. }
  rewrite set_objects_id. by destruct (database w !! name).
Qed.

Lemma create_summary_report_run u path w d :
  objects w !! u = Some d →
  create_summary_report u path w
  = match df_groupby_mean REPORT_KEYS REPORT_VALUES d with
    | Ok g =>
        let s := df_rename [("ridership", "avg_ridership");
                            ("congestion_index", "avg_congestion_index")] g in
        (Ok tt, set_files (<[path := table_of s]> (files w))
                  (set_objects (objects w ++ [g; s]) w))
    | Raise e => (Raise e, w)
    end.
Proof.
  intros Hu. unfold create_summary_report. fold REPORT_KEYS REPORT_VALUES.
  destruct (df_groupby_mean REPORT_KEYS REPORT_VALUES d) as [g|e] eqn:Hg.
  - erewrite bind_ok.
    2:{ apply liftH_run. unfold groupby_mean. step ltac:(by apply frame_run).
        rewrite Hg. erewrite bind_ok; [|reflexivity]. reflexivity. }
    cbv beta. erewrite bind_ok.
    2:{ apply liftH_run. apply rename_run. apply lookup_last. }
    cbv beta. erewrite to_csv_run.
    2:{ cbn [objects set_objects]. apply lookup_last. }
    cbn. by rewrite <- app_assoc.
  - erewrite bind_raise; [done|]. erewrite liftH_run; [by rewrite set_objects_id|].
    unfold groupby_mean. step ltac:(by apply frame_run).
    rewrite Hg. by erewrite bind_raise.
Qed.

Lemma col_indices_present cs cols :
  (∀ c, c ∈ cs → c ∈ cols) → ∃ ixs, col_indices cs cols = Ok ixs.
Proof.
  induction cs as [|c cs IH]; intros Hall; simpl; [by eexists|].
  destruct (proj1 (col_index_is_Some c cols)) as [i ->].
  { apply Hall, list_elem_of_here. }
  destruct IH as [ixs ->]; [|by eexists].
  intros x Hx. by apply Hall, list_elem_of_further.
Qed.

(** The check of the value columns of the report, case by case. *)
Lemma value_indices_report cols :
  value_indices REPORT_VALUES cols
  = match decide ("ridership" ∈ cols), decide ("congestion_index" ∈ cols) with
    | left _, left _ => col_indices REPORT_VALUES cols
    | right _, left _ => Raise (KeyError "Columns not found: 'ridership'")
    | left _, right _ => Raise (KeyError "Columns not found: 'congestion_index'")
    | right _, right _ =>
        Raise (KeyError "Columns not found: 'ridership', 'congestion_index'")
    end.
Proof.
  unfold value_indices, REPORT_VALUES. rewrite !filter_cons, filter_nil.
  repeat case_decide; first [done | tauto].
Qed.

(** Grouping by labels of columns: the first absent one is the error. *)
Lemma df_groupby_mean_missing_key d pre c post :
  REPORT_KEYS = pre ++ c :: post →
  (∀ x, x ∈ pre → x ∈ columns d) → c ∉ columns d →
  length (rows d) ≠ length REPORT_KEYS →
  df_groupby_mean REPORT_KEYS REPORT_VALUES d = Raise (KeyError c).
Proof.
  intros Hsplit Hpre Hc Hlen. unfold df_groupby_mean.
  rewrite decide_False by (intros [Heq _]; by rewrite Heq in Hlen).
  by rewrite Hsplit, col_indices_raise.
Qed.

(** When the value columns are looked at: the keys are all columns, or the
    list of keys is read as an array of labels. *)
Lemma df_groupby_mean_values d :
  (∀ k, k ∈ REPORT_KEYS → k ∈ columns d) ∨ length (rows d) = length REPORT_KEYS →
  ∀ e, value_indices REPORT_VALUES (columns d) = Raise e →
       df_groupby_mean REPORT_KEYS REPORT_VALUES d = Raise e.
Proof.
  intros Hmode e He. unfold df_groupby_mean.
  destruct (decide (label_array REPORT_KEYS d)) as [Harr|Harr]; [by rewrite He|].
  assert (Hall : ∀ k, k ∈ REPORT_KEYS → k ∈ columns d).
  { destruct Hmode as [Hall|Hlen]; [done|].
    destruct (decide (Forall (λ k, k ∈ columns d) REPORT_KEYS)) as [HF|HF].
    - by apply Forall_forall.
    - destruct Harr. by split. }
  destruct (col_indices_present _ _ Hall) as [kix ->]. by rewrite He.
Qed.

(** X13. A unified table, with distinct column labels, that lacks a column
    of the report.  When a key
    column is missing and the table does not have exactly as many rows as
    there are keys (three), [create_summary_report] raises [KeyError] for
    the first of [route_id], [city_public], [bus_stop] that is missing.
    When the keys are all there, or the table has exactly three rows (the
    list of keys is then read as an array of group labels), and a value
    column is missing, it raises the [KeyError] that names the missing
    value columns.  In each case nothing is computed, no file is written
    and the world is as before. *)
Theorem create_summary_report_missing_column (u : ref) (path : string)
    (w : World) (d : DataFrame) :
  objects w !! u = Some d → NoDup (columns d) →
  (∀ pre c post,
     REPORT_KEYS = pre ++ c :: post →
     (∀ x, x ∈ pre → x ∈ columns d) → c ∉ columns d →
     length (rows d) ≠ length REPORT_KEYS →
     create_summary_report u path w = (Raise (KeyError c), w)) ∧
  ((∀ k, k ∈ REPORT_KEYS → k ∈ columns d) ∨ length (rows d) = length REPORT_KEYS →
   ("ridership" ∉ columns d → "congestion_index" ∈ columns d →
    create_summary_report u path w
    = (Raise (KeyError "Columns not found: 'ridership'"), w)) ∧
   ("ridership" ∈ columns d → "congestion_index" ∉ columns d →
    create_summary_report u path w
    = (Raise (KeyError "Columns not found: 'congestion_index'"), w)) ∧
   ("ridership" ∉ columns d → "congestion_index" ∉ columns d →
    ∃ msg, create_summary_report u path w = (Raise (KeyError msg), w))).
Proof.
  intros Hu _. rewrite (create_summary_report_run u path w d Hu). split.
  - intros pre c post Hsplit Hpre Hc Hlen.
    by rewrite (df_groupby_mean_missing_key d pre c post).
  - intros Hmode. pose proof (df_groupby_mean_values d Hmode) as Hv.
    pose proof (value_indices_report (columns d)) as Hr.
    split; [|split]; intros H1 H2.
    + rewrite (Hv (KeyError "Columns not found: 'ridership'")); [done|].
      rewrite Hr. by rewrite decide_False, decide_True.
    + rewrite (Hv (KeyError "Columns not found: 'congestion_index'")); [done|].
      rewrite Hr. by rewrite decide_True, decide_False.
    + eexists. erewrite Hv; [done|].
      rewrite Hr. by rewrite decide_False, decide_False.
Qed.

Lemma create_summary_report_missing_column_witness :
  create_summary_report 0 "summary.csv"
    (mkWorld [cleaned_traffic] ∅ ∅ [] [])
  = (Raise (KeyError "city_public"), mkWorld [cleaned_traffic] ∅ ∅ [] []).
Proof.
  destruct (create_summary_report_missing_column 0 "summary.csv"
              (mkWorld [cleaned_traffic] ∅ ∅ [] []) cleaned_traffic eq_refl)
    as [Hkey _].
  { apply (bool_decide_unpack _). vm_compute. exact I. }
  apply (Hkey ["route_id"] "city_public" ["bus_stop"]).
  - reflexivity.
  - intros x Hx. apply list_elem_of_singleton in Hx. rewrite Hx.
    apply (bool_decide_unpack _). vm_compute. exact I.
  - apply (bool_decide_unpack _). vm_compute. exact I.
  - vm_compute. lia.
Defined.

(** ** The order of the group keys *)

Lemma string_compare_refl s : String.compare s s = Eq.
Proof.
  induction s as [|x s IH]; simpl; [done|].
  unfold Ascii.compare. by rewrite N.compare_refl.
Qed.

Lemma string_compare_lt_trans a b c :
  String.compare a b = Lt → String.compare b c = Lt → String.compare a c = Lt.
Proof.
  revert b c. induction a as [|x a IH]; intros [|y b] [|z c]; simpl; try done.
  unfold Ascii.compare.
  destruct (N.compare_spec (N_of_ascii x) (N_of_ascii y)) as [Hxy|Hxy|Hxy];
    destruct (N.compare_spec (N_of_ascii y) (N_of_ascii z)) as [Hyz|Hyz|Hyz];
    try done; intros H1 H2.
  - rewrite Hxy, Hyz, N.compare_refl. by eapply IH.
  - by rewrite (proj2 (N.compare_lt_iff _ _)) by lia.
  - by rewrite (proj2 (N.compare_lt_iff _ _)) by lia.
  - by rewrite (proj2 (N.compare_lt_iff _ _)) by lia.
Qed.

Lemma cell_compare_refl a : cell_compare a a = Eq.
Proof.
  destruct a as [|s|q|n]; simpl; [done| | |].
  - apply string_compare_refl.
  - by apply Qeq_alt.
  - apply Z.compare_refl.
Qed.

Lemma cell_compare_antisym a b : cell_compare b a = CompOpp (cell_compare a b).
Proof.
  destruct a as [|s|q|n], b as [|s'|q'|n']; simpl; try done.
  - apply String.compare_antisym.
  - symmetry. apply Qcompare_antisym.
  - apply Z.compare_antisym.
Qed.

Lemma cell_compare_eq_l a b c :
  cell_compare a b = Eq → cell_compare a c = cell_compare b c.
Proof.
  destruct a as [|s|q|n], b as [|s'|q'|n']; simpl; try done; intros Heq.
  - apply String.compare_eq_iff in Heq. by subst.
  - apply Qeq_alt in Heq. destruct c; simpl; try done. by rewrite Heq.
  - apply Z.compare_eq in Heq. by subst.
Qed.

Lemma cell_compare_lt_trans a b c :
  cell_compare a b = Lt → cell_compare b c = Lt → cell_compare a c = Lt.
Proof.
  destruct a as [|s|q|n], b as [|s'|q'|n']; simpl; try done;
    destruct c as [|s''|q''|n'']; simpl; try done.
  - apply string_compare_lt_trans.
  - rewrite <- !Qlt_alt. apply Qlt_trans.
  - rewrite !Z.compare_lt_iff. lia.
Qed.

Lemma tuple_compare_refl k : tuple_compare k k = Eq.
Proof. induction k as [|x k IH]; simpl; [done|]. by rewrite cell_compare_refl. Qed.

Lemma tuple_compare_antisym a b : tuple_compare b a = CompOpp (tuple_compare a b).
Proof.
  revert b. induction a as [|x a IH]; intros [|y b]; simpl; try done.
  rewrite (cell_compare_antisym x y). destruct (cell_compare x y); simpl; auto.
Qed.

Lemma tuple_compare_eq_l a b c :
  tuple_compare a b = Eq → tuple_compare a c = tuple_compare b c.
Proof.
  revert b c. induction a as [|x a IH]; intros [|y b] [|z c]; simpl; try done.
  destruct (cell_compare x y) eqn:Hxy; try done. intros Hab.
  rewrite (cell_compare_eq_l _ _ _ Hxy). destruct (cell_compare y z); auto.
Qed.

Lemma tuple_compare_lt_trans a b c :
  tuple_compare a b = Lt → tuple_compare b c = Lt → tuple_compare a c = Lt.
Proof.
  revert b c. induction a as [|x a IH]; intros [|y b] [|z c]; simpl; try done.
  destruct (cell_compare x y) eqn:Hxy; try done; intros Hab.
  - rewrite (cell_compare_eq_l _ _ _ Hxy).
    destruct (cell_compare y z); try done. by apply IH.
  - destruct (cell_compare y z) eqn:Hyz; try done; intros _.
    + assert (Hzy : cell_compare z y = Eq) by (by rewrite cell_compare_antisym, Hyz).
      pose proof (cell_compare_eq_l _ _ x Hzy) as Hzx.
      rewrite (cell_compare_antisym x y), Hxy in Hzx. simpl in Hzx.
      by rewrite (cell_compare_antisym z x), Hzx.
    + by rewrite (cell_compare_lt_trans _ _ _ Hxy Hyz).
Qed.

Lemma elem_of_insert_key k' k ks : k' ∈ insert_key k ks → k' = k ∨ k' ∈ ks.
Proof.
  induction ks as [|x ks IH]; simpl.
  - intros ?%list_elem_of_singleton. by left.
  - destruct (tuple_compare k x).
    + by right.
    + intros [->|?]%elem_of_cons; [by left|by right].
    + intros [->|Hin]%elem_of_cons; [right; apply list_elem_of_here|].
      destruct (IH Hin); [by left|right; by apply list_elem_of_further].
Qed.

Lemma insert_key_keeps k k' ks : k' ∈ ks → k' ∈ insert_key k ks.
Proof.
  induction ks as [|x ks IH]; simpl; [by intros ?%elem_of_nil|].
  destruct (tuple_compare k x); [done|by apply list_elem_of_further|].
  intros [->|Hin]%elem_of_cons; [apply list_elem_of_here|].
  by apply list_elem_of_further, IH.
Qed.

Lemma insert_key_covers k ks : ∃ k', k' ∈ insert_key k ks ∧ tuple_compare k k' = Eq.
Proof.
  induction ks as [|x ks IH]; simpl.
  - exists k. split; [apply list_elem_of_here|apply tuple_compare_refl].
  - destruct (tuple_compare k x) eqn:Hkx.
    + exists x. split; [apply list_elem_of_here|done].
    + exists k. split; [apply list_elem_of_here|apply tuple_compare_refl].
    + destruct IH as (k' & Hin & Heq). exists k'.
      split; [by apply list_elem_of_further|done].
Qed.

Lemma insert_key_sorted k ks :
  StronglySorted (λ a b, tuple_compare a b = Lt) ks →
  StronglySorted (λ a b, tuple_compare a b = Lt) (insert_key k ks).
Proof.
  induction 1 as [|x ks Hs IH Hx]; simpl.
  - repeat constructor.
  - destruct (tuple_compare k x) eqn:Hkx.
    + by constructor.
    + constructor; [by constructor|]. constructor; [done|].
      eapply Forall_impl; [exact Hx|]. intros y Hxy. cbv beta in Hxy.
      by eapply tuple_compare_lt_trans.
    + constructor; [done|]. apply Forall_forall.
      intros y [->|Hy]%elem_of_insert_key.
      * by rewrite tuple_compare_antisym, Hkx.
      * by apply (proj1 (Forall_forall _ _) Hx).
Qed.

Lemma group_keys_spec kix rs :
  (∀ k, k ∈ group_keys kix rs → ∃ r, r ∈ rs ∧ k = key_of kix r) ∧
  (∀ r, r ∈ rs → ∃ k, k ∈ group_keys kix rs ∧ in_group kix k r) ∧
  StronglySorted (λ a b, tuple_compare a b = Lt) (group_keys kix rs).
Proof.
  unfold group_keys, in_group. fold (key_of kix).
  induction rs as [|r rs (IH1 & IH2 & IH3)]; simpl.
  - split; [by intros k ?%elem_of_nil|]. split; [by intros r ?%elem_of_nil|].
    constructor.
  - split; [|split].
    + intros k [->|Hk]%elem_of_insert_key.
      * exists r. split; [apply list_elem_of_here|done].
      * destruct (IH1 k Hk) as (r' & Hr' & ->). exists r'.
        split; [by apply list_elem_of_further|done].
    + intros r' [->|Hr']%elem_of_cons.
      * apply insert_key_covers.
      * destruct (IH2 r' Hr') as (k & Hk & Heq). exists k.
        split; [by apply insert_key_keeps|done].
    + by apply insert_key_sorted.
Qed.

Lemma numbers_of_values v rs :
  Forall (λ r, is_num (cell_at v r) || isna (cell_at v r)) rs →
  numbers_of (cell_at v <$> rs) = Ok (values_of v rs).
Proof.
  unfold values_of. induction 1 as [|r rs Hr _ IH]; [done|]. rewrite fmap_cons. simpl.
  destruct (cell_at v r); try done; by rewrite IH.
Qed.

Lemma summary_cells_ok kix v1 v2 ks rs :
  Forall (λ r, is_num (cell_at v1 r) || isna (cell_at v1 r)) rs →
  Forall (λ r, is_num (cell_at v2 r) || isna (cell_at v2 r)) rs →
  summary_cells kix [v1; v2] ks rs
  = Ok ((λ k, k ++ [mean (values_of v1 (filter (in_group kix k) rs));
                    mean (values_of v2 (filter (in_group kix k) rs))]) <$> ks).
Proof.
  intros H1 H2. induction ks as [|k ks IH]; [done|]. simpl. rewrite IH.
  rewrite !numbers_of_values; [done| |].
  - apply Forall_forall. intros r [_ Hr]%list_elem_of_filter.
    by apply (proj1 (Forall_forall _ _) H2).
  - apply Forall_forall. intros r [_ Hr]%list_elem_of_filter.
    by apply (proj1 (Forall_forall _ _) H1).
Qed.

Lemma cells_imap_mkRow (g : nat → nat) (css : list (list cell)) :
  cells <$> imap (λ n cs, mkRow (g n) cs) css = css.
Proof.
  revert g. induction css as [|cs css IH]; intros g; simpl; [done|]. f_equal.
  apply (IH (g ∘ S)).
Qed.

Lemma df_groupby_mean_report d kix v1 v2 :
  Forall2 (λ c i, col_index c (columns d) = Some i) REPORT_KEYS kix →
  col_index "ridership" (columns d) = Some v1 →
  col_index "congestion_index" (columns d) = Some v2 →
  Forall (λ r, is_num (cell_at v1 r) || isna (cell_at v1 r)) (rows d) →
  Forall (λ r, is_num (cell_at v2 r) || isna (cell_at v2 r)) (rows d) →
  df_groupby_mean REPORT_KEYS REPORT_VALUES d
  = Ok (mkDF (REPORT_KEYS ++ REPORT_VALUES)
          (imap mkRow
             ((λ k, k ++ [mean (values_of v1 (group_of kix k (rows d)));
                          mean (values_of v2 (group_of kix k (rows d)))])
                <$> group_keys kix (filter (notna_at kix) (rows d))))).
Proof.
  intros Hk Hv1 Hv2 Hn1 Hn2.
  unfold df_groupby_mean. rewrite decide_False.
  2:{ intros [_ Hnot]. apply Hnot. eapply Forall2_Forall_outs; [exact Hk|].
      intros c i Hc. cbv beta in *. apply col_index_is_Some. by exists i. }
  rewrite (col_indices_ok _ _ _ Hk), value_indices_report.
  rewrite !decide_True by (apply col_index_is_Some; eauto).
  rewrite (col_indices_ok REPORT_VALUES _ [v1; v2]) by (repeat constructor; done).
  cbv zeta. rewrite summary_cells_ok; [done| |].
  - apply Forall_forall. intros r [_ Hr]%list_elem_of_filter.
    by apply (proj1 (Forall_forall _ _) Hn1).
  - apply Forall_forall. intros r [_ Hr]%list_elem_of_filter.
    by apply (proj1 (Forall_forall _ _) Hn2).
Qed.

(** X14. The report.  On a unified table that has the three key columns
    and the two value columns, the values being numbers or missing,
    [create_summary_report] returns and writes under the given path, and
    nowhere else, a table with the columns [route_id], [city_public],
    [bus_stop], [avg_ridership], [avg_congestion_index].  Its rows are one
    per group key, in strictly increasing key order, so no key comes
    twice; every key is the key of a row of the unified table without a
    missing value in the key, every such row belongs to the group of one
    of the keys, and rows with a missing key value count nowhere.  Each of
    the two averages is the mean of the numbers of the group, missing
    values left out, and is missing when the group has no number. *)
Theorem create_summary_report_contents (u : ref) (path : string) (w : World)
    (d : DataFrame) (kix : list nat) (v1 v2 : nat) :
  objects w !! u = Some d →
  Forall2 (λ c i, col_index c (columns d) = Some i) REPORT_KEYS kix →
  col_index "ridership" (columns d) = Some v1 →
  col_index "congestion_index" (columns d) = Some v2 →
  Forall (λ r, is_num (cell_at v1 r) || isna (cell_at v1 r)) (rows d) →
  Forall (λ r, is_num (cell_at v2 r) || isna (cell_at v2 r)) (rows d) →
  ∃ w' ks,
    create_summary_report u path w = (Ok tt, w') ∧
    database w' = database w ∧ outbox w' = outbox w ∧
    files w'
    = <[path := mkTable REPORT_COLUMNS
                  ((λ k, k ++ [mean (values_of v1 (group_of kix k (rows d)));
                               mean (values_of v2 (group_of kix k (rows d)))])
                     <$> ks)]> (files w) ∧
    (∀ k, k ∈ ks → ∃ r, r ∈ rows d ∧ notna_at kix r ∧ k = key_of kix r) ∧
    (∀ r, r ∈ rows d → notna_at kix r → ∃ k, k ∈ ks ∧ in_group kix k r) ∧
    StronglySorted (λ a b, tuple_compare a b = Lt) ks.
Proof.
  intros Hu Hk Hv1 Hv2 Hn1 Hn2.
  set (rs := filter (notna_at kix) (rows d)).
  set (ks := group_keys kix rs).
  set (css := (λ k, k ++ [mean (values_of v1 (group_of kix k (rows d)));
                          mean (values_of v2 (group_of kix k (rows d)))]) <$> ks).
  pose proof (df_groupby_mean_report d kix v1 v2 Hk Hv1 Hv2 Hn1 Hn2) as Hg.
  fold rs ks css in Hg.
  destruct (group_keys_spec kix rs) as (Hks1 & Hks2 & Hks3).
  eexists _, ks. split; [|split; [|split; [|split; [|split; [|split; [|exact Hks3]]]]]].
  - unfold create_summary_report. fold REPORT_KEYS REPORT_VALUES.
    erewrite bind_ok.
    2:{ apply liftH_run. unfold groupby_mean. step ltac:(by apply frame_run).
        rewrite Hg. erewrite bind_ok; [|reflexivity]. reflexivity. }
    cbv beta. erewrite bind_ok.
    2:{ apply liftH_run. apply rename_run. apply lookup_last. }
    cbv beta. unfold to_csv. erewrite bind_ok.
    2:{ apply liftH_run. apply frame_run. cbn [objects set_objects].
        apply lookup_last. }
    reflexivity.
  - done.
  - done.
  - cbn [files set_files set_objects]. f_equal. unfold table_of. cbn [columns rows df_rename].
    f_equal. change (imap mkRow css) with (imap (λ n cs, mkRow (id n) cs) css).
    apply cells_imap_mkRow.
  - intros k Hin. destruct (Hks1 k Hin) as (r & [Hna Hr]%list_elem_of_filter & ->).
    by exists r.
  - intros r Hr Hna. apply Hks2. by apply list_elem_of_filter.
Qed.

Lemma create_summary_report_contents_witness :
  ∃ w' ks,
    create_summary_report 0 "summary.csv" (mkWorld [sample_unified] ∅ ∅ [] [])
    = (Ok tt, w') ∧
    database w' = ∅ ∧ outbox w' = [] ∧
    files w'
    = <[ "summary.csv" :=
           mkTable REPORT_COLUMNS
             ((λ k, k ++ [mean (values_of 3 (group_of [0; 1; 2] k (rows sample_unified)));
                          mean (values_of 4 (group_of [0; 1; 2] k (rows sample_unified)))])
                <$> ks) ]> ∅ ∧
    (∀ k, k ∈ ks → ∃ r, r ∈ rows sample_unified ∧ notna_at [0; 1; 2] r
                        ∧ k = key_of [0; 1; 2] r) ∧
    (∀ r, r ∈ rows sample_unified → notna_at [0; 1; 2] r →
          ∃ k, k ∈ ks ∧ in_group [0; 1; 2] k r) ∧
    StronglySorted (λ a b, tuple_compare a b = Lt) ks.
Proof.
  apply (create_summary_report_contents 0 "summary.csv"
           (mkWorld [sample_unified] ∅ ∅ [] []) sample_unified [0; 1; 2] 3 4).
  - reflexivity.
  - repeat constructor.
  - reflexivity.
  - reflexivity.
  - apply (bool_decide_unpack _). vm_compute. exact I.
  - apply (bool_decide_unpack _). vm_compute. exact I.
Defined.

(** The report of the sample: two groups, in key order; the row with a
    missing city is in no group, and the missing congestion value is left
    out of its mean. *)
Example create_summary_report_sample :
  files (create_summary_report 0 "summary.csv" (mkWorld [sample_unified] ∅ ∅ [] [])).2
    !! "summary.csv"
  = Some (mkTable REPORT_COLUMNS
            [[CStr "R1"; CStr "Pune"; CStr "S1"; CNum 110; CNum (7 # 10)];
             [CStr "R2"; CStr "Pune"; CStr "S2"; CNum 80; CNum (1 # 2)]]).
Proof. by vm_compute. Qed.

(** ** The report of a table of three rows *)

Lemma values_of_labelled k v r : values_of (S v) [labelled k r] = values_of v [r].
Proof. reflexivity. Qed.

(** X22. A unified table of exactly three rows, with distinct column
    labels, that lacks a key column of
    the report.  [groupby] reads the three keys as one array of group
    labels, one per row, so no [KeyError] is raised for the missing
    column: with the two value columns there, holding numbers or missing
    values, [create_summary_report] returns and writes a report with the
    columns [index], [avg_ridership], [avg_congestion_index] and one row
    per row of the table, labelled [bus_stop], [city_public], [route_id]
    (the key names, sorted) and holding the values of the third, the second
    and the first row of the table. *)
Theorem create_summary_report_three_rows (u : ref) (path : string) (w : World)
    (d : DataFrame) (r0 r1 r2 : Row) (v1 v2 : nat) :
  objects w !! u = Some d → NoDup (columns d) →
  rows d = [r0; r1; r2] →
  ¬ Forall (λ k, k ∈ columns d) REPORT_KEYS →
  col_index "ridership" (columns d) = Some v1 →
  col_index "congestion_index" (columns d) = Some v2 →
  Forall (λ r, is_num (cell_at v1 r) || isna (cell_at v1 r)) (rows d) →
  Forall (λ r, is_num (cell_at v2 r) || isna (cell_at v2 r)) (rows d) →
  ∃ w',
    create_summary_report u path w = (Ok tt, w') ∧
    database w' = database w ∧ outbox w' = outbox w ∧
    files w'
    = <[path := mkTable ["index"; "avg_ridership"; "avg_congestion_index"]
                  [ [CStr "bus_stop"; mean (values_of v1 [r2]); mean (values_of v2 [r2])];
                    [CStr "city_public"; mean (values_of v1 [r1]);
                     mean (values_of v2 [r1])];
                    [CStr "route_id"; mean (values_of v1 [r0]); mean (values_of v2 [r0])] ]
       ]> (files w).
Proof.
  intros Hu _ Hrows Hkeys Hv1 Hv2 Hn1 Hn2.
  rewrite (create_summary_report_run u path w d Hu).
  unfold df_groupby_mean.
  rewrite decide_True by (split; [by rewrite Hrows|done]).
  rewrite value_indices_report.
  rewrite !decide_True by (apply col_index_is_Some; eauto).
  rewrite (col_indices_ok REPORT_VALUES _ [v1; v2]) by (repeat constructor; done).
  cbv zeta. rewrite Hrows in *.
  apply Forall_cons in Hn1 as [Ha0 [Ha1 [Ha2 _]%Forall_cons]%Forall_cons].
  apply Forall_cons in Hn2 as [Hb0 [Hb1 [Hb2 _]%Forall_cons]%Forall_cons].
  change (zip_with labelled REPORT_KEYS [r0; r1; r2])
    with [labelled "route_id" r0; labelled "city_public" r1; labelled "bus_stop" r2].
  change (S <$> [v1; v2]) with [S v1; S v2].
  rewrite summary_cells_ok by (repeat constructor; assumption).
  change (group_keys [0] [labelled "route_id" r0; labelled "city_public" r1;
                          labelled "bus_stop" r2])
    with [[CStr "bus_stop"]; [CStr "city_public"]; [CStr "route_id"]].
  rewrite !fmap_cons, fmap_nil, !filter_cons, !filter_nil.
  repeat first [ rewrite decide_True by (by vm_compute)
               | rewrite decide_False by (by vm_compute) ].
  rewrite !values_of_labelled.
  eexists. split; [reflexivity|]. by repeat split.
Qed.

Lemma create_summary_report_three_rows_witness :
  ∃ w',
    create_summary_report 0 "summary.csv" (mkWorld [three_unified] ∅ ∅ [] [])
    = (Ok tt, w') ∧
    files w' !! "summary.csv"
    = Some (mkTable ["index"; "avg_ridership"; "avg_congestion_index"]
              [ [CStr "bus_stop"; CNum 100; CNum (7 # 10)];
                [CStr "city_public"; CNum 80; CNum (1 # 2)];
                [CStr "route_id"; CNum 120; CNum (7 # 10)] ]).
Proof.
  destruct (create_summary_report_three_rows 0 "summary.csv"
              (mkWorld [three_unified] ∅ ∅ [] []) three_unified
              (mkRow 0 [CStr "R1"; CStr "Pune"; CStr "S1"; CNum 120;
                        CTime 1735719000000000000; CTime 1735718400000000000;
                        CNum (37 # 2); CNum (7 # 10); CTime 1735721100000000000])
              (mkRow 1 [CStr "R2"; CNull; CStr "S2"; CNum 80;
                        CTime 1735722300000000000; CTime 1735722000000000000;
                        CNum 20; CNum (1 # 2); CTime 1735723800000000000])
              (mkRow 2 [CStr "R1"; CStr "Pune"; CStr "S1"; CNum 100;
                        CTime 1735721400000000000; CTime 1735718400000000000;
                        CNum (37 # 2); CNum (7 # 10); CTime 1735721100000000000])
              3 7)
    as (w' & Hrun & _ & _ & Hfiles).
  - reflexivity.
  - apply (bool_decide_unpack _). vm_compute. exact I.
  - reflexivity.
  - apply (bool_decide_unpack _). vm_compute. exact I.
  - reflexivity.
  - reflexivity.
  - apply (bool_decide_unpack _). vm_compute. exact I.
  - apply (bool_decide_unpack _). vm_compute. exact I.
  - exists w'. split; [exact Hrun|]. rewrite Hfiles. by rewrite lookup_insert_eq.
Defined.

(** The sample run with the traffic file [raw_traffic_pair], which does not
    name the city: the unified table has three rows, the run returns, and
    its report has a row for each of the three key names. *)
Example pipeline_run_three_rows :
  let run := pipeline_run (sample_env raw_traffic_pair) (P := sample_pandas) empty_world in
  run.1 = Ok tt ∧
  (∃ unified report,
     files run.2 !! processed_csv (sample_env raw_traffic_pair) = Some unified ∧
     length (t_rows unified) = 3 ∧ "city_public" ∉ t_columns unified ∧
     files run.2 !! summary_csv (sample_env raw_traffic_pair) = Some report ∧
     t_columns report = ["index"; "avg_ridership"; "avg_congestion_index"] ∧
     (λ cs, default CNull (cs !! 0)) <$> t_rows report
     = [CStr "bus_stop"; CStr "city_public"; CStr "route_id"]).
Proof.
  split; [by vm_compute|]. eexists _, _.
  split; [vm_compute; reflexivity|]. split; [reflexivity|].
  split; [apply (bool_decide_unpack _); vm_compute; exact I|].
  split; [vm_compute; reflexivity|]. by split.
Qed.

(** ** What a run leaves alone *)

Lemma confined_ret {A} Kf Kd (a : A) : confined Kf Kd (ret a).
Proof. intros w. by repeat split. Qed.

Lemma confined_raise {A} Kf Kd e : confined Kf Kd (raise (A := A) e).
Proof. intros w. by repeat split. Qed.

Lemma confined_of_result {A} Kf Kd (r : result A) : confined Kf Kd (of_result r).
Proof. intros w. by repeat split. Qed.

Lemma confined_logger Kf Kd lv msg : confined Kf Kd (logger lv msg).
Proof. intros w. simpl. repeat split; try done. by apply prefix_app_r. Qed.

Lemma confined_liftH {A} Kf Kd (m : M heap A) : confined Kf Kd (liftH m).
Proof. intros w. unfold liftH. destruct (m (objects w)). by repeat split. Qed.

Lemma confined_bind {A B} Kf Kd (m : M World A) (k : A → M World B) :
  confined Kf Kd m → (∀ a, confined Kf Kd (k a)) → confined Kf Kd (bind m k).
Proof.
  intros Hm Hk w. unfold bind. destruct (Hm w) as (Hf & Hd & Ho & Hl).
  destruct (m w) as [[a|e] w1]; simpl in *; [|done].
  destruct (Hk a w1) as (Hf' & Hd' & Ho' & Hl').
  split; [|split; [|split]].
  - intros p Hp. by rewrite Hf', Hf.
  - intros n Hn. by rewrite Hd', Hd.
  - congruence.
  - by etrans.
Qed.

Lemma confined_try_except {A} Kf Kd (m : M World A) (h : exn → M World A) :
  confined Kf Kd m → (∀ e, confined Kf Kd (h e)) → confined Kf Kd (try_except m h).
Proof.
  intros Hm Hh w. unfold try_except. destruct (Hm w) as (Hf & Hd & Ho & Hl).
  destruct (m w) as [[a|e] w1]; simpl in *; [done|].
  destruct (Hh e w1) as (Hf' & Hd' & Ho' & Hl').
  split; [|split; [|split]].
  - intros p Hp. by rewrite Hf', Hf.
  - intros n Hn. by rewrite Hd', Hd.
  - congruence.
  - by etrans.
Qed.

Lemma confined_if {A} Kf Kd (b : bool) (m1 m2 : M World A) :
  confined Kf Kd m1 → confined Kf Kd m2 → confined Kf Kd (if b then m1 else m2).
Proof. by destruct b. Qed.

Lemma confined_decide {A} Kf Kd (Q : Prop) `{!Decision Q} (m1 m2 : M World A) :
  confined Kf Kd m1 → confined Kf Kd m2 → confined Kf Kd (if decide Q then m1 else m2).
Proof. by destruct (decide Q). Qed.

Lemma confined_to_csv Kf Kd df path : path ∈ Kf → confined Kf Kd (to_csv df path).
Proof.
  intros Hin. apply confined_bind; [apply confined_liftH|].
  intros d w. simpl. repeat split; try done.
  intros p Hp. apply lookup_insert_ne. by intros ->.
Qed.

Lemma confined_load_to_database Kf Kd df name :
  name ∈ Kd → confined Kf Kd (load_to_database df name).
Proof.
  intros Hin. apply confined_bind; [apply confined_liftH|].
  intros d w. simpl. repeat split; try done.
  intros n Hn. apply lookup_insert_ne. by intros ->.
Qed.

Create HintDb confined.
#[global] Hint Resolve confined_ret confined_raise confined_of_result confined_logger
  confined_liftH : confined.

Ltac confined_steps :=
  repeat lazymatch goal with
  | |- confined _ _ (let _ := _ in _) => cbv zeta
  | |- confined _ _ (bind _ _) => apply confined_bind; [|intros ?]
  | |- confined _ _ (try_except _ _) => apply confined_try_except; [|intros ?]
  | |- confined _ _ (if decide _ then _ else _) => apply confined_decide
  | |- confined _ _ (if _ then _ else _) => apply confined_if
  | |- confined _ _ (to_csv _ _) => apply confined_to_csv; set_solver
  | |- confined _ _ (load_to_database _ _) => apply confined_load_to_database; set_solver
  | |- confined _ _ _ => solve [auto with confined]
  end.

Section confined_pipeline.
Context (E : Env) {P : Pandas}.

Lemma confined_received Kf Kd r : confined Kf Kd (received r).
Proof. unfold received. confined_steps. Qed.

Lemma confined_load_public Kf Kd path :
  confined Kf Kd (load_public_transport_csv E path).
Proof. unfold load_public_transport_csv. confined_steps; apply confined_received. Qed.

Lemma confined_load_traffic Kf Kd path : confined Kf Kd (load_traffic_data E path).
Proof. unfold load_traffic_data. confined_steps; apply confined_received. Qed.

Lemma confined_maybe_git_pull Kf Kd : confined Kf Kd (maybe_git_pull E).
Proof. unfold maybe_git_pull. confined_steps. Qed.

Lemma confined_create_summary_report Kf Kd df path :
  path ∈ Kf → confined Kf Kd (create_summary_report df path).
Proof. intros Hin. unfold create_summary_report. confined_steps. Qed.

Lemma confined_run_pipeline :
  confined {[processed_csv E; summary_csv E]} {["transport_traffic"]} (run_pipeline E).
Proof.
  unfold run_pipeline. fold (processed_csv E) (summary_csv E).
  repeat lazymatch goal with
  | |- confined _ _ (bind _ _) =>
      apply confined_bind;
        [first [ solve [auto with confined] | apply confined_maybe_git_pull
               | apply confined_load_public | apply confined_load_traffic
               | apply confined_to_csv; set_solver
               | apply confined_load_to_database; set_solver
               | apply confined_create_summary_report; set_solver ]
        |intros ?]
  end.
  apply confined_logger.
Qed.
End confined_pipeline.

(** X15. A run of the pipeline without the pull of [DATA_GIT_PULL],
    however it ends, leaves every file other than the unified CSV and the
    report, and every table other than [transport_traffic], exactly as it
    was; it sends no mail, and it only appends to the log. *)
Theorem run_pipeline_confined (E : Env) {P : Pandas} (w : World) :
  lower (getenv_or E "DATA_GIT_PULL" "false") ≠ "true" →
  (∀ p, p ≠ processed_csv E → p ≠ summary_csv E →
        files (run_pipeline E w).2 !! p = files w !! p) ∧
  (∀ n, n ≠ "transport_traffic" →
        database (run_pipeline E w).2 !! n = database w !! n) ∧
  outbox (run_pipeline E w).2 = outbox w ∧
  log w `prefix_of` log (run_pipeline E w).2.
Proof.
  intros _. destruct (confined_run_pipeline E w) as (Hf & Hd & Ho & Hl).
  split; [|split; [|done]].
  - intros p Hp1 Hp2. apply Hf. set_solver.
  - intros n Hn. apply Hd. set_solver.
Qed.

Lemma run_pipeline_confined_witness :
  let E := sample_env raw_traffic in
  let w := mkWorld [] {[ "notes.txt" := mkTable ["a"] [] ]} ∅ [] [] in
  files (run_pipeline E (P := sample_pandas) w).2 !! "notes.txt"
  = Some (mkTable ["a"] []) ∧
  outbox (run_pipeline E (P := sample_pandas) w).2 = [].
Proof.
  intros E w.
  destruct (run_pipeline_confined E (P := sample_pandas) w) as (Hf & _ & Ho & _).
  - by vm_compute.
  - split; [|exact Ho]. rewrite Hf; [reflexivity| |]; by vm_compute.
Defined.

(** What the notification does, whatever the settings: it touches neither
    files nor tables nor objects, and it sends one mail at most. *)
Lemma send_failure_email_frame (E : Env) subject body w :
  let w' := (send_failure_email E subject body w).2 in
  files w' = files w ∧ database w' = database w ∧ objects w' = objects w ∧
  (outbox w' = outbox w ∨ ∃ msg, outbox w' = outbox w ++ [msg]).
Proof.
  unfold send_failure_email, bind, of_result, try_except, logger.
  destruct (py_int _) as [port|e]; simpl; [|by auto].
  destruct (negb _); simpl; [by auto|].
  destruct (compose E _ _ _ _) as [msg|e]; simpl; [|by auto].
  destruct (smtp_session E _ _ _ _ _) as [[]|e]; simpl; eauto 10.
Qed.

(** X16. The [__main__] block never hides a failure and never reports
    one that did not happen: it returns exactly when the run returns, with
    the world of the run; in every other case it raises, having sent one
    mail at most.  Whatever the settings of the mail, it leaves the files
    and the tables as the run left them. *)
Theorem main_faithful (E : Env) {P : Pandas} (w : World) :
  ((main E w).1 = Ok tt ↔ (run_pipeline E w).1 = Ok tt) ∧
  ((run_pipeline E w).1 = Ok tt → main E w = run_pipeline E w) ∧
  files (main E w).2 = files (run_pipeline E w).2 ∧
  database (main E w).2 = database (run_pipeline E w).2 ∧
  (outbox (main E w).2 = outbox w ∨ ∃ msg, outbox (main E w).2 = outbox w ++ [msg]).
Proof.
  destruct (confined_run_pipeline E w) as (_ & _ & Ho & _).
  unfold main, try_except.
  destruct (run_pipeline E w) as [[[]|e] w1] eqn:Hrun; simpl in Ho |- *.
  { repeat split; by auto. }
  erewrite bind_ok; [|reflexivity]. erewrite bind_ok; [|reflexivity]. cbv beta zeta.
  match goal with |- context [bind (send_failure_email E ?s ?b) ?k ?w0] =>
    pose proof (send_failure_email_frame E s b w0) as (Hf & Hd & _ & Hm);
    unfold bind; destruct (send_failure_email E s b w0) as [[[]|e'] w2]
  end; simpl in *; rewrite Hf, Hd, <- Ho;
    (split; [split; discriminate|]); (split; [discriminate|]); done.
Qed.

(** ** A run on sources with the required columns *)

Lemma renamed_timing_columns rp c :
  c ≠ "timestamp" → c ≠ "timing" →
  c ∈ columns (df_rename [("timing", "timestamp")] rp) ↔ c ∈ columns rp.
Proof.
  intros H1 H2. simpl. rewrite list_elem_of_fmap. split.
  - intros (x & Hx & Hin). simpl in Hx. case_decide; congruence.
  - intros Hin. exists c. split; [|done]. simpl. by rewrite decide_False.
Qed.

Lemma string_app_inj_l (a b c : string) : a +:+ b = a +:+ c → b = c.
Proof. induction a as [|x a IH]; simpl; [done|]. intros [= H]. by apply IH. Qed.

Lemma string_app_assoc (a b c : string) : (a +:+ b) +:+ c = a +:+ (b +:+ c).
Proof.
  induction a as [|x a IH]; [done|].
  change (String x ((a +:+ b) +:+ c) = String x (a +:+ b +:+ c)). by f_equal.
Qed.

Lemma processed_ne_summary (E : Env) : processed_csv E ≠ summary_csv E.
Proof.
  unfold processed_csv, summary_csv, PROCESSED_DIR, REPORTS_DIR, path_join.
  rewrite !string_app_assoc. intros Heq.
  apply string_app_inj_l in Heq. discriminate.
Qed.

Section valid_run.
Context (E : Env) {P : Pandas} {PC : PandasCoerce P}.

(** The run on two frames with the required columns, in one equation: the
    unified table of the cleaned frames is written to the file and to the
    database, and the report decides how the run ends. *)
Lemma run_pipeline_valid (w : World) (rp rt : DataFrame) (ip it jp jt : nat) :
  let dp := df_rename [("timing", "timestamp")] rp in
  let cp := mkDF (columns dp)
              (clean_rows ip (present NUMERIC_FIELDS (columns dp)) (rows dp)) in
  let ct := mkDF (columns rt)
              (clean_rows it (present NUMERIC_FIELDS (columns rt)) (rows rt)) in
  let unified :=
    mkDF (unified_columns (columns dp) (columns rt))
         (imap mkRow
            (merged_cells [jp; length (columns dp)] [jt; length (columns rt)]
               (carried ["route_id"] (columns rt))
               (with_hour ip <$> rows cp) (with_hour it <$> rows ct))) in
  public_read E (path_join (RAW_DIR E) "transport.csv") = Ok rp →
  traffic_read E (path_join (RAW_DIR E) "traffic.json") = Ok rt →
  missing PUBLIC_REQUIRED (columns rp) = [] →
  missing TRAFFIC_REQUIRED (columns rt) = [] →
  col_index "timestamp" (columns dp) = Some ip →
  col_index "timestamp" (columns rt) = Some it →
  col_index "route_id" (columns dp) = Some jp →
  col_index "route_id" (columns rt) = Some jt →
  "timestamp_hour" ∉ columns dp → "timestamp_hour" ∉ columns rt →
  (∀ h r, h !! r = Some dp →
     ∃ r' h', validate_and_clean r "timestamp" h = (Ok r', h') ∧ h' !! r' = Some cp) ∧
  (∀ h r, h !! r = Some rt →
     ∃ r' h', validate_and_clean r "timestamp" h = (Ok r', h') ∧ h' !! r' = Some ct) ∧
  (∀ h p t, h !! p = Some cp → h !! t = Some ct → p ≠ t →
     ∃ u h', build_unified_table p t h = (Ok u, h') ∧ h' !! u = Some unified) ∧
  ∃ w',
    run_pipeline E w
    = (match df_groupby_mean REPORT_KEYS REPORT_VALUES unified with
       | Ok _ => Ok tt
       | Raise e => Raise e
       end, w') ∧
    files w'
    = match df_groupby_mean REPORT_KEYS REPORT_VALUES unified with
      | Ok g => <[summary_csv E :=
                    table_of (df_rename [("ridership", "avg_ridership");
                                         ("congestion_index", "avg_congestion_index")] g)]>
                  (<[processed_csv E := table_of unified]> (files w))
      | Raise _ => <[processed_csv E := table_of unified]> (files w)
      end ∧
    database w' = <[ "transport_traffic" := table_of unified]> (database w).
Proof.
  intros dp cp ct unified Hrp Hrt Hokp Hokt Hip Hit Hjp Hjt Hnp Hnt.
  assert (Htc : "timestamp" ∉ NUMERIC_FIELDS) by (by apply (bool_decide_unpack _)).
  assert (Hclean : ∀ d i, col_index "timestamp" (columns d) = Some i →
            datetime_at i (mkDF (columns d)
              (clean_rows i (present NUMERIC_FIELDS (columns d)) (rows d)))).
  { intros d i Hi. unfold datetime_at. cbn [rows].
    destruct (clean_rows_cleaned i (present NUMERIC_FIELDS (columns d)) (rows d))
      as (ks & _ & HF).
    - intros (c & Hc & Hci)%elem_of_present.
      by rewrite (col_index_inj _ _ _ _ Hci Hi) in Hc.
    - apply present_NoDup, NoDup_NUMERIC_FIELDS.
    - eapply Forall2_Forall_outs; [exact HF|]. intros o k (_ & Ht & _).
      cbv beta. by destruct (cell_at i o). }
  assert (Hbuild : ∀ h p t, h !! p = Some cp → h !! t = Some ct → p ≠ t →
            build_unified_table p t h
            = (Ok (S (length h)),
               <[t := hourly it ct]> (<[p := hourly ip cp]> h)
               ++ [mkDF (merged_columns JOIN_KEYS "_public" "_traffic"
                           (columns dp ++ ["timestamp_hour"])
                           (columns rt ++ ["timestamp_hour"])) (rows unified);
                   unified])).
  { intros h p t Hp Ht Hpt.
    pose proof (build_unified_table_run h p t cp ct ip it Hp Ht Hpt Hip Hit Hnp Hnt
                  (Hclean dp ip Hip) (Hclean rt it Hit)) as Hrun.
    cbv zeta in Hrun.
    rewrite (df_merge_hourly cp ct ip it jp jt Hjp Hjt Hnp Hnt) in Hrun.
    rewrite Hrun. unfold unified, df_rename. cbn [columns rows].
    rewrite merged_columns_unified by done. by rewrite carried_hour by done. }
  split; [|split; [|split]].
  { intros h r Hr.
    destruct (validate_and_clean_run h r dp "timestamp" ip Hr Hip)
      as (ext & r' & Hrun & _ & Hout). eauto. }
  { intros h r Hr.
    destruct (validate_and_clean_run h r rt "timestamp" it Hr Hit)
      as (ext & r' & Hrun & _ & Hout). eauto. }
  { intros h p t Hp Ht Hpt. rewrite (Hbuild h p t Hp Ht Hpt).
    eexists _, _. split; [reflexivity|].
    rewrite lookup_app_r by (rewrite !length_insert; lia).
    rewrite !length_insert. by replace (S (length h) - length h) with 1 by lia. }
  destruct (run_pipeline_public E w rp Hrp Hokp) as (w6 & (Ho6 & Hf6 & Hd6 & _) & ->).
  destruct (load_traffic_returns E _ rt w6 Hrt Hokt) as (w7 & Hrun7 & Ho7 & Hf7 & Hd7 & _).
  step ltac:(exact Hrun7).
  erewrite bind_ok.
  2:{ apply len_run. rewrite Ho7. apply lookup_last. }
  cbv beta. erewrite bind_ok; [|reflexivity]. erewrite bind_ok; [|reflexivity].
  set (n := length (objects w)).
  assert (Hlen6 : length (objects w6) = n + 2).
  { rewrite Ho6, length_app. simpl. lia. }
  assert (Hdp0 : objects w7 !! S n = Some dp).
  { rewrite Ho7, Ho6. rewrite lookup_app_l by (rewrite length_app; simpl; lia).
    rewrite lookup_app_r by lia. by replace (S n - length (objects w)) with 1 by lia. }
  destruct (validate_and_clean_run (objects w7) (S n) dp "timestamp" ip Hdp0 Hip)
    as (ext1 & r1 & Hrun1 & Hle1 & Hout1).
  erewrite bind_ok.
  2:{ apply liftH_run. cbn [objects add_log]. exact Hrun1. }
  cbv beta.
  assert (Hrt1 : (objects w7 ++ ext1) !! length (objects w6) = Some rt).
  { apply lookup_app_l_Some. rewrite Ho7. apply lookup_last. }
  destruct (validate_and_clean_run (objects w7 ++ ext1) (length (objects w6)) rt
              "timestamp" it Hrt1 Hit)
    as (ext2 & r2 & Hrun2 & Hle2 & Hout2).
  erewrite bind_ok.
  2:{ apply liftH_run. cbn [objects add_log set_objects]. exact Hrun2. }
  cbv beta. erewrite bind_ok; [|reflexivity].
  set (h2 := (objects w7 ++ ext1) ++ ext2) in *.
  assert (Hr1 : h2 !! r1 = Some cp) by (by apply lookup_app_l_Some).
  assert (Hne : r1 ≠ r2).
  { apply lookup_lt_Some in Hout1. lia. }
  erewrite bind_ok.
  2:{ apply liftH_run. cbn [objects add_log set_objects].
      apply (Hbuild h2 r1 r2 Hr1 Hout2 Hne). }
  cbv beta.
  set (h3 := _ ++ [_; unified]).
  assert (Hu : h3 !! S (length h2) = Some unified).
  { subst h3. rewrite lookup_app_r by (rewrite !length_insert; lia).
    rewrite !length_insert. by replace (S (length h2) - length h2) with 1 by lia. }
  erewrite bind_ok.
  2:{ apply len_run. cbn [objects add_log set_objects]. exact Hu. }
  cbv beta. erewrite bind_ok; [|reflexivity]. erewrite bind_ok; [|reflexivity].
  erewrite bind_ok.
  2:{ apply to_csv_run. cbn [objects add_log set_objects]. exact Hu. }
  erewrite bind_ok; [|reflexivity].
  erewrite bind_ok.
  2:{ apply load_to_database_run. cbn [objects add_log set_objects set_files]. exact Hu. }
  erewrite bind_ok; [|reflexivity]. erewrite bind_ok; [|reflexivity].
  match goal with |- context [bind (create_summary_report ?u ?p) ?k ?w0] =>
    pose proof (create_summary_report_run u p w0 unified Hu) as Hrep end.
  destruct (df_groupby_mean REPORT_KEYS REPORT_VALUES unified) as [g|e].
  - erewrite bind_ok; [|exact Hrep].
    erewrite bind_ok; [|reflexivity].
    eexists. split; [reflexivity|]. cbn. by rewrite Hf7, Hf6, Hd7, Hd6.
  - erewrite bind_raise; [|exact Hrep].
    eexists. split; [reflexivity|]. cbn. by rewrite Hf7, Hf6, Hd7, Hd6.
Qed.
End valid_run.

Lemma city_public_unified pc tc :
  "city_public" ∉ pc → "city_public" ∉ tc →
  "city_public" ∈ unified_columns pc tc ↔ "city" ∈ pc ∧ "city" ∈ tc.
Proof.
  intros Hcp Hct. rewrite elem_of_unified_columns. split.
  - intros [(c & Hc & Heq)|[Heq|(c & Hc & Hne & Heq)]]; [|done|].
    + unfold public_label in Heq. repeat case_decide; [congruence| |congruence].
      change "city_public" with ("city" +:+ "_public") in Heq.
      apply string_app_inj_r in Heq. by subst c.
    + unfold traffic_label in Heq. pose proof (traffic_suffix_city c).
      case_decide; congruence.
  - intros [Hc1 Hc2]. left. exists "city". split; [done|]. unfold public_label.
    by rewrite decide_False, decide_True.
Qed.

Lemma route_id_unified pc tc : "route_id" ∈ pc → "route_id" ∈ unified_columns pc tc.
Proof.
  intros Hin. apply elem_of_unified_columns. left. exists "route_id".
  split; [done|]. unfold public_label. by rewrite decide_True.
Qed.

(** The columns the joiner needs, from what the readers have checked. *)
Lemma joiner_columns rp rt :
  (∀ c, c ∈ PUBLIC_REQUIRED → c ∈ columns rp) →
  (∀ c, c ∈ TRAFFIC_REQUIRED → c ∈ columns rt) →
  "timestamp_hour" ∉ columns rp →
  let dp := df_rename [("timing", "timestamp")] rp in
  (∃ ip it jp jt,
     col_index "timestamp" (columns dp) = Some ip ∧
     col_index "timestamp" (columns rt) = Some it ∧
     col_index "route_id" (columns dp) = Some jp ∧
     col_index "route_id" (columns rt) = Some jt) ∧
  "timestamp_hour" ∉ columns dp.
Proof.
  intros Hp Ht Hnp dp. split.
  - assert (H1 : "timestamp" ∈ columns dp).
    { simpl. apply list_elem_of_fmap. exists "timing". split; [done|].
      apply Hp. by apply (bool_decide_unpack _). }
    assert (H2 : "timestamp" ∈ columns rt).
    { apply Ht. by apply (bool_decide_unpack _). }
    assert (H3 : "route_id" ∈ columns dp).
    { apply renamed_timing_columns; [done..|]. apply Hp. by apply (bool_decide_unpack _). }
    assert (H4 : "route_id" ∈ columns rt).
    { apply Ht. by apply (bool_decide_unpack _). }
    apply col_index_is_Some in H1 as [ip ?], H2 as [it ?], H3 as [jp ?], H4 as [jt ?].
    by exists ip, it, jp, jt.
  - subst dp. by rewrite renamed_timing_columns.
Qed.

(** X17. The run composes its stages and adds nothing of its own.  Take
    sources that have the required columns (and no [timestamp_hour]
    column), in plain form: the labels of the relabelled transport frame
    and of the traffic frame are distinct, also in the unified table, the
    routes are texts and the timestamps are parsed without a time zone.
    Let [cp] and [ct] be what [validate_and_clean] returns for the
    relabelled transport frame and for the traffic frame, and [unified]
    what [build_unified_table] returns for [cp] and [ct].  Then the run
    writes [unified], the same table, to the CSV file and to the database
    table, whether or not it fails later; it ends as
    [create_summary_report] ends on [unified]; and the report file is
    written exactly when the run returns. *)
Theorem run_pipeline_composes (E : Env) {P : Pandas} {PC : PandasCoerce P}
    (w : World) (rp rt : DataFrame) :
  public_read E (path_join (RAW_DIR E) "transport.csv") = Ok rp →
  traffic_read E (path_join (RAW_DIR E) "traffic.json") = Ok rt →
  (∀ c, c ∈ PUBLIC_REQUIRED → c ∈ columns rp) →
  (∀ c, c ∈ TRAFFIC_REQUIRED → c ∈ columns rt) →
  plain_sources (df_rename [("timing", "timestamp")] rp) rt →
  "timestamp_hour" ∉ columns rp → "timestamp_hour" ∉ columns rt →
  ∃ cp ct unified,
    (∀ h r, h !! r = Some (df_rename [("timing", "timestamp")] rp) →
       ∃ r' h', validate_and_clean r "timestamp" h = (Ok r', h') ∧ h' !! r' = Some cp) ∧
    (∀ h r, h !! r = Some rt →
       ∃ r' h', validate_and_clean r "timestamp" h = (Ok r', h') ∧ h' !! r' = Some ct) ∧
    (∀ h p t, h !! p = Some cp → h !! t = Some ct → p ≠ t →
       ∃ u h', build_unified_table p t h = (Ok u, h') ∧ h' !! u = Some unified) ∧
    files (run_pipeline E w).2 !! processed_csv E = Some (table_of unified) ∧
    database (run_pipeline E w).2 !! "transport_traffic" = Some (table_of unified) ∧
    (∀ w0 u path, objects w0 !! u = Some unified →
       (run_pipeline E w).1 = (create_summary_report u path w0).1) ∧
    ((run_pipeline E w).1 = Ok tt → is_Some (files (run_pipeline E w).2 !! summary_csv E)) ∧
    ((run_pipeline E w).1 ≠ Ok tt →
     files (run_pipeline E w).2 !! summary_csv E = files w !! summary_csv E).
Proof.
  intros Hrp Hrt Hp Ht _ Hnp Hnt.
  destruct (joiner_columns rp rt Hp Ht Hnp) as [(ip & it & jp & jt & Hip & Hit & Hjp & Hjt) Hnp'].
  destruct (run_pipeline_valid E w rp rt ip it jp jt Hrp Hrt
              (proj2 (missing_nil _ _) Hp) (proj2 (missing_nil _ _) Ht)
              Hip Hit Hjp Hjt Hnp' Hnt)
    as (Hcp & Hct & Hu & w' & Hrun & Hf & Hd).
  eexists _, _, _. split; [exact Hcp|]. split; [exact Hct|]. split; [exact Hu|].
  rewrite Hrun. cbn [fst snd]. rewrite Hf, Hd.
  pose proof (processed_ne_summary E) as Hne.
  split; [|split; [by rewrite lookup_insert_eq|split; [|split]]].
  - destruct (df_groupby_mean _ _ _).
    + rewrite lookup_insert_ne by done. by rewrite lookup_insert_eq.
    + by rewrite lookup_insert_eq.
  - intros w0 u path Hu0. rewrite (create_summary_report_run u path w0 _ Hu0).
    by destruct (df_groupby_mean _ _ _).
  - destruct (df_groupby_mean _ _ _); [|done]. intros _.
    rewrite lookup_insert_eq. eauto.
  - destruct (df_groupby_mean _ _ _); [done|]. intros _.
    by rewrite lookup_insert_ne.
Qed.

Lemma run_pipeline_composes_witness :
  ∃ cp ct unified,
    (∀ h r, h !! r = Some (df_rename [("timing", "timestamp")] raw_public) →
       ∃ r' h', validate_and_clean (P := sample_pandas) r "timestamp" h = (Ok r', h')
                ∧ h' !! r' = Some cp) ∧
    (∀ h r, h !! r = Some raw_traffic_city →
       ∃ r' h', validate_and_clean (P := sample_pandas) r "timestamp" h = (Ok r', h')
                ∧ h' !! r' = Some ct) ∧
    (∀ h p t, h !! p = Some cp → h !! t = Some ct → p ≠ t →
       ∃ u h', build_unified_table p t h = (Ok u, h') ∧ h' !! u = Some unified) ∧
    files (run_pipeline (sample_env raw_traffic_city) (P := sample_pandas) empty_world).2
      !! processed_csv (sample_env raw_traffic_city) = Some (table_of unified).
Proof.
  destruct (run_pipeline_composes (sample_env raw_traffic_city) (P := sample_pandas)
              (PC := sample_pandas_coerce) empty_world raw_public raw_traffic_city)
    as (cp & ct & unified & H1 & H2 & H3 & H4 & _).
  - reflexivity.
  - reflexivity.
  - apply Forall_forall. apply (bool_decide_unpack _). vm_compute. exact I.
  - apply Forall_forall. apply (bool_decide_unpack _). vm_compute. exact I.
  - split; [|split; reflexivity]. apply (bool_decide_unpack _). vm_compute. exact I.
  - apply (bool_decide_unpack _). vm_compute. exact I.
  - apply (bool_decide_unpack _). vm_compute. exact I.
  - exists cp, ct, unified. split; [exact H1|]. split; [exact H2|]. split; [exact H3|exact H4].
Defined.

(** X18. Without a [city] field in the traffic data the run cannot
    write its report.  Take sources in plain form that have the required
    columns, none of them called [city_public] or [timestamp_hour], and a
    traffic source without [city].  The run writes the unified table to
    the CSV file and to the database.  Unless that table has exactly three
    rows, the run then raises [KeyError] for [city_public] and leaves the
    report file as it was.  (With exactly three rows [groupby] reads its
    three keys as group labels, and the run does not end in this error.)
    The traffic fields that the reader requires do not include [city]. *)
Theorem run_pipeline_needs_city_in_traffic (E : Env) {P : Pandas}
    {PC : PandasCoerce P} (w : World) (rp rt : DataFrame) :
  public_read E (path_join (RAW_DIR E) "transport.csv") = Ok rp →
  traffic_read E (path_join (RAW_DIR E) "traffic.json") = Ok rt →
  (∀ c, c ∈ PUBLIC_REQUIRED → c ∈ columns rp) →
  (∀ c, c ∈ TRAFFIC_REQUIRED → c ∈ columns rt) →
  plain_sources (df_rename [("timing", "timestamp")] rp) rt →
  "timestamp_hour" ∉ columns rp → "timestamp_hour" ∉ columns rt →
  "city_public" ∉ columns rp → "city_public" ∉ columns rt →
  "city" ∉ columns rt →
  ("city" ∉ TRAFFIC_REQUIRED) ∧
  ∃ unified,
    files (run_pipeline E w).2 !! processed_csv E = Some (table_of unified) ∧
    database (run_pipeline E w).2 !! "transport_traffic" = Some (table_of unified) ∧
    (length (rows unified) ≠ length REPORT_KEYS →
     (run_pipeline E w).1 = Raise (KeyError "city_public") ∧
     files (run_pipeline E w).2 !! summary_csv E = files w !! summary_csv E).
Proof.
  intros Hrp Hrt Hp Ht _ Hnp Hnt Hcp Hct Hcity.
  split; [by apply (bool_decide_unpack _)|].
  destruct (joiner_columns rp rt Hp Ht Hnp) as [(ip & it & jp & jt & Hip & Hit & Hjp & Hjt) Hnp'].
  destruct (run_pipeline_valid E w rp rt ip it jp jt Hrp Hrt
              (proj2 (missing_nil _ _) Hp) (proj2 (missing_nil _ _) Ht)
              Hip Hit Hjp Hjt Hnp' Hnt)
    as (_ & _ & _ & w' & Hrun & Hf & Hd).
  match type of Hrun with context [df_groupby_mean _ _ ?d] => set (unified := d) in * end.
  exists unified. rewrite Hrun. cbn [fst snd]. rewrite Hf, Hd.
  pose proof (processed_ne_summary E) as Hne.
  split; [|split; [by rewrite lookup_insert_eq|]].
  { destruct (df_groupby_mean _ _ _).
    - rewrite lookup_insert_ne by done. by rewrite lookup_insert_eq.
    - by rewrite lookup_insert_eq. }
  intros Hlen.
  rewrite (df_groupby_mean_missing_key unified ["route_id"] "city_public" ["bus_stop"]).
  - split; [done|]. by rewrite lookup_insert_ne.
  - reflexivity.
  - intros x ->%list_elem_of_singleton. apply route_id_unified.
    apply col_index_is_Some. eauto.
  - cbn [columns unified]. rewrite city_public_unified; [tauto| |done].
    by rewrite renamed_timing_columns.
  - exact Hlen.
Qed.

Lemma run_pipeline_needs_city_in_traffic_witness :
  let run := run_pipeline (sample_env raw_traffic) (P := sample_pandas) empty_world in
  ("city" ∉ TRAFFIC_REQUIRED) ∧
  run.1 = Raise (KeyError "city_public") ∧
  files run.2 !! summary_csv (sample_env raw_traffic) = None.
Proof.
  intros run.
  destruct (run_pipeline_needs_city_in_traffic (sample_env raw_traffic)
              (P := sample_pandas) (PC := sample_pandas_coerce)
              empty_world raw_public raw_traffic)
    as (Hreq & unified & Hcsv & _ & Hkey).
  - reflexivity.
  - reflexivity.
  - apply Forall_forall. apply (bool_decide_unpack _). vm_compute. exact I.
  - apply Forall_forall. apply (bool_decide_unpack _). vm_compute. exact I.
  - split; [|split; reflexivity]. apply (bool_decide_unpack _). vm_compute. exact I.
  - apply (bool_decide_unpack _). vm_compute. exact I.
  - apply (bool_decide_unpack _). vm_compute. exact I.
  - apply (bool_decide_unpack _). vm_compute. exact I.
  - apply (bool_decide_unpack _). vm_compute. exact I.
  - apply (bool_decide_unpack _). vm_compute. exact I.
  - split; [exact Hreq|]. apply Hkey. intros Hlen.
    assert (Hrows : length (t_rows (table_of unified)) = 2).
    { assert (Hsome : Some (table_of unified)
                      = Some (mkTable (t_columns (table_of unified))
                                      (t_rows (table_of unified)))) by (by destruct unified).
      rewrite <- Hcsv in Hsome. revert Hsome. vm_compute. by intros [= _ <-]. }
    unfold table_of in Hrows. simpl in Hrows. rewrite length_fmap in Hrows.
    rewrite Hlen in Hrows. discriminate.
Defined.

(** ** When the run succeeds *)

Lemma col_index_fmap_label (F : string → string) c l :
  (∀ x, x ∈ l → F x = c ↔ x = c) → col_index c (F <$> l) = col_index c l.
Proof.
  induction l as [|x l IH]; intros HF; [done|]. rewrite fmap_cons. simpl.
  rewrite IH by (intros y Hy; apply HF; by apply list_elem_of_further).
  pose proof (HF x (list_elem_of_here _ _)) as Hx.
  destruct (decide (F x = c)), (decide (x = c)); tauto || done.
Qed.

Lemma col_index_app_r c l k :
  c ∉ l → col_index c (l ++ k) = (λ n, length l + n) <$> col_index c k.
Proof.
  induction l as [|x l IH]; intros Hc; simpl.
  - by destruct (col_index c k).
  - apply not_elem_of_cons in Hc as [Hx Hc].
    rewrite decide_False by done. rewrite IH by done.
    by destruct (col_index c k).
Qed.

Lemma col_index_NoDup c l j : NoDup l → l !! j = Some c → col_index c l = Some j.
Proof.
  intros Hnd Hj. destruct (proj1 (col_index_is_Some c l)) as [j' Hj'].
  { by eapply list_elem_of_lookup_2. }
  rewrite Hj'. f_equal. apply col_index_lookup in Hj'.
  by eapply NoDup_lookup.
Qed.

Lemma carried_lookup_gen (on : list string) (g : nat → nat) rc : ∀ k j,
  (fst <$> filter (λ ic : nat * string, ic.2 ∉ on) (imap (λ n c, (g n, c)) rc)) !! k
  = Some j →
  ∃ n c, j = g n ∧ rc !! n = Some c ∧ filter (λ c, c ∉ on) rc !! k = Some c.
Proof.
  revert g. induction rc as [|c rc IH]; intros g k j; [done|].
  simpl. rewrite !filter_cons. simpl.
  change (imap ((λ n c, (g n, c)) ∘ S) rc) with (imap (λ n c, ((g ∘ S) n, c)) rc).
  destruct (decide (c ∉ on)) as [Hc|Hc].
  - destruct k as [|k]; simpl.
    + intros [= <-]. by exists 0, c.
    + intros Hk. destruct (IH (g ∘ S) k j Hk) as (n & c' & -> & Hn & Hf).
      by exists (S n), c'.
  - intros Hk. destruct (IH (g ∘ S) k j Hk) as (n & c' & -> & Hn & Hf).
    by exists (S n), c'.
Qed.

Lemma carried_lookup (on : list string) rc k j :
  carried on rc !! k = Some j →
  ∃ c, rc !! j = Some c ∧ filter (λ c, c ∉ on) rc !! k = Some c.
Proof.
  unfold carried. intros Hk.
  change (imap pair rc) with (imap (λ n c, (id n, c)) rc) in Hk.
  destruct (carried_lookup_gen on id rc k j Hk) as (n & c & -> & Hn & Hf). eauto.
Qed.

Lemma elem_of_merged_rows lk rk keep ls rs o :
  o ∈ imap mkRow (merged_cells lk rk keep ls rs) →
  ∃ l r, l ∈ ls ∧ r ∈ rs ∧ cells o = cells l ++ ((λ j, cell_at j r) <$> keep).
Proof.
  intros (n & cs & -> & Hcs)%elem_of_lookup_imap.
  apply list_elem_of_lookup_2, list_elem_of_In in Hcs.
  unfold merged_cells in Hcs. apply in_flat_map in Hcs as (l & Hl & Hcs).
  apply list_elem_of_In, list_elem_of_fmap in Hcs as (r & -> & Hr).
  apply list_elem_of_filter in Hr as [_ Hr].
  exists l, r. by rewrite list_elem_of_In.
Qed.

Lemma public_suffix_values c :
  c +:+ "_public" ≠ "ridership" ∧ c +:+ "_public" ≠ "congestion_index".
Proof.
  split; intros Heq; pose proof (f_equal String.length Heq) as Hl;
    rewrite string_app_length in Hl; simpl in Hl.
  - do 3 (destruct c as [|? c]; simpl in Hl; try lia). discriminate.
  - do 10 (destruct c as [|? c]; simpl in Hl; try lia). discriminate.
Qed.

Lemma traffic_suffix_values c : c +:+ "_traffic" ≠ "congestion_index".
Proof.
  intros Heq; pose proof (f_equal String.length Heq) as Hl;
    rewrite string_app_length in Hl; simpl in Hl.
  do 9 (destruct c as [|? c]; simpl in Hl; try lia). discriminate.
Qed.

Section typed_rows.
Context {P : Pandas} {PC : PandasCoerce P}.

Lemma coerce_row_length js : ∀ r,
  length (cells (foldl (λ a j, set_cell j (to_numeric (cell_at j a)) a) r js))
  = length (cells r).
Proof.
  induction js as [|j js IH]; intros r; simpl; [done|].
  rewrite IH. unfold set_cell. simpl. by rewrite length_insert.
Qed.

Lemma clean_rows_typed i js rs :
  i ∉ js → NoDup js →
  Forall (λ o, is_time (cell_at i o) ∧ ∀ j, j ∈ js → is_num (cell_at j o))
         (clean_rows i js rs).
Proof.
  intros Hi Hnd. destruct (clean_rows_cleaned i js rs Hi Hnd) as (ks & _ & HF).
  eapply Forall2_Forall_outs; [exact HF|]. intros o k (_ & Ht & Hn).
  split; [done|]. intros j Hj. by destruct (Hn j Hj).
Qed.

Lemma clean_rows_lengths i js rs n :
  Forall (λ r, length (cells r) = n) rs →
  Forall (λ r, length (cells r) = n) (clean_rows i js rs).
Proof.
  intros Hrs. unfold clean_rows.
  rewrite foldl_coerce_column, foldl_drop_missing.
  apply Forall_forall. intros o [_ Ho]%list_elem_of_filter.
  apply list_elem_of_fmap in Ho as (o1 & -> & Ho1).
  apply list_elem_of_filter in Ho1 as [_ Ho1].
  unfold parse_times, assign in Ho1. rewrite zip_with_zip in Ho1.
  apply list_elem_of_fmap in Ho1 as ([k v] & -> & Hk).
  apply elem_of_zip_l, list_elem_of_filter in Hk as [_ Hk].
  pose proof (proj1 (Forall_forall _ _) Hrs k Hk) as Hlen. simpl.
  rewrite coerce_row_length. unfold set_cell. simpl. by rewrite length_insert.
Qed.
End typed_rows.

(** X19. When the run succeeds.  Let the sources be in plain form (distinct
    labels, also in the unified table; routes that are texts; timestamps
    parsed without a time zone) and have the required columns, rows as long
    as their header and no [timestamp_hour] column.  If the traffic source
    has a [city] field but none called [bus_stop] or [ridership], and the
    transport source no [congestion_index] column, then the run returns:
    the unified table is in the CSV file and in the database, and the
    report is written with its five columns.  What the timestamps and the
    numeric fields hold cannot make it fail. *)
Theorem run_pipeline_succeeds (E : Env) {P : Pandas} {PC : PandasCoerce P}
    (w : World) (rp rt : DataFrame) :
  public_read E (path_join (RAW_DIR E) "transport.csv") = Ok rp →
  traffic_read E (path_join (RAW_DIR E) "traffic.json") = Ok rt →
  (∀ c, c ∈ PUBLIC_REQUIRED → c ∈ columns rp) →
  (∀ c, c ∈ TRAFFIC_REQUIRED → c ∈ columns rt) →
  plain_sources (df_rename [("timing", "timestamp")] rp) rt →
  "timestamp_hour" ∉ columns rp → "timestamp_hour" ∉ columns rt →
  Forall (λ r, length (cells r) = length (columns rp)) (rows rp) →
  Forall (λ r, length (cells r) = length (columns rt)) (rows rt) →
  "city" ∈ columns rt → "bus_stop" ∉ columns rt → "ridership" ∉ columns rt →
  "congestion_index" ∉ columns rp →
  ∃ w' report,
    run_pipeline E w = (Ok tt, w') ∧
    is_Some (files w' !! processed_csv E) ∧
    database w' !! "transport_traffic" = files w' !! processed_csv E ∧
    files w' !! summary_csv E = Some report ∧
    t_columns report = REPORT_COLUMNS.
Proof.
  intros Hrp Hrt Hp Ht [(_ & Hnd & _) _] Hnp Hnt Hlp Hlt Hcity Hbus Hrid Hci.
  destruct (joiner_columns rp rt Hp Ht Hnp)
    as [(ip & it & jp & jt & Hip & Hit & Hjp & Hjt) Hnp'].
  destruct (run_pipeline_valid E w rp rt ip it jp jt Hrp Hrt
              (proj2 (missing_nil _ _) Hp) (proj2 (missing_nil _ _) Ht)
              Hip Hit Hjp Hjt Hnp' Hnt)
    as (_ & _ & _ & w' & Hrun & Hf & Hd).
  set (dp := df_rename [("timing", "timestamp")] rp) in *.
  set (pc := columns dp) in *. set (tc := columns rt) in *.
  match type of Hrun with context [df_groupby_mean _ _ ?d] => set (unified := d) in * end.
  assert (Hreq : ∀ c, c ∈ ["route_id"; "city"; "bus_stop"; "ridership"] → c ∈ pc).
  { intros c Hc. apply renamed_timing_columns.
    - intros ->. revert Hc. by apply (bool_decide_unpack _).
    - intros ->. revert Hc. by apply (bool_decide_unpack _).
    - apply Hp. unfold PUBLIC_REQUIRED. set_solver. }
  assert (Hci_pc : "congestion_index" ∉ pc).
  { subst pc dp. by rewrite renamed_timing_columns. }
  assert (Hci_tc : "congestion_index" ∈ tc).
  { apply Ht. by apply (bool_decide_unpack _). }
  (* the keys *)
  assert (Hkeys : ∃ kix, Forall2 (λ c i, col_index c (columns unified) = Some i)
                           REPORT_KEYS kix).
  { assert (H1 : "route_id" ∈ columns unified).
    { apply route_id_unified, Hreq. set_solver. }
    assert (H2 : "city_public" ∈ columns unified).
    { apply elem_of_unified_columns. left. exists "city".
      split; [apply Hreq; set_solver|]. unfold public_label.
      by rewrite decide_False, decide_True. }
    assert (H3 : "bus_stop" ∈ columns unified).
    { apply elem_of_unified_columns. left. exists "bus_stop".
      split; [apply Hreq; set_solver|]. unfold public_label.
      by rewrite decide_False, decide_False. }
    apply col_index_is_Some in H1 as [k1 ?], H2 as [k2 ?], H3 as [k3 ?].
    exists [k1; k2; k3]. by repeat constructor. }
  destruct Hkeys as [kix Hkix].
  (* the value columns *)
  destruct (proj1 (col_index_is_Some "ridership" pc)) as [jr Hjr];
    [apply Hreq; set_solver|].
  assert (Hv1 : col_index "ridership" (columns unified) = Some jr).
  { cbn [columns unified]. unfold unified_columns. apply col_index_app_l.
    rewrite col_index_fmap_label; [done|]. intros x Hx. unfold public_label.
    destruct (public_suffix_values x) as [Hs _].
    repeat case_decide; split; intros; subst; try done; congruence. }
  assert (Hci_lab : "congestion_index"
                    ∈ traffic_label pc <$> filter (λ c, c ≠ "route_id") tc).
  { apply list_elem_of_fmap. exists "congestion_index". split.
    - unfold traffic_label. by rewrite decide_False.
    - by apply list_elem_of_filter. }
  apply col_index_is_Some in Hci_lab as [k Hk].
  assert (Hv2 : col_index "congestion_index" (columns unified)
                = Some (length pc + S k)).
  { cbn [columns unified]. unfold unified_columns. rewrite col_index_app_r.
    - rewrite length_fmap. simpl. by rewrite Hk.
    - intros (x & Hx & Hin)%list_elem_of_fmap. unfold public_label in Hx.
      destruct (public_suffix_values x) as [_ Hs].
      repeat case_decide; subst; try done; congruence. }
  (* the cleaned rows *)
  assert (Htime : "timestamp" ∉ NUMERIC_FIELDS) by (by apply (bool_decide_unpack _)).
  assert (Hrows : ∀ d i n, col_index "timestamp" (columns d) = Some i →
            Forall (λ r, length (cells r) = n) (rows d) →
            Forall (λ o, length (cells o) = n ∧
                         ∀ j, j ∈ present NUMERIC_FIELDS (columns d) → is_num (cell_at j o))
                   (clean_rows i (present NUMERIC_FIELDS (columns d)) (rows d))).
  { intros d i n Hi Hlen. apply Forall_and. split.
    - by apply clean_rows_lengths.
    - eapply Forall_impl; [apply clean_rows_typed|].
      + intros (c & Hc & Hci')%elem_of_present.
        by rewrite (col_index_inj _ _ _ _ Hci' Hi) in Hc.
      + apply present_NoDup, NoDup_NUMERIC_FIELDS.
      + by intros o [_ Ho]. }
  assert (Hlen_pc : length pc = length (columns rp)).
  { subst pc dp. simpl. by rewrite length_fmap. }
  assert (Hlp' : Forall (λ r, length (cells r) = length pc) (rows dp)).
  { rewrite Hlen_pc. exact Hlp. }
  pose proof (Hrows dp ip (length pc) Hip Hlp') as Hcp.
  pose proof (Hrows rt it (length tc) Hit Hlt) as Hct.
  assert (Hcells : ∀ o, o ∈ rows unified →
            ∃ l r, cells o = (cells l ++ [floor_cell (cell_at ip l)])
                             ++ ((λ j, cell_at j (with_hour it r))
                                   <$> carried ["route_id"] tc) ∧
                   length (cells l) = length pc ∧
                   (∀ j, j ∈ present NUMERIC_FIELDS pc → is_num (cell_at j l)) ∧
                   length (cells r) = length tc ∧
                   (∀ j, j ∈ present NUMERIC_FIELDS tc → is_num (cell_at j r))).
  { intros o (l' & r' & Hl' & Hr' & Ho)%elem_of_merged_rows.
    apply list_elem_of_fmap in Hl' as (l & -> & Hl), Hr' as (r & -> & Hr).
    destruct (proj1 (Forall_forall _ _) Hcp l Hl) as [Hl1 Hl2].
    destruct (proj1 (Forall_forall _ _) Hct r Hr) as [Hr1 Hr2].
    exists l, r. by rewrite Ho. }
  assert (Hn1 : Forall (λ r, is_num (cell_at jr r) || isna (cell_at jr r))
                       (rows unified)).
  { apply Forall_forall. intros o Ho.
    destruct (Hcells o Ho) as (l & r & Hc & Hl1 & Hl2 & _).
    assert (Hlt_jr : jr < length pc).
    { by eapply lookup_lt_Some, col_index_lookup. }
    assert (Hsame : cell_at jr o = cell_at jr l).
    { unfold cell_at. rewrite Hc, <- app_assoc. by rewrite lookup_app_l by lia. }
    rewrite Hsame. apply orb_True. left. apply Hl2.
    apply elem_of_present. exists "ridership". split; [|done].
    by apply (bool_decide_unpack _). }
  assert (Hn2 : Forall (λ r, is_num (cell_at (length pc + S k) r)
                             || isna (cell_at (length pc + S k) r)) (rows unified)).
  { apply Forall_forall. intros o Ho.
    destruct (Hcells o Ho) as (l & r & Hc & Hl1 & _ & Hr1 & Hr2).
    unfold cell_at at 1 2. rewrite Hc.
    rewrite lookup_app_r by (rewrite length_app; simpl; lia).
    rewrite length_app, Hl1. simpl.
    replace (length pc + S k - (length pc + 1)) with k by lia.
    rewrite list_lookup_fmap.
    destruct (carried ["route_id"] tc !! k) as [j|] eqn:Hj; [|done]. simpl.
    destruct (carried_lookup _ _ _ _ Hj) as (x & Hx & Hfx).
    apply col_index_lookup in Hk. rewrite list_lookup_fmap in Hk.
    rewrite (filter_iff_in _ (λ c, c ≠ "route_id")) in Hfx
      by (intros c _; set_solver).
    rewrite Hfx in Hk. simpl in Hk. injection Hk as Hk.
    assert (x = "congestion_index") as ->.
    { unfold traffic_label in Hk. pose proof (traffic_suffix_values x).
      case_decide; congruence. }
    apply (col_index_NoDup _ _ _ Hnd) in Hx.
    assert (Hj_lt : j < length tc) by (by eapply lookup_lt_Some, col_index_lookup).
    assert (Hsame : cell_at j (with_hour it r) = cell_at j r).
    { unfold cell_at, with_hour, push_cell. simpl. by rewrite lookup_app_l by lia. }
    rewrite Hsame. apply orb_True. left. apply Hr2.
    apply elem_of_present. exists "congestion_index". split; [|done].
    by apply (bool_decide_unpack _). }
  pose proof (df_groupby_mean_report unified kix jr (length pc + S k)
                Hkix Hv1 Hv2 Hn1 Hn2) as Hg.
  rewrite Hg in Hrun, Hf.
  eexists w', _. split; [exact Hrun|]. rewrite Hf, Hd.
  pose proof (processed_ne_summary E) as Hne.
  rewrite (lookup_insert_ne _ (summary_csv E) (processed_csv E)) by done.
  rewrite !lookup_insert_eq.
  split; [eauto|]. split; [done|]. split; [reflexivity|]. reflexivity.
Qed.

Lemma run_pipeline_succeeds_witness :
  ∃ w' report,
    run_pipeline (sample_env raw_traffic_city) (P := sample_pandas) empty_world
    = (Ok tt, w') ∧
    is_Some (files w' !! processed_csv (sample_env raw_traffic_city)) ∧
    database w' !! "transport_traffic"
    = files w' !! processed_csv (sample_env raw_traffic_city) ∧
    files w' !! summary_csv (sample_env raw_traffic_city) = Some report ∧
    t_columns report = REPORT_COLUMNS.
Proof.
  apply (run_pipeline_succeeds (sample_env raw_traffic_city) (P := sample_pandas)
           (PC := sample_pandas_coerce) empty_world raw_public raw_traffic_city).
  - reflexivity.
  - reflexivity.
  - apply Forall_forall. apply (bool_decide_unpack _). vm_compute. exact I.
  - apply Forall_forall. apply (bool_decide_unpack _). vm_compute. exact I.
  - split; [|split; reflexivity]. apply (bool_decide_unpack _). vm_compute. exact I.
  - apply (bool_decide_unpack _). vm_compute. exact I.
  - apply (bool_decide_unpack _). vm_compute. exact I.
  - apply (bool_decide_unpack _). vm_compute. exact I.
  - apply (bool_decide_unpack _). vm_compute. exact I.
  - apply (bool_decide_unpack _). vm_compute. exact I.
  - apply (bool_decide_unpack _). vm_compute. exact I.
  - apply (bool_decide_unpack _). vm_compute. exact I.
  - apply (bool_decide_unpack _). vm_compute. exact I.
Defined.

(** ** The dashboard *)

Section dashboard_props.
Context (D : Site) {P : Pandas} {PC : PandasCoerce P}.

Lemma parse_if_present_run df col :
  parse_if_present df col
  = Ok (match col_index col (columns df) with
        | Some i => mkDF (columns df) (parse_times i (rows df))
        | None => df
        end).
Proof.
  unfold parse_if_present. destruct (col_index col (columns df)) as [i|] eqn:Hi.
  - rewrite decide_True by (apply col_index_is_Some; eauto).
    unfold df_getitem, df_setitem. rewrite Hi.
    by rewrite decide_True by (by rewrite to_datetime_length, length_fmap).
  - by rewrite decide_False by (by apply col_index_None).
Qed.

Lemma parse_each_run cols : ∀ df,
  parse_each cols df
  = Ok (mkDF (columns df)
          (foldl (λ rs i, parse_times i rs) (rows df) (present cols (columns df)))).
Proof.
  induction cols as [|c cols IH]; intros [cs rs]; [done|].
  simpl. rewrite parse_if_present_run. unfold present. simpl.
  destruct (col_index c cs) as [i|]; simpl; by rewrite IH.
Qed.

Lemma parse_times_rows i rs :
  Forall2 (λ o k, label o = label k ∧ length (cells o) = length (cells k) ∧
                  (∀ j, j ≠ i → cell_at j o = cell_at j k) ∧
                  is_time (cell_at i o) || isna (cell_at i o))
          (parse_times i rs) rs.
Proof.
  unfold parse_times, assign.
  assert (Hlen : length (to_datetime (cell_at i <$> rs)) = length rs)
    by (by rewrite to_datetime_length, length_fmap).
  pose proof (to_datetime_dtype (cell_at i <$> rs)) as Hty.
  revert Hlen Hty. generalize (to_datetime (cell_at i <$> rs)). intros vs.
  revert vs. induction rs as [|r rs IH]; intros [|v vs] Hlen Hty; simplify_eq/=;
    [constructor|].
  apply Forall_cons in Hty as [Hv Hty]. constructor; [|by apply IH].
  split; [done|]. split; [by unfold set_cell; simpl; rewrite length_insert|]. split.
  - intros j Hj. by rewrite cell_at_set_cell_ne.
  - by destruct (cell_at_set_cell i v r) as [->|[-> _]].
Qed.

Lemma parse_all_rows js : ∀ rs, NoDup js →
  Forall2 (λ o k, label o = label k ∧ length (cells o) = length (cells k) ∧
                  (∀ j, j ∉ js → cell_at j o = cell_at j k) ∧
                  (∀ j, j ∈ js → is_time (cell_at j o) || isna (cell_at j o)))
          (foldl (λ rs i, parse_times i rs) rs js) rs.
Proof.
  induction js as [|i js IH]; intros rs Hnd; simpl.
  - apply Forall_Forall2_diag, Forall_true. intros r.
    repeat split; try done. by intros j ?%elem_of_nil.
  - apply NoDup_cons in Hnd as [Hi Hnd].
    eapply Forall2_trans; [|apply IH, Hnd|apply parse_times_rows].
    intros o m k (Hl1 & Hn1 & Hout1 & Hin1) (Hl2 & Hn2 & Hout2 & Hin2).
    split; [congruence|]. split; [congruence|]. split.
    + intros j [Hji Hj]%not_elem_of_cons. rewrite Hout1 by done. by apply Hout2.
    + intros j [->|Hj]%elem_of_cons; [|by apply Hin1].
      by rewrite Hout1.
Qed.

End dashboard_props.

(** X20. [load_data] of the dashboard.  Without the database file it
    returns the empty frame.  With the file, it raises when the connection
    cannot be opened, which happens outside the [try]; once the connection
    is open it does not raise: when the query fails (the table is not
    there yet) it returns the empty frame, and otherwise the table as read
    (its labels being distinct), with the same columns and, row for row,
    the same index labels and the same cells, except in the columns
    [event_hour], [timestamp_public] and [timestamp_traffic] that the
    table has: there every cell is a timestamp or missing. *)
Theorem load_data_outcomes (D : Site) {P : Pandas} {PC : PandasCoerce P} :
  (path_exists D (DB_PATH D) = false → load_data D = Ok EMPTY_FRAME) ∧
  (path_exists D (DB_PATH D) = true →
   (∀ e, connect D (DB_PATH D) = Raise e → load_data D = Raise e) ∧
   (connect D (DB_PATH D) = Ok tt →
    (∀ e, read_sql_query D (DB_PATH D) ("SELECT * FROM " +:+ TABLE_NAME D) = Raise e →
          load_data D = Ok EMPTY_FRAME) ∧
    (∀ d, read_sql_query D (DB_PATH D) ("SELECT * FROM " +:+ TABLE_NAME D) = Ok d →
          NoDup (columns d) →
          ∃ out, load_data D = Ok out ∧
            columns out = columns d ∧
            Forall2 (λ o k,
                label o = label k ∧ length (cells o) = length (cells k) ∧
                (∀ c, c ∉ TIME_COLUMNS →
                      cell_of (columns d) c o = cell_of (columns d) c k) ∧
                (∀ c, c ∈ TIME_COLUMNS →
                      is_time (cell_of (columns d) c o)
                      || isna (cell_of (columns d) c o)))
              (rows out) (rows d)))).
Proof.
  unfold load_data. split; [by intros ->|]. intros ->.
  change (negb true) with false. cbv iota. split; [by intros e ->|]. intros ->.
  cbv zeta. split; [by intros e ->|]. intros d -> _.
  rewrite parse_each_run. eexists. split; [reflexivity|].
  split; [done|]. cbn [rows columns].
  eapply Forall2_impl.
  { apply parse_all_rows, present_NoDup. by apply (bool_decide_unpack _). }
  intros o k (Hl & Hn & Hout & Hin). split; [done|]. split; [done|]. split.
  + intros c Hc. unfold cell_of.
    destruct (col_index c (columns d)) as [j|] eqn:Hj; [|done].
    apply Hout. intros (c' & Hc' & Hj')%elem_of_present.
    by rewrite (col_index_inj _ _ _ _ Hj' Hj) in Hc'.
  + intros c Hc. unfold cell_of.
    destruct (col_index c (columns d)) as [j|] eqn:Hj; [|done].
    apply Hin. apply elem_of_present. eauto.
Qed.

Lemma load_data_outcomes_witness :
  ∃ out, load_data sample_site (P := sample_pandas) = Ok out ∧
         columns out = columns served_table ∧
         length (rows out) = length (rows served_table).
Proof.
  destruct (load_data_outcomes sample_site (P := sample_pandas)
              (PC := sample_pandas_coerce)) as (_ & Hd).
  destruct (Hd eq_refl) as (_ & Hopen).
  destruct (Hopen eq_refl) as (_ & Hread).
  destruct (Hread served_table eq_refl) as (out & Hrun & Hcols & Hrows).
  - apply (bool_decide_unpack _). vm_compute. exact I.
  - exists out. split; [exact Hrun|]. split; [exact Hcols|].
    exact (Forall2_length _ _ _ Hrows).
Defined.

Lemma filter_filter_and {A} (Q1 Q2 Q : A → Prop) `{!∀ x, Decision (Q1 x)}
    `{!∀ x, Decision (Q2 x)} `{!∀ x, Decision (Q x)} (l : list A) :
  (∀ x, Q x ↔ Q1 x ∧ Q2 x) → filter Q2 (filter Q1 l) = filter Q l.
Proof.
  intros HQ. rewrite list_filter_filter. apply list_filter_iff.
  intros x. rewrite HQ. tauto.
Qed.

(** X21. The filters of the dashboard.  On a table with a [route_id]
    column the filter block never raises; it keeps the columns and returns
    exactly the rows that pass both filters, in their order and with their
    index labels.  A filter with an empty selection passes every row: with
    no route and no city selected the table is returned whole, not
    empty; and the city filter is skipped on a table without a
    [city_public] column. *)
Theorem filter_data_selects (selected_routes selected_cities : list cell)
    (df : DataFrame) :
  "route_id" ∈ columns df →
  ∃ out, filter_data selected_routes selected_cities df = Ok out ∧
    columns out = columns df ∧
    rows out = filter (selected selected_routes selected_cities (columns df)) (rows df) ∧
    rows out `sublist_of` rows df ∧
    (selected_routes = [] →
     selected_cities = [] ∨ "city_public" ∉ columns df → out = df).
Proof.
  intros [i Hi]%col_index_is_Some.
  assert (Hrows : ∃ out, filter_data selected_routes selected_cities df = Ok out ∧
            columns out = columns df ∧
            rows out = filter (selected selected_routes selected_cities (columns df))
                              (rows df)).
  { assert (Hsel : ∀ r, selected selected_routes selected_cities (columns df) r ↔
              (selected_routes = [] ∨ isin selected_routes (cell_at i r) = true) ∧
              (selected_cities = [] ∨ "city_public" ∉ columns df ∨
               isin selected_cities (cell_of (columns df) "city_public" r) = true)).
    { intros r. unfold selected, cell_of at 1. by rewrite Hi. }
    unfold filter_data, select_isin. rewrite Hi.
    destruct selected_routes as [|sr srs], selected_cities as [|sc scs]; simpl.
    - eexists. split; [reflexivity|]. split; [done|].
      symmetry. apply filter_all, Forall_true. intros r. apply Hsel. by split; left.
    - destruct (col_index "city_public" (columns df)) as [j|] eqn:Hj.
      + rewrite bool_decide_eq_true_2 by (apply col_index_is_Some; eauto).
        eexists. split; [reflexivity|]. split; [done|]. cbn [rows].
        apply list_filter_iff. intros r. rewrite Hsel. unfold cell_of. rewrite Hj.
        split; [by intros ?; split; [left|right; right]|].
        intros [_ [?|[Hno|?]]]; [done| |done].
        destruct Hno. apply col_index_is_Some. eauto.
      + rewrite bool_decide_eq_false_2 by (by apply col_index_None).
        eexists. split; [reflexivity|]. split; [done|].
        symmetry. apply filter_all, Forall_true. intros r. apply Hsel.
        split; [by left|]. right; left. by apply col_index_None.
    - eexists. split; [reflexivity|]. split; [done|]. cbn [rows].
      apply list_filter_iff. intros r. rewrite Hsel.
      split; [by intros ?; split; [right|left]|].
      by intros [[?|?] _].
    - destruct (col_index "city_public" (columns df)) as [j|] eqn:Hj.
      + rewrite bool_decide_eq_true_2 by (apply col_index_is_Some; eauto).
        eexists. split; [reflexivity|]. split; [done|]. cbn [rows].
        apply filter_filter_and. intros r. rewrite Hsel. unfold cell_of. rewrite Hj.
        split.
        * intros [[?|?] [?|[Hno|?]]]; try done.
          destruct Hno. apply col_index_is_Some. eauto.
        * intros [? ?]. split; [by right|by right; right].
      + rewrite bool_decide_eq_false_2 by (by apply col_index_None).
        eexists. split; [reflexivity|]. split; [done|]. cbn [rows].
        apply list_filter_iff. intros r. rewrite Hsel. split.
        * intros ?. split; [by right|]. right; left. by apply col_index_None.
        * by intros [[?|?] _]. }
  destruct Hrows as (out & Hrun & Hcols & Hrows). exists out.
  split; [done|]. split; [done|]. split; [done|]. split.
  - rewrite Hrows. apply sublist_filter.
  - intros -> Hc. destruct out as [cs rs], df as [cs' rs']. simpl in *. subst cs.
    f_equal. rewrite Hrows. apply filter_all, Forall_true. intros r.
    split; [by left|]. destruct Hc; [by left|by right; left].
Qed.

Lemma filter_data_selects_witness :
  ∃ out, filter_data [CStr "R1"; CStr "R2"] [CStr "Pune"] stored_unified = Ok out ∧
    columns out = columns stored_unified ∧
    rows out = filter (selected [CStr "R1"; CStr "R2"] [CStr "Pune"]
                         (columns stored_unified)) (rows stored_unified) ∧
    rows out `sublist_of` rows stored_unified ∧
    ([CStr "R1"; CStr "R2"] = [] →
     [CStr "Pune"] = [] ∨ "city_public" ∉ columns stored_unified → out = stored_unified).
Proof.
  apply (filter_data_selects [CStr "R1"; CStr "R2"] [CStr "Pune"] stored_unified).
  apply (bool_decide_unpack _). vm_compute. exact I.
Defined.

(** The sample tables through the dashboard: the texts of the three time
    columns are parsed, and the filters keep the one row of the selected
    routes whose city is selected. *)
Example dashboard_sample :
  (cell_of (columns served_table) "event_hour" <$> rows served_table
   = [CStr "2025-01-01 08:00:00.000000"; CStr "2025-01-01 08:00:00.000000"]) ∧
  (∃ out, load_data sample_site (P := sample_pandas) = Ok out ∧
     (λ r, (λ c, cell_of (columns out) c r) <$> TIME_COLUMNS) <$> rows out
     = [ [CTime 1735718400000000000; CTime 1735719000000000000;
          CTime 1735721100000000000];
         [CTime 1735718400000000000; CTime 1735721400000000000;
          CTime 1735721100000000000] ]) ∧
  filter_data [CStr "R1"; CStr "R2"] [CStr "Pune"] stored_unified
  = Ok (mkDF ["route_id"; "city_public"; "ridership"; "event_hour"]
          [ mkRow 0 [CStr "R1"; CStr "Pune"; CNum 120; CStr "2025-01-01 08:00:00"] ]).
Proof.
  split; [by vm_compute|]. split; [|by vm_compute].
  eexists. split; [vm_compute; reflexivity|]. by vm_compute.
Qed.
